(** * BarcodeApp: print pipeline, history ledger and configuration store

    A shallow embedding of [BarcodeApp.py] (a Streamlit script) and the
    properties of its print pipeline, its CSV history ledger, its JSON
    configuration store and its printer enumeration.

    Python values are embedded as follows: [str] as [string] (a sequence of
    code points below 256), [int] as [Z] or [nat], [dict] as [gmap string _],
    [None]-or-value as [option], a raised exception as a constructor of a
    result type, and the three stateful collaborators (file system, Streamlit
    message area, printer driver) as fields of an explicit state record. *)

From Stdlib Require Import ZArith List String Ascii Bool Lia Permutation Sorted.
From Stdlib Require Import QArith Qround Qpower Qminmax Lqa Floats Uint63.
From stdpp Require Import gmap strings.
Import ListNotations.

Local Open Scope string_scope.
Local Open Scope list_scope.

Set Warnings "-register-all".

(** ** Python strings *)

Module PyStr.

(** [bool(s)] for a string: true when it is not empty. *)
Definition truthy (s : string) : bool :=
  match s with
  | EmptyString => false
  | String _ _ => true
  end.

(** [str.isspace] on one character, restricted to the code points below 256. *)
Definition is_space (c : ascii) : bool :=
  let n := nat_of_ascii c in
  (((9 <=? n) && (n <=? 13)) || ((28 <=? n) && (n <=? 32))
   || (n =? 133) || (n =? 160))%nat.

Fixpoint lstrip (s : string) : string :=
  match s with
  | EmptyString => EmptyString
  | String c s' => if is_space c then lstrip s' else s
  end.

Fixpoint rstrip (s : string) : string :=
  match s with
  | EmptyString => EmptyString
  | String c s' =>
      match rstrip s' with
      | EmptyString => if is_space c then EmptyString else String c EmptyString
      | r => String c r
      end
  end.

(** [s.strip()] *)
Definition strip (s : string) : string := rstrip (lstrip s).

(** The test [s and s.strip()] used by the script as a condition. *)
Definition nonblank (s : string) : bool := truthy s && truthy (strip s).

End PyStr.

(** ** The clock and [strftime] *)

Module Clock.
Local Open Scope N_scope.

(** A reading of [datetime.now()]; [hour] is on the 24-hour clock. *)
Record datetime := mk_datetime {
  year : N; month : N; day : N;
  hour : N; minute : N; second : N
}.

(** The ranges [datetime] guarantees (MINYEAR = 1, MAXYEAR = 9999; years
    before 1000 are left out, their [%Y] rendering depends on the C library). *)
Definition valid (d : datetime) : Prop :=
  1000 <= year d <= 9999 /\ 1 <= month d <= 12 /\ 1 <= day d <= 31 /\
  hour d <= 23 /\ minute d <= 59 /\ second d <= 59.

Definition digit (n : N) : ascii := ascii_of_N (48 + n mod 10).

Definition two_digits (n : N) : string :=
  String (digit (n / 10)) (String (digit n) EmptyString).

Definition four_digits (n : N) : string :=
  String (digit (n / 1000)) (String (digit (n / 100)) (two_digits n)).

(** [%I]: the hour on the 12-hour clock, 12 for midnight and noon. *)
Definition hour12 (h : N) : N :=
  if h mod 12 =? 0 then 12 else h mod 12.

(** [%p] *)
Definition am_pm (h : N) : string := if h <? 12 then "AM" else "PM".

(** [d.strftime("%m/%d/%Y %I:%M:%S %p")] *)
Definition strftime (d : datetime) : string :=
  two_digits (month d) +:+ "/" +:+ two_digits (day d) +:+ "/" +:+
  four_digits (year d) +:+ " " +:+
  two_digits (hour12 (hour d)) +:+ ":" +:+ two_digits (minute d) +:+ ":" +:+
  two_digits (second d) +:+ " " +:+ am_pm (hour d).

End Clock.

(** ** The history ledger [print_history.csv] *)

Module Ledger.
Import Clock.

(** One [csv.writer.writerow] call writes one row; the file is the rows
    written to it, in order. *)
Definition row := list string.

Definition header : row := ["barcode"; "date time printed"].

(** The state of the path [CSV_FILE]: [None] when no file is there. *)
Definition file := option (list row).

Definition row_eq_dec (a b : row) : {a = b} + {a <> b} := decide (a = b).

(** [open(CSV_FILE, "a")]: the rows already there, none for a new file. *)
Definition open_append (f : file) : list row :=
  match f with
  | None => []
  | Some rows => rows
  end.

(** [log_print_history()]. [input_barcode] is the module global of that
    name, [None] when it is not bound yet; [now] is the clock reading. *)
Definition log_print_history
    (input_barcode : option string) (now : datetime) (f : file) : file :=
  let barcode_value :=
    match input_barcode with Some v => v | None => "" end in
  let now := strftime now in
  let write_header :=
    match f with
    | Some _ => false
    | None => true  (* FileNotFoundError *)
    end in
  let rows := open_append f in
  let rows := if write_header then rows ++ [header] else rows in
  Some (rows ++ [[barcode_value; now]]).

(** The "Clear Print History" handler: [open(CSV_FILE, "w")], one header row. *)
Definition clear_history (f : file) : file := Some [header].

(** The block that creates the file before it is read. *)
Definition ensure_exists (f : file) : file :=
  match f with
  | None => Some [header]
  | Some _ => f
  end.

Inductive op :=
| EnsureInitialized
| Append (input_barcode : option string) (now : datetime)
| Clear.

Definition run_op (f : file) (o : op) : file :=
  match o with
  | EnsureInitialized => ensure_exists f
  | Append v now => log_print_history v now f
  | Clear => clear_history f
  end.

Definition run_ops (ops : list op) (f : file) : file :=
  fold_left run_op ops f.

(** The invariant of an existing ledger: the header first, and nowhere else. *)
Definition well_formed (rows : list row) : Prop :=
  exists records, rows = header :: records /\ ~ In header records.

(** A file that exists and is well formed. *)
Definition good (f : file) : Prop :=
  match f with
  | None => False
  | Some rows => well_formed rows
  end.

End Ledger.

(** ** Binary64 arithmetic

    Python's [float] is IEEE-754 binary64.  A finite float is embedded as the
    rational it denotes, and an operation as the exact operation followed by
    rounding to the nearest float, ties to even.  The embedding covers the
    normal range (no overflow to infinity, no subnormals), which contains every
    value the print layout computes from 32-bit device and image sizes. *)

Module Float.
Local Open Scope Q_scope.

(** Rounding to the nearest integer, ties to even: the rounding of a
    mantissa, and [round(x)] of Python. *)
Definition round_half_even (x : Q) : Z :=
  let f := Qfloor x in
  match Qcompare (x - inject_Z f) (1 # 2) with
  | Lt => f
  | Gt => (f + 1)%Z
  | Eq => if Z.even f then f else (f + 1)%Z
  end.

(** For [0 < x], the exponent [e] of the last place of the float next to
    [x]: [2 ^ (e + 52) <= x < 2 ^ (e + 53)]. *)
Definition ulp_exp (x : Q) : Z :=
  let k := (Z.log2 (Qnum x) - Z.log2 (Zpos (Qden x)))%Z in
  if Qle_bool (2 ^ k) x then (k - 52)%Z else (k - 53)%Z.

(** The float nearest to [x]: a 53-bit mantissa times [2 ^ e]. *)
Definition rnd (x : Q) : Q :=
  match Qcompare x 0 with
  | Eq => 0
  | Gt => let e := ulp_exp x in
          inject_Z (round_half_even (x / 2 ^ e)) * 2 ^ e
  | Lt => let e := ulp_exp (- x) in
          - (inject_Z (round_half_even (- x / 2 ^ e)) * 2 ^ e)
  end.

(** [a / b] on two [int]s, [b] not zero: the quotient, correctly rounded. *)
Definition truediv (a b : Z) : Q := rnd (inject_Z a / inject_Z b).

(** [n * x] for an [int] and a [float]. *)
Definition mul_int (n : Z) (x : Q) : Q := rnd (inject_Z n * x).

(** [min(x, y)]: the second argument only when it is smaller. *)
Definition py_min (x y : Q) : Q :=
  match Qcompare y x with
  | Lt => y
  | _ => x
  end.

(** [int(x)]: truncation toward zero. *)
Definition py_int (x : Q) : Z :=
  if Qle_bool 0 x then Qfloor x else Qceiling x.

(** [round(x)] *)
Definition py_round (x : Q) : Z := round_half_even x.

(** The unit roundoff of binary64, [2 ^ -53]. *)
Definition u : Q := 1 # 9007199254740992.

(** The kernel's binary64 numbers, read back as rationals, to compare the
    embedding with on sample inputs. *)
Definition Q_of_float (f : float) : option Q :=
  match Prim2SF f with
  | S754_zero _ => Some 0
  | S754_finite s m e =>
      Some ((if s then - (1) else 1) * inject_Z (Zpos m) * 2 ^ e)
  | _ => None
  end.

Definition float_of_int (z : Z) : float :=
  PrimFloat.of_uint63 (Uint63.of_Z z).

End Float.

(** ** Label images *)

Module Img.
Local Open Scope Z_scope.

(** A raster: its size and the colour of each pixel ([0xRRGGBB]); only
    the pixels [0 <= i < width], [0 <= j < height] are part of it. *)
Record image := mk_image {
  width : Z;
  height : Z;
  pixel : Z -> Z -> Z
}.

(** [0xFFFFFF] *)
Definition white : Z := 16777215.

(** [Image.new("RGB", (w, h), color)] *)
Definition new (w h color : Z) : image :=
  {| width := w; height := h; pixel := fun _ _ => color |}.

(** [canvas.paste(im, (x, y))]: the part of [im] that falls on the canvas
    replaces what was there; the canvas keeps its size. *)
Definition paste (canvas im : image) (x y : Z) : image :=
  {| width := width canvas;
     height := height canvas;
     pixel := fun i j =>
       if (x <=? i) && (i <? x + width im) && (y <=? j) && (j <? y + height im)
       then pixel im (i - x) (j - y)
       else pixel canvas i j |}.

(** Whether the pixel [(i, j)] of a canvas is covered by a raster of size
    [w] by [h] pasted at [(x, y)]. *)
Definition covered (x y w h i j : Z) : bool :=
  (x <=? i) && (i <? x + w) && (y <=? j) && (j <? y + h).

End Img.

(** ** Results of calls that may raise *)

Inductive outcome (A : Type) : Type :=
| Returned (a : A)
| Raised (exception : string).
Arguments Returned {A} a.
Arguments Raised {A} exception.

(** ** The configuration store [config.json] *)

Module Config.

(** What [json.load] returns.  A number that is not an integer is kept as
    its literal; nothing here computes with it. *)
Inductive json :=
| JNull
| JBool (b : bool)
| JInt (n : Z)
| JFloat (literal : string)
| JStr (s : string)
| JArr (items : list json)
| JObj (members : list (string * json)).

(** The state of the path [CONFIG_FILE] as [load_config] meets it. *)
Inductive config_file :=
| Absent                (* [CONFIG_FILE.exists()] is false *)
| Unreadable            (* [open] or the read raises [OSError] *)
| Undecodable           (* the bytes are not UTF-8 *)
| Malformed             (* the text is not JSON *)
| Parsed (v : json).    (* the text is the JSON value [v] *)

Definition default_config : gmap string json :=
  {[ "last_printer" := JNull; "auto_print_enabled" := JBool true ]}.

(** The [dict] of a JSON object: a repeated name keeps its last value. *)
Definition dict_of_members (members : list (string * json)) : gmap string json :=
  fold_left (fun d kv => <[ kv.1 := kv.2 ]> d) members ∅.

(** [json.load(config_file)] on the opened file. *)
Definition json_load (f : config_file) : outcome json :=
  match f with
  | Absent => Raised "FileNotFoundError"
  | Unreadable => Raised "OSError"
  | Undecodable => Raised "UnicodeDecodeError"
  | Malformed => Raised "JSONDecodeError"
  | Parsed v => Returned v
  end.

(** [{**default_config, **loaded_config}]: the keys of both, the values of
    [loaded_config] where it has the key.  Unpacking anything but a
    mapping raises. *)
Definition merge (defaults : gmap string json) (loaded : json)
  : outcome (gmap string json) :=
  match loaded with
  | JObj members => Returned (dict_of_members members ∪ defaults)
  | _ => Raised "TypeError"
  end.

(** The body of the [try] of [load_config]. *)
Definition load_config_body (f : config_file) : outcome (gmap string json) :=
  match f with
  | Absent => Returned default_config
  | _ =>
      match json_load f with
      | Returned loaded_config => merge default_config loaded_config
      | Raised e => Raised e
      end
  end.

(** [except (json.JSONDecodeError, OSError)]; [FileNotFoundError] is an
    [OSError], [UnicodeDecodeError] and [TypeError] are not. *)
Definition caught (exception : string) : bool :=
  (exception =? "JSONDecodeError") || (exception =? "OSError")
  || (exception =? "FileNotFoundError").

(** [load_config()] *)
Definition load_config (f : config_file) : outcome (gmap string json) :=
  match load_config_body f with
  | Returned d => Returned d
  | Raised e => if caught e then Returned default_config else Raised e
  end.

(** The overlay the specification describes: a persisted value replaces
    the default unless it is absent or [null]. *)
Definition is_null (v : json) : bool :=
  match v with
  | JNull => true
  | _ => false
  end.

Definition spec_overlay (defaults persisted : gmap string json)
  : gmap string json :=
  filter (fun kv => is_null kv.2 = false) persisted ∪ defaults.

End Config.

(** ** Printer enumeration *)

Module Printers.
Import PyStr.

Inductive platform := Win32 | OtherPlatform.

(** [str.splitlines] line boundaries, among the code points below 256. *)
Definition is_linebreak (c : ascii) : bool :=
  let n := nat_of_ascii c in
  (((10 <=? n) && (n <=? 13)) || ((28 <=? n) && (n <=? 30)) || (n =? 133))%nat.

(** [s.splitlines()]; a carriage return and the line feed after it are
    one boundary. *)
Fixpoint splitlines (s : string) : list string :=
  match s with
  | EmptyString => []
  | String c s' =>
      if is_linebreak c then
        match s' with
        | String c' s'' =>
            if ((nat_of_ascii c =? 13) && (nat_of_ascii c' =? 10))%nat
            then EmptyString :: splitlines s''
            else EmptyString :: splitlines s'
        | EmptyString => [EmptyString]
        end
      else
        match splitlines s' with
        | [] => [String c EmptyString]
        | line :: lines => String c line :: lines
        end
  end.

(** One entry of [win32print.EnumPrinters]: [(flags, description, name, comment)]. *)
Definition printer_info : Type := Z * string * string * string.

Definition printer_name (p : printer_info) : string := p.1.2.

(** What the platform offers to [get_printer_names]. *)
Inductive enumerator :=
| Win32printMissing                                   (* the import fails *)
| Win32print (printers : outcome (list printer_info)) (* [EnumPrinters] returns, or raises
                                                          an error that is no [ImportError] *)
| LpstatFails                                         (* [check_output] raises *)
| Lpstat (output : string).                           (* the text [lpstat -e] printed *)

Definition platform_of (e : enumerator) : platform :=
  match e with
  | Win32printMissing | Win32print _ => Win32
  | LpstatFails | Lpstat _ => OtherPlatform
  end.

(** [get_printer_names()] *)
Definition get_printer_names (e : enumerator) : outcome (list string) :=
  match e with
  | Win32printMissing => Returned ["win32print module not installed"]
  | Win32print (Returned printers) => Returned (map printer_name printers)
  | Win32print (Raised err) => Raised err
  | LpstatFails => Returned ["Printer listing not supported on this OS"]
  | Lpstat output =>
      Returned (map strip
                  (List.filter (fun line => truthy (strip line)) (splitlines output)))
  end.

End Printers.

(** ** Reading and sorting the history *)

Module History.

(** A row of the data frame [pd.read_csv] builds: the two fields, as the
    text of the file.  The column of the dates of a file that the script
    wrote holds strings; the type pandas gives to the values of the
    column [barcode] is [cell] below. *)
Record record := mk_record {
  barcode : string;
  date_time_printed : string
}.

Definition is_digit (c : ascii) : bool :=
  let n := nat_of_ascii c in ((48 <=? n) && (n <=? 57))%nat.

(** The shape of a rendered time, [dd/dd/dddd dd:dd:dd AM] or [PM]: a
    column of such texts is a column of strings for pandas. *)
Definition is_stamp (s : string) : bool :=
  match list_ascii_of_string s with
  | [m1; m2; a; d1; d2; b; y1; y2; y3; y4; c; h1; h2; f; n1; n2; g; s1; s2; h; p; m] =>
      is_digit m1 && is_digit m2 && Ascii.eqb a "/"
      && is_digit d1 && is_digit d2 && Ascii.eqb b "/"
      && is_digit y1 && is_digit y2 && is_digit y3 && is_digit y4
      && Ascii.eqb c " "
      && is_digit h1 && is_digit h2 && Ascii.eqb f ":"
      && is_digit n1 && is_digit n2 && Ascii.eqb g ":"
      && is_digit s1 && is_digit s2 && Ascii.eqb h " "
      && (Ascii.eqb p "A" || Ascii.eqb p "P") && Ascii.eqb m "M"
  | _ => false
  end.

Definition is_header (r : Ledger.row) : bool :=
  match r with
  | [a; b] => String.eqb a "barcode" && String.eqb b "date time printed"
  | _ => false
  end.

Definition is_record (r : Ledger.row) : bool :=
  match r with
  | [_; d] => is_stamp d
  | _ => false
  end.

(** A file as the script writes it: the header, then rows of a barcode
    and a rendered time. *)
Definition regular (rows : list Ledger.row) : bool :=
  match rows with
  | [] => false
  | names :: data => is_header names && forallb is_record data
  end.

(** [pd.read_csv(CSV_FILE)] on a file as the script writes it: the first
    row names the two columns, every other row is a record.  What pandas
    makes of any other file (an empty one, one without the header, one
    with rows of another shape) is not said here: it is left to the
    surroundings of the run. *)
Definition read_csv (rows : list Ledger.row) : option (list record) :=
  if regular rows
  then Some (map (fun r => mk_record (nth 0 r "") (nth 1 r "")) (tl rows))
  else None.

(** Strings compare by code point, as [str] does. *)
Definition str_le (a b : string) : bool := String.leb a b.

(** Descending insertion by the text of the date column. *)
Fixpoint insert_desc (r : record) (l : list record) : list record :=
  match l with
  | [] => [r]
  | r' :: l' =>
      if str_le (date_time_printed r') (date_time_printed r)
      then r :: l
      else r' :: insert_desc r l'
  end.

(** [df.sort_values(by="date time printed", ascending=False)]: the column
    holds strings, which pandas orders as strings. *)
Definition sort_values (l : list record) : list record :=
  fold_right insert_desc [] l.

(** The order of the texts, latest text first. *)
Definition text_desc (a b : record) : Prop :=
  str_le (date_time_printed b) (date_time_printed a) = true.

(** The order the specification asks for: by the moment printed. *)
Definition chronological_key (d : Clock.datetime) : N :=
  ((((Clock.year d * 13 + Clock.month d) * 32 + Clock.day d) * 24
    + Clock.hour d) * 60 + Clock.minute d) * 60 + Clock.second d.

(** The calendar day within its year, and the calendar date. *)
Definition day_key (d : Clock.datetime) : N :=
  Clock.month d * 32 + Clock.day d.

Definition date_key (d : Clock.datetime) : N :=
  Clock.year d * 512 + day_key d.

(** The record of a print of [v] at [d], as [log_print_history] writes it
    and [read_csv] reads it back. *)
Definition stamp (v : string) (d : Clock.datetime) : record :=
  mk_record v (Clock.strftime d).

Definition stamp_entry (e : string * Clock.datetime) : record :=
  stamp e.1 e.2.

(** A value of the column [barcode] once pandas has inferred the type of
    the column: a string, or a value that is no string (an integer for a
    column of digits, NaN for an empty field, a float, a truth value), of
    which the script tests the truth before it calls [strip] on it. *)
Inductive cell :=
| Str (s : string)
| NotStr (truthy : bool).

End History.

(** ** The print pipeline *)

Module App.
Import PyStr Printers.

(** What the script shows to the operator, in the order shown. *)
Inductive message :=
| StError (text : string)
| StSuccess (text : string)
| StWarning (text : string)
| StImage (caption : string)
| SidebarReprinted (count : nat).   (* "Reprinted {count} barcode(s)" *)

Inductive device_cap := HORZRES | VERTRES.

(** The calls [print_barcode_image] makes on its collaborators
    ([win32ui], [PIL.ImageWin], [Image.resize]). *)
Inductive driver_call :=
| ImportWin32
| CreateDC
| CreatePrinterDC (printer_name : string)
| GetDeviceCaps (index : device_cap)
| Resize (w h : Z)
| StartDoc (name : string)
| StartPage
| MakeDib
| GetHandleOutput
| Draw (left top right bottom : Z)
| EndPage
| EndDoc
| DeleteDC.

(** The surroundings of one run of the script. *)
Record env := mk_env {
  platform : Printers.platform;                 (* [sys.platform == "win32"] or not *)
  barcode_available : bool;                     (* the optional import succeeded *)
  encode : string -> outcome Img.image;         (* Code128 with [ImageWriter], then [Image.open] *)
  clock : nat -> Clock.datetime;                (* the n-th reading of [datetime.now()] *)
  driver_error : driver_call -> option string;  (* the exception a collaborator raises on a
                                                   call, if it does *)
  device_caps : device_cap -> Z;                (* what [GetDeviceCaps] answers *)
  input_barcode : option string;                (* the module global, once bound *)
  ledger_error : nat -> option string;          (* the [OSError] that opening the ledger raises
                                                   after the n-th reading of the clock, if it does *)
  typed_as : list string -> string -> History.cell;
                                                (* what pandas makes of a field of the column
                                                   [barcode] that holds these fields *)
  read_irregular : list Ledger.row -> outcome (list History.cell)
                                                (* lines 299 to 319 on a file that the script did
                                                   not write: the column [barcode] of the sorted
                                                   frame, or the exception raised *)
}.

(** What the script changes. *)
Record world := mk_world {
  csv_file : Ledger.file;
  messages : list message;
  driver_log : list driver_call;      (* the calls made, the failed one included *)
  clock_reads : nat;
  previous_barcode : string           (* [st.session_state.previous_barcode] *)
}.

Definition show (m : message) (w : world) : world :=
  mk_world (csv_file w) (messages w ++ [m]) (driver_log w)
           (clock_reads w) (previous_barcode w).

(** Code that may raise and changes the world. *)
Definition M (A : Type) : Type := world -> outcome A * world.

Definition ret {A} (a : A) : M A := fun w => (Returned a, w).

Definition bind {A B} (m : M A) (k : A -> M B) : M B :=
  fun w =>
    match m w with
    | (Returned a, w') => k a w'
    | (Raised e, w') => (Raised e, w')
    end.

Definition raise {A} (e : string) : M A := fun w => (Raised e, w).

(** [try: body except Exception as e: handler(e)] *)
Definition try_except (body : M unit) (handler : string -> world -> world)
  : world -> world :=
  fun w =>
    match body w with
    | (Returned _, w') => w'
    | (Raised e, w') => handler e w'
    end.

Definition lift (f : world -> world) : M unit := fun w => (Returned tt, f w).

Notation "c1 ;; c2" := (bind c1 (fun _ => c2))
  (at level 100, right associativity).

Definition log_call (c : driver_call) (w : world) : world :=
  mk_world (csv_file w) (messages w) (driver_log w ++ [c])
           (clock_reads w) (previous_barcode w).

(** The exception a call raises, if it does.  [Image.resize] to a size
    with a side below one pixel raises [ValueError] in Pillow itself,
    whatever the surroundings; every other call is answered by them. *)
Definition fails (e : env) (c : driver_call) : option string :=
  match c with
  | Resize w h =>
      if ((w <? 1) || (h <? 1))%Z then Some "height and width must be > 0"
      else driver_error e c
  | _ => driver_error e c
  end.

(** One call on a collaborator: logged, then it returns or raises. *)
Definition call (e : env) (c : driver_call) : M unit :=
  fun w =>
    match fails e c with
    | Some err => (Raised err, log_call c w)
    | None => (Returned tt, log_call c w)
    end.

(** [log_print_history()] with the clock and the file of the world.  The
    clock is read first (line 168); when the ledger cannot be opened the
    [OSError] leaves the function and nothing is written. *)
Definition log_print_history (e : env) : M unit :=
  fun w =>
    match ledger_error e (clock_reads w) with
    | Some err =>
        (Raised err,
         mk_world (csv_file w) (messages w) (driver_log w) (S (clock_reads w))
                  (previous_barcode w))
    | None =>
        (Returned tt,
         mk_world
           (Ledger.log_print_history (input_barcode e)
              (clock e (clock_reads w)) (csv_file w))
           (messages w) (driver_log w) (S (clock_reads w)) (previous_barcode w))
    end.

(** *** [generate_barcode] *)

Definition label_width : Z := 600.
Definition label_height : Z := 300.

Definition generate_barcode (e : env) (barcode_data : string)
  : world -> option Img.image * world :=
  fun w =>
    if negb (barcode_available e) then
      (None,
       show (StError "Required barcode libraries are not installed. Please install: pip install python-barcode[images]") w)
    else
      match encode e barcode_data with
      | Returned barcode_img =>
          let label_img := Img.new label_width label_height Img.white in
          let barcode_x := ((label_width - Img.width barcode_img) / 2)%Z in
          let barcode_y := ((label_height - Img.height barcode_img) / 2)%Z in
          (Some (Img.paste label_img barcode_img barcode_x barcode_y), w)
      | Raised err =>
          (None, show (StError ("Barcode generation failed: " +:+ err)) w)
      end.

(** *** [print_barcode_image] *)

(** The scaled size and the position on the page: lines 140 to 148. *)
Definition layout (img_width img_height printable_w printable_h : Z)
  : Z * Z * Z * Z :=
  let scale := Float.py_min (Float.truediv printable_w img_width)
                            (Float.truediv printable_h img_height) in
  let scaled_width := Float.py_int (Float.mul_int img_width scale) in
  let scaled_height := Float.py_int (Float.mul_int img_height scale) in
  let x := Float.py_int (Float.truediv (printable_w - scaled_width) 2) in
  let y := Float.py_int (Float.truediv (printable_h - scaled_height) 2) in
  (scaled_width, scaled_height, x, y).

(** The layout the specification describes: the same scale, the sizes
    rounded to the nearest integer. *)
Definition spec_layout (img_width img_height printable_w printable_h : Z)
  : Z * Z * Z * Z :=
  let scale := Float.py_min (Float.truediv printable_w img_width)
                            (Float.truediv printable_h img_height) in
  let scaled_width := Float.py_round (Float.mul_int img_width scale) in
  let scaled_height := Float.py_round (Float.mul_int img_height scale) in
  let x := Float.py_int (Float.truediv (printable_w - scaled_width) 2) in
  let y := Float.py_int (Float.truediv (printable_h - scaled_height) 2) in
  (scaled_width, scaled_height, x, y).

(** The scale as a number, before any rounding: the smaller of the two
    ratios of the printable size to the image size. *)
Definition exact_scale (img_width img_height printable_w printable_h : Z) : Q :=
  Qmin (inject_Z printable_w / inject_Z img_width)
       (inject_Z printable_h / inject_Z img_height).

(** The same computation on the kernel's binary64 numbers: the scaled
    width and height before [int] truncates them. *)
Definition scaled_binary64 (img_width img_height printable_w printable_h : Z)
  : option Q * option Q :=
  let a := PrimFloat.div (Float.float_of_int printable_w)
                         (Float.float_of_int img_width) in
  let b := PrimFloat.div (Float.float_of_int printable_h)
                         (Float.float_of_int img_height) in
  let scale := if PrimFloat.ltb b a then b else a in
  (Float.Q_of_float (PrimFloat.mul (Float.float_of_int img_width) scale),
   Float.Q_of_float (PrimFloat.mul (Float.float_of_int img_height) scale)).

(** The same values in the embedding. *)
Definition scaled_embedded (img_width img_height printable_w printable_h : Z)
  : Q * Q :=
  let scale := Float.py_min (Float.truediv printable_w img_width)
                            (Float.truediv printable_h img_height) in
  (Float.mul_int img_width scale, Float.mul_int img_height scale).

Definition agree (f : option Q * option Q) (q : Q * Q) : bool :=
  match f with
  | (Some a, Some b) => Qeq_bool a q.1 && Qeq_bool b q.2
  | _ => false
  end.

(** The body of the [try]. *)
Definition print_body (e : env) (image_obj : Img.image) (printer_name : string)
  : M unit :=
  call e ImportWin32 ;;
  call e CreateDC ;;
  call e (CreatePrinterDC printer_name) ;;
  call e (GetDeviceCaps HORZRES) ;;
  call e (GetDeviceCaps VERTRES) ;;
  let printable_w := device_caps e HORZRES in
  let printable_h := device_caps e VERTRES in
  let img_width := Img.width image_obj in
  let img_height := Img.height image_obj in
  if ((img_width =? 0) || (img_height =? 0))%Z then
    raise "division by zero"
  else
    match layout img_width img_height printable_w printable_h with
    | (scaled_width, scaled_height, x, y) =>
        call e (Resize scaled_width scaled_height) ;;
        call e (StartDoc "Barcode Print") ;;
        call e StartPage ;;
        call e MakeDib ;;
        call e GetHandleOutput ;;
        call e (Draw x y (x + scaled_width) (y + scaled_height)) ;;
        call e EndPage ;;
        call e EndDoc ;;
        call e DeleteDC ;;
        lift (show (StSuccess ("Sent barcode to printer: " +:+ printer_name))) ;;
        log_print_history e
    end.

Definition print_barcode_image (e : env) (image_obj : Img.image)
    (printer_name : string) : world -> world :=
  match platform e with
  | OtherPlatform => show (StError "Printing is only supported on Windows.")
  | Win32 =>
      try_except (print_body e image_obj printer_name)
        (fun err => show (StError ("Printing failed: " +:+ err)))
  end.

(** *** The script *)

(** Lines 258 to 265: whether this run prints by itself, and the value
    remembered for the next run. *)
Definition auto_print_gate (input_barcode previous : string) : bool * string :=
  if truthy input_barcode
     && negb (String.eqb input_barcode previous)
     && truthy (strip input_barcode)
  then (true, input_barcode)
  else (false, previous).

(** Lines 276 to 283. *)
Definition auto_print_block (e : env) (value select_printer : string)
    (auto_print : bool) : world -> world :=
  fun w =>
    if auto_print then
      if nonblank value then
        match generate_barcode e value w with
        | (Some barcode_image, w') =>
            print_barcode_image e barcode_image select_printer w'
        | (None, w') => w'
        end
      else show (StWarning "Please enter a barcode before printing.") w
    else w.

(** Lines 330 to 334: the loop of the "Reprint Selected" button, over the
    values of the selected rows.  [barcode and barcode.strip()] skips a
    value that is false, and raises [AttributeError] on a true value that
    is no string. *)
Fixpoint reprint_loop (e : env) (selected_rows_list : list History.cell)
    (select_printer : string) : M unit :=
  match selected_rows_list with
  | [] => ret tt
  | History.Str barcode :: rest =>
      fun w =>
        let w1 :=
          if nonblank barcode then
            match generate_barcode e barcode w with
            | (Some reprint_image, w') =>
                print_barcode_image e reprint_image select_printer w'
            | (None, w') => w'
            end
          else w in
        reprint_loop e rest select_printer w1
  | History.NotStr true :: _ => raise "AttributeError"
  | History.NotStr false :: rest => reprint_loop e rest select_printer
  end.

(** [b and b.strip()] for a value of the column. *)
Definition printable (b : History.cell) : bool :=
  match b with
  | History.Str s => nonblank s
  | History.NotStr _ => false
  end.

(** Lines 330 to 337.  The count is taken once the loop has ended, when
    no selected value is a true value that is no string. *)
Definition reprint_selected (e : env) (selected_rows_list : list History.cell)
    (select_printer : string) : M unit :=
  reprint_loop e selected_rows_list select_printer ;;
  lift (show (SidebarReprinted (length (List.filter printable selected_rows_list)))).

(** What the operator did before this run of the script. *)
Record inputs := mk_inputs {
  select_printer : string;
  clear_pressed : bool;               (* "Clear Print History" *)
  selected_indices : list nat;        (* rows selected in the sidebar table *)
  reprint_pressed : bool              (* "Reprint Selected" *)
}.

Definition set_file (f : Ledger.file) (w : world) : world :=
  mk_world f (messages w) (driver_log w) (clock_reads w) (previous_barcode w).

Definition set_previous (v : string) (w : world) : world :=
  mk_world (csv_file w) (messages w) (driver_log w) (clock_reads w) v.

(** Lines 299 and 300, as far as the script looks at the frame: the
    column [barcode] of the sorted frame.  A file as the script writes it
    is read row by row and sorted by the text of its dates; an empty file
    raises; any other file is pandas' business. *)
Definition frame (e : env) (rows : list Ledger.row) : outcome (list History.cell) :=
  match rows with
  | [] => Raised "EmptyDataError"
  | _ =>
      match History.read_csv rows with
      | Some df =>
          let df := History.sort_values df in
          let column := map History.barcode df in
          Returned (map (typed_as e column) column)
      | None => read_irregular e rows
      end
  end.

(** [df.iloc[selected_indices]["barcode"].tolist()]; a position past the
    end of the frame raises. *)
Definition selected_barcodes (column : list History.cell) (indices : list nat)
  : outcome (list History.cell) :=
  if forallb (fun i => i <? length column)%nat indices
  then Returned (omap (fun i => column !! i) indices)
  else Raised "IndexError".

(** Lines 299 to 340: the history in the sidebar and its button. *)
Definition sidebar (e : env) (i : inputs) : M unit :=
  fun w =>
    match frame e (Ledger.open_append (csv_file w)) with
    | Raised err => (Raised err, w)
    | Returned [] => (Returned tt, w)
    | Returned column =>
        match selected_barcodes column (selected_indices i) with
        | Raised err => (Raised err, w)
        | Returned [] => (Returned tt, w)
        | Returned selected_rows_list =>
            if reprint_pressed i
            then reprint_selected e selected_rows_list (select_printer i) w
            else (Returned tt, w)
        end
    end.

(** One run of the script from the text input on (lines 209 to 340), up
    to its end or to the exception that ends it; the typed value is
    [input_barcode e], empty when nothing is typed. *)
Definition script (e : env) (i : inputs) : M unit :=
  fun w =>
    let value := match input_barcode e with Some v => v | None => "" end in
    let '(auto_print, previous) := auto_print_gate value (previous_barcode w) in
    let w := set_previous previous w in
    let w :=
      if truthy value then
        match generate_barcode e value w with
        | (Some _, w') => show (StImage "Generated Barcode") w'
        | (None, w') => w'
        end
      else w in
    let w := auto_print_block e value (select_printer i) auto_print w in
    let w :=
      if clear_pressed i
      then show (StSuccess "Print history cleared.")
             (set_file (Ledger.clear_history (csv_file w)) w)
      else w in
    let w := set_file (Ledger.ensure_exists (csv_file w)) w in
    sidebar e i w.

(** The world the run leaves behind. *)
Definition script_run (e : env) (i : inputs) (w : world) : world :=
  (script e i w).2.

(** The label the specification describes for a raster: the offsets by
    division that truncates toward zero. *)
Definition spec_label (barcode_img : Img.image) : Img.image :=
  Img.paste (Img.new label_width label_height Img.white) barcode_img
    (Z.quot (label_width - Img.width barcode_img) 2)
    (Z.quot (label_height - Img.height barcode_img) 2).

(** The gate over a sequence of runs: the values observed, in order. *)
Fixpoint observe (values : list string) (previous : string) : list bool :=
  match values with
  | [] => []
  | v :: rest =>
      let '(auto_print, previous') := auto_print_gate v previous in
      auto_print :: observe rest previous'
  end.

(** Lines 279 to 281: the submission of one value.  The label is made
    again and, if it is made, sent to the printer. *)
Definition submit_one (e : env) (value select_printer : string)
  : world -> world :=
  fun w =>
    match generate_barcode e value w with
    | (Some barcode_image, w') =>
        print_barcode_image e barcode_image select_printer w'
    | (None, w') => w'
    end.

(** The trigger the specification describes: the pipeline tracks the
    last submitted value, and submits the current value when it is not
    empty after trimming and differs from the one tracked. *)
Definition spec_trigger (value last_submitted : string) : bool :=
  negb (String.eqb (strip value) "") && negb (String.eqb value last_submitted).

Fixpoint spec_observe (values : list string) (last_submitted : string)
  : list bool :=
  match values with
  | [] => []
  | v :: rest =>
      let submit := spec_trigger v last_submitted in
      submit :: spec_observe rest (if submit then v else last_submitted)
  end.

End App.

(** ** Saved settings and the preselected printer *)

Module Settings.
Import Config.

(** How the write of [save_config] goes. *)
Inductive write_outcome :=
| Written       (* the file is opened and the whole text is written *)
| OpenFails     (* [open(CONFIG_FILE, "w")] raises [OSError] *)
| WriteFails    (* the file is opened, hence emptied, and a write raises
                   [OSError]: what is left is cut short, and is no JSON text *)
| EncodeFails.  (* the file is opened, and a name or a value holds a
                   character that UTF-8 cannot encode (a lone surrogate,
                   which [json.load] accepts): the write raises
                   [UnicodeEncodeError], a [ValueError] *)

(** The body of the [try] of [save_config]: what it returns or raises, and
    the state of [CONFIG_FILE] afterwards.  The values of [config_data]
    are JSON values, which [json.dump] accepts, so it raises no
    [TypeError]; and the text it writes for an object is read back by
    [json.load] as that object, which is the contract of the library. *)
Definition save_config_body (config_data : gmap string json) (wr : write_outcome)
    (f : config_file) : outcome unit * config_file :=
  match wr with
  | Written => (Returned tt, Parsed (JObj (map_to_list config_data)))
  | OpenFails => (Raised "OSError", f)
  | WriteFails => (Raised "OSError", Malformed)
  | EncodeFails => (Raised "UnicodeEncodeError", Malformed)
  end.

(** [except (OSError, TypeError)] *)
Definition silenced (exception : string) : bool :=
  String.eqb exception "OSError" || String.eqb exception "TypeError".

(** [save_config(config_data)] *)
Definition save_config (config_data : gmap string json) (wr : write_outcome)
    (f : config_file) : outcome unit * config_file :=
  match save_config_body config_data wr f with
  | (Raised e, f') => if silenced e then (Returned tt, f') else (Raised e, f')
  | (Returned _, f') => (Returned tt, f')
  end.

(** [l.index(x)]: the first position that holds [x]. *)
Fixpoint index (x : string) (l : list string) : option nat :=
  match l with
  | [] => None    (* [ValueError] *)
  | y :: l' => if String.eqb y x then Some 0%nat else S <$> index x l'
  end.

(** Lines 192 to 194.  The names of [available_printers] are strings, so a
    setting that is no string is found equal to none of them. *)
Definition default_printer_index (config : gmap string json)
    (available_printers : list string) : outcome nat :=
  match config !! "last_printer" with
  | None => Raised "KeyError"
  | Some (JStr last_printer) =>
      if PyStr.truthy last_printer
         && existsb (fun name => String.eqb name last_printer) available_printers
      then match index last_printer available_printers with
           | Some n => Returned n
           | None => Raised "ValueError"
           end
      else Returned 0%nat
  | Some _ => Returned 0%nat
  end.

(** What [st.selectbox] returned, as a Python value: a name, or [None]
    when there is nothing to select. *)
Definition json_of_selection (select_printer : option string) : json :=
  match select_printer with
  | Some name => JStr name
  | None => JNull
  end.

(** [select_printer != config["last_printer"]] *)
Definition differs (select_printer : option string) (v : json) : bool :=
  match select_printer, v with
  | Some name, JStr s => negb (String.eqb name s)
  | None, JNull => false
  | _, _ => true
  end.

(** Lines 201 to 203: the configuration and the file afterwards. *)
Definition remember_printer (config : gmap string json)
    (select_printer : option string) (wr : write_outcome) (f : config_file)
  : outcome (gmap string json * config_file) :=
  match config !! "last_printer" with
  | None => Raised "KeyError"
  | Some v =>
      if differs select_printer v then
        let config := <[ "last_printer" := json_of_selection select_printer ]> config in
        match save_config config wr f with
        | (Returned _, f') => Returned (config, f')
        | (Raised e, _) => Raised e
        end
      else Returned (config, f)
  end.

End Settings.

(** ** The text of [lpstat -e] *)

Module Lpstat.

Definition newline : ascii := ascii_of_nat 10.

(** The text [lpstat -e] prints for the given destinations: one name on
    each line. *)
Fixpoint unlines (names : list string) : string :=
  match names with
  | [] => EmptyString
  | name :: rest => name +:+ String newline (unlines rest)
  end.

(** A string that holds no line boundary. *)
Fixpoint single_line (s : string) : bool :=
  match s with
  | EmptyString => true
  | String c s' => negb (Printers.is_linebreak c) && single_line s'
  end.

(** A name as [get_printer_names] returns it: not empty, nothing to
    strip, on one line. *)
Definition clean (name : string) : Prop :=
  name <> EmptyString /\ PyStr.strip name = name /\ single_line name = true.

End Lpstat.

(** ** The ledger as a journal of operations *)

Module Journal.
Import Ledger.

(** The row [log_print_history] writes for a print. *)
Definition record_row (input_barcode : option string) (now : Clock.datetime)
  : row :=
  [match input_barcode with Some v => v | None => "" end; Clock.strftime now].

(** The rows of the prints made since the last clear, oldest first,
    after those of [acc]. *)
Fixpoint appended (ops : list op) (acc : list row) : list row :=
  match ops with
  | [] => acc
  | EnsureInitialized :: rest => appended rest acc
  | Append v now :: rest => appended rest (acc ++ [record_row v now])
  | Clear :: rest => appended rest []
  end.

Definition is_clear (o : op) : bool :=
  match o with
  | Clear => true
  | _ => false
  end.

(** The rows the operations start from: those of the file, the header
    alone when a clear intervenes or no file is there. *)
Definition base (ops : list op) (f : file) : list row :=
  if existsb is_clear ops then [header]
  else match f with
       | Some rows => rows
       | None => [header]
       end.

End Journal.

(** ** The calls a print plans *)

Module Plan.
Import App.

(** The calls on the driver that [print_barcode_image] makes when none of
    them raises, in order.  With an image of no width or no height the
    scale cannot be computed and the calls end after the device is asked
    for its size. *)
Definition planned_calls (e : env) (image_obj : Img.image) (printer_name : string)
  : list driver_call :=
  let opening := [ImportWin32; CreateDC; CreatePrinterDC printer_name;
                  GetDeviceCaps HORZRES; GetDeviceCaps VERTRES] in
  if ((Img.width image_obj =? 0) || (Img.height image_obj =? 0))%Z then opening
  else
    match layout (Img.width image_obj) (Img.height image_obj)
                 (device_caps e HORZRES) (device_caps e VERTRES) with
    | (scaled_width, scaled_height, x, y) =>
        opening ++
        [Resize scaled_width scaled_height; StartDoc "Barcode Print"; StartPage;
         MakeDib; GetHandleOutput;
         Draw x y (x + scaled_width) (y + scaled_height);
         EndPage; EndDoc; DeleteDC]
    end.

(** The calls made: the planned ones up to the first that raises, that
    one included. *)
Fixpoint until_failure (fails : driver_call -> option string)
    (calls : list driver_call) : list driver_call :=
  match calls with
  | [] => []
  | c :: rest =>
      c :: match fails c with
           | Some _ => []
           | None => until_failure fails rest
           end
  end.

(** Whether a call stays on the page: what is drawn and the size the
    image is resized to lie within the printable area. *)
Definition on_page (printable_w printable_h : Z) (c : driver_call) : Prop :=
  match c with
  | Draw x0 y0 x1 y1 =>
      (0 <= x0 <= x1)%Z /\ (x1 <= printable_w)%Z
      /\ (0 <= y0 <= y1)%Z /\ (y1 <= printable_h)%Z
      /\ (0 <= (printable_w - x1) - x0 <= 1)%Z
      /\ (0 <= (printable_h - y1) - y0 <= 1)%Z
  | Resize w h => (0 <= w <= printable_w)%Z /\ (0 <= h <= printable_h)%Z
  | _ => True
  end.

(** Whether a message is the warning of line 283. *)
Definition is_warning (m : message) : bool :=
  match m with
  | StWarning _ => true
  | _ => false
  end.

(** The value in the text input: the global [input_barcode]. *)
Definition typed (e : env) : string :=
  match input_barcode e with
  | Some v => v
  | None => ""
  end.

(** A call Pillow can answer: every call but a resize to a size with a
    side of zero or less, on which Pillow itself raises, whatever the
    driver does. *)
Definition resizable (c : driver_call) : Prop :=
  match c with
  | Resize scaled_width scaled_height =>
      (0 < scaled_width)%Z /\ (0 < scaled_height)%Z
  | _ => True
  end.

(** A value on which [barcode.strip()] raises: a true value that is no
    string. *)
Definition unstrippable (b : History.cell) : bool :=
  match b with
  | History.NotStr true => true
  | _ => false
  end.

(** The selected values the reprint loop gets to: those before the first
    on which it raises. *)
Fixpoint reached (selected : list History.cell) : list History.cell :=
  match selected with
  | [] => []
  | b :: rest => if unstrippable b then [] else b :: reached rest
  end.

End Plan.

(** ** What a stretch of the script does to the world *)

Module Trace.
Import App.

(** One call of [log_print_history] at the clock reading [n]: a row for
    the value of the text input, unless the ledger cannot be opened. *)
Definition attempt (e : env) (n : nat) (f : Ledger.file) : Ledger.file :=
  match ledger_error e n with
  | Some _ => f
  | None => Ledger.log_print_history (input_barcode e) (clock e n) f
  end.

(** The ledger after the [k] calls made from the reading [n] on. *)
Fixpoint grown (e : env) (n k : nat) (f : Ledger.file) : Ledger.file :=
  match k with
  | O => f
  | S k' => grown e (S n) k' (attempt e n f)
  end.

(** Whether the ledger can be opened after the reading [n]. *)
Definition opens (e : env) (n : nat) : bool :=
  match ledger_error e n with
  | Some _ => false
  | None => true
  end.

(** The rows those calls wrote: one for each reading at which the ledger
    could be opened, each holding the value of the text input. *)
Definition logged (e : env) (n k : nat) : list Ledger.row :=
  map (fun j => Journal.record_row (input_barcode e) (clock e j))
      (List.filter (opens e) (seq n k)).

(** A stretch of the script that leaves the remembered value alone,
    shows no warning, only adds to the calls made, and changes the ledger
    only through [log_print_history], called once for each reading of
    the clock. *)
Definition orderly (e : env) (w w' : world) : Prop :=
  previous_barcode w' = previous_barcode w
  /\ (exists new,
        messages w' = messages w ++ new
        /\ Forall (fun m => Plan.is_warning m = false) new)
  /\ (exists calls, driver_log w' = driver_log w ++ calls)
  /\ exists k,
       clock_reads w' = (clock_reads w + k)%nat
       /\ csv_file w' = grown e (clock_reads w) k (csv_file w).

End Trace.

(** ** Sample surroundings, for the concrete runs below *)

Module Samples.
Import App.

(** A raster of the given size, all black. *)
Definition black (w h : Z) : Img.image := Img.mk_image w h (fun _ _ => 0%Z).

(** An encoder that always answers with a 400 by 100 raster. *)
Definition encoder (barcode_data : string) : outcome Img.image :=
  Returned (black 400 100).

Definition noon : Clock.datetime := Clock.mk_datetime 2024 3 5 12 0 0.

Definition never_fails (c : driver_call) : option string := None.

(** A ledger that can always be opened. *)
Definition writable (reading : nat) : option string := None.

(** pandas on a column of words, none of which reads as a number, a truth
    value or a missing value: every field stays the string it is. *)
Definition words (column : list string) (field : string) : History.cell :=
  History.Str field.

(** No file of the runs below is other than the script writes it. *)
Definition unread (rows : list Ledger.row) : outcome (list History.cell) :=
  Raised "ParserError".

(** A driver that breaks when asked to draw. *)
Definition draw_fails (c : driver_call) : option string :=
  match c with
  | Draw _ _ _ _ => Some "Draw failed"
  | _ => None
  end.

(** A page of 1200 by 1800 device units. *)
Definition page (index : device_cap) : Z :=
  match index with
  | HORZRES => 1200%Z
  | VERTRES => 1800%Z
  end.

Definition windows (typed : string) : env :=
  mk_env Printers.Win32 true encoder (fun _ => noon) never_fails page (Some typed)
         writable words unread.

Definition windows_draw_fails (typed : string) : env :=
  mk_env Printers.Win32 true encoder (fun _ => noon) draw_fails page (Some typed)
         writable words unread.

Definition linux (typed : string) : env :=
  mk_env Printers.OtherPlatform true encoder (fun _ => noon) never_fails page
         (Some typed) writable words unread.

Definition fresh : world := mk_world None [] [] 0 EmptyString.

(** A ledger with one record, for "ABC", and "XYZ" typed and printed before. *)
Definition after_abc : world :=
  mk_world (Some [Ledger.header; ["ABC"; "01/15/2024 10:00:00 AM"]])
           [] [] 0 "XYZ".

Definition reprint_first : inputs := mk_inputs "Zebra" false [0] true.

(** A raster whose pixels hold their column number, and an encoder that
    answers with one a pixel wider and higher than the label. *)
Definition ramp (w h : Z) : Img.image := Img.mk_image w h (fun i _ => i).

Definition wide_encoder (barcode_data : string) : outcome Img.image :=
  Returned (ramp 601 301).

Definition windows_wide (typed : string) : env :=
  mk_env Printers.Win32 true wide_encoder (fun _ => noon) never_fails page
         (Some typed) writable words unread.

End Samples.

(** * Properties *)

(** ** The ledger keeps one header *)

Section LedgerFacts.
Import Ledger.

Lemma strftime_length (d : Clock.datetime) :
  String.length (Clock.strftime d) = 22.
Proof.
  unfold Clock.strftime, Clock.am_pm.
  destruct (Clock.hour d <? 12)%N; reflexivity.
Qed.

(** A record is never mistaken for the header: its second field is a
    rendered time, which is longer than the name of the column. *)
Lemma record_not_header (v : string) (d : Clock.datetime) :
  [v; Clock.strftime d] <> header.
Proof.
  intros H.
  apply (f_equal (fun r : row => String.length (nth 1 r EmptyString))) in H.
  cbn [nth header] in H.
  rewrite strftime_length in H. discriminate H.
Qed.

Lemma well_formed_snoc rows v d :
  well_formed rows -> well_formed (rows ++ [[v; Clock.strftime d]]).
Proof.
  intros (records & -> & Hnot).
  exists (records ++ [[v; Clock.strftime d]]). split; [reflexivity |].
  rewrite in_app_iff. intros [Hin | [Heq | []]]; [tauto |].
  exact (record_not_header _ _ Heq).
Qed.

Lemma well_formed_header_only : well_formed [header].
Proof. exists []. split; [reflexivity | intros []]. Qed.

(** Whatever the file was, one operation leaves a well-formed ledger, as
    long as the file was well formed if it existed. *)
Lemma run_op_good (f : file) (o : op) :
  (f = None \/ good f) -> good (run_op f o).
Proof.
  intros Hf. destruct o as [| v d |]; simpl.
  - destruct f as [rows |]; simpl; [| apply well_formed_header_only].
    destruct Hf as [Hf | Hf]; [discriminate | exact Hf].
  - destruct f as [rows |]; simpl.
    + destruct Hf as [Hf | Hf]; [discriminate |].
      apply well_formed_snoc. exact Hf.
    + apply (well_formed_snoc [header]). apply well_formed_header_only.
  - apply well_formed_header_only.
Qed.

Lemma run_ops_good (ops : list op) (f : file) :
  good f -> good (run_ops ops f).
Proof.
  revert f. induction ops as [| o ops IH]; intros f Hf; simpl; [exact Hf |].
  apply IH. apply run_op_good. right. exact Hf.
Qed.

Lemma well_formed_count (rows : list row) :
  well_formed rows ->
  hd_error rows = Some header /\ count_occ row_eq_dec rows header = 1.
Proof.
  intros (records & -> & Hnot). split; [reflexivity |].
  rewrite count_occ_cons_eq by reflexivity.
  f_equal. apply count_occ_not_In. exact Hnot.
Qed.

(** An append to an existing file writes the record and nothing else,
    and the block that creates the file leaves an existing file alone. *)
Lemma append_existing (rows : list row) v d :
  log_print_history v d (Some rows)
  = Some (rows ++ [[match v with Some s => s | None => "" end;
                    Clock.strftime d]]).
Proof. reflexivity. Qed.

Lemma ensure_existing (rows : list row) :
  ensure_exists (Some rows) = Some rows.
Proof. reflexivity. Qed.

(** C2. Starting from no file, after any sequence of initialisations,
    appends and clears the ledger file exists (unless nothing was done),
    its first row is the header, and the header occurs exactly once. *)
Theorem ledger_header_exactly_once (ops : list op) :
  match run_ops ops None with
  | None => ops = []
  | Some rows =>
      hd_error rows = Some header /\ count_occ row_eq_dec rows header = 1
  end.
Proof.
  destruct ops as [| o ops]; [reflexivity |].
  assert (Hgood : good (run_ops (o :: ops) None)).
  { simpl. apply run_ops_good. apply run_op_good. left. reflexivity. }
  destruct (run_ops (o :: ops) None) as [rows |]; [| destruct Hgood].
  apply well_formed_count. exact Hgood.
Qed.

End LedgerFacts.

(** ** The automatic print fires once per change *)

Section GateFacts.
Import PyStr App.

Lemma truthy_iff (s : string) : truthy s = true <-> s <> EmptyString.
Proof. destruct s; simpl; split; congruence. Qed.

Lemma strip_empty : strip EmptyString = EmptyString.
Proof. reflexivity. Qed.

(** The gate fires exactly on a value that is not blank and differs from
    the remembered one. *)
Lemma gate_fires_iff (v previous : string) :
  (auto_print_gate v previous).1 = true
  <-> strip v <> EmptyString /\ v <> previous.
Proof.
  unfold auto_print_gate.
  destruct (String.eqb_spec v previous) as [Heq | Hne];
    destruct (truthy (strip v)) eqn:Hs;
    destruct (truthy v) eqn:Hv; simpl;
    rewrite <- truthy_iff, Hs; split;
    try (intros [? ?]); try congruence; try (split; congruence).
  destruct v; [discriminate Hs | discriminate Hv].
Qed.

(** A firing gate remembers the value it fired on; a silent one keeps
    what it remembered. *)
Lemma gate_remembers (v previous : string) :
  (auto_print_gate v previous).2
  = if (auto_print_gate v previous).1 then v else previous.
Proof. unfold auto_print_gate. destruct (_ && _); reflexivity. Qed.

Lemma gate_silent_on_same (v : string) :
  auto_print_gate v v = (false, v).
Proof.
  unfold auto_print_gate. rewrite String.eqb_refl.
  destruct (truthy v); reflexivity.
Qed.

Lemma gate_silent_on_blank (v previous : string) :
  strip v = EmptyString -> auto_print_gate v previous = (false, previous).
Proof.
  intros H. unfold auto_print_gate. rewrite H. simpl.
  rewrite andb_false_r. reflexivity.
Qed.

(** Once a value has been observed, observing it again changes nothing. *)
Lemma gate_idle (v previous : string) :
  auto_print_gate v (auto_print_gate v previous).2
  = (false, (auto_print_gate v previous).2).
Proof.
  rewrite gate_remembers.
  destruct (auto_print_gate v previous).1 eqn:Hfire.
  - apply gate_silent_on_same.
  - destruct (String.eqb_spec v previous) as [-> | Hne];
      [apply gate_silent_on_same |].
    apply gate_silent_on_blank.
    destruct (strip v) eqn:Hs; [reflexivity |].
    assert (Hf : (auto_print_gate v previous).1 = true).
    { apply gate_fires_iff. rewrite Hs. split; [discriminate | exact Hne]. }
    congruence.
Qed.

Lemma observe_idle (v s : string) (n : nat) :
  auto_print_gate v s = (false, s) ->
  observe (repeat v n) s = repeat false n.
Proof.
  intros H. induction n as [| n IH]; simpl; [reflexivity |].
  rewrite H. f_equal. exact IH.
Qed.

(** The run of the script remembers what its gate remembers. *)
Lemma generate_keeps_previous e v w :
  previous_barcode (generate_barcode e v w).2 = previous_barcode w.
Proof.
  unfold generate_barcode.
  destruct (barcode_available e); simpl; [| reflexivity].
  destruct (encode e v); reflexivity.
Qed.

End GateFacts.

(** ** The print dispatcher *)

Section PrintFacts.
Import PyStr App.

(** C9. Off Windows, [print_barcode_image] reports that printing is not
    supported and does nothing else: no call reaches the driver, and the
    ledger and the clock are left alone. *)
Theorem print_unsupported_platform
    (e : env) (image_obj : Img.image) (printer_name : string) (w : world) :
  platform e = Printers.OtherPlatform ->
  let w' := print_barcode_image e image_obj printer_name w in
  driver_log w' = driver_log w
  /\ messages w' = messages w ++ [StError "Printing is only supported on Windows."]
  /\ csv_file w' = csv_file w
  /\ clock_reads w' = clock_reads w.
Proof.
  intros Hp. unfold print_barcode_image. rewrite Hp. simpl. auto.
Qed.

Lemma print_unsupported_platform_witness :
  platform (Samples.linux "ABC") = Printers.OtherPlatform
  /\ driver_log
       (print_barcode_image (Samples.linux "ABC") (Samples.black 600 300)
          "Zebra" Samples.fresh) = [].
Proof.
  split; [reflexivity |].
  apply (print_unsupported_platform (Samples.linux "ABC") (Samples.black 600 300)
           "Zebra" Samples.fresh).
  reflexivity.
Defined.

(** C5. When the driver raises while drawing, after the job and the page
    were started, [print_barcode_image] reports the failure and returns:
    the calls stop at the failed one, so the page and the job are not
    ended and the device context is not deleted. *)
Theorem print_draw_failure_leaves_context :
  let w' := print_barcode_image (Samples.windows_draw_fails "ABC")
              (Samples.black 600 300) "Zebra" Samples.fresh in
  driver_log w'
  = [ImportWin32; CreateDC; CreatePrinterDC "Zebra";
     GetDeviceCaps HORZRES; GetDeviceCaps VERTRES; Resize 1200 600;
     StartDoc "Barcode Print"; StartPage; MakeDib; GetHandleOutput;
     Draw 0 600 1200 1200]
  /\ ~ In DeleteDC (driver_log w')
  /\ ~ In EndDoc (driver_log w')
  /\ ~ In EndPage (driver_log w')
  /\ messages w' = [StError "Printing failed: Draw failed"].
Proof.
  vm_compute. repeat split; intros H;
    repeat (destruct H as [H | H]; [discriminate H |]); exact H.
Qed.

Lemma bind_call_ok (e : env) (c : driver_call) (k : M unit) (w : world) :
  fails e c = None -> (call e c ;; k) w = k (log_call c w).
Proof. intros H. unfold bind, call. rewrite H. reflexivity. Qed.

Lemma bind_lift (f : world -> world) (k : M unit) (w : world) :
  (lift f ;; k) w = k (f w).
Proof. reflexivity. Qed.

(** The body of the [try] when no call raises: every call is made, the
    success is shown and the print is handed to [log_print_history]. *)
Lemma print_body_ok (e : env) image_obj printer_name w :
  (forall c, fails e c = None) ->
  Img.width image_obj <> 0%Z -> Img.height image_obj <> 0%Z ->
  exists sw sh x y,
    print_body e image_obj printer_name w
    = (log_print_history e
         (show (StSuccess ("Sent barcode to printer: " +:+ printer_name))
            (log_call DeleteDC (log_call EndDoc (log_call EndPage
              (log_call (Draw x y (x + sw) (y + sh))
                (log_call GetHandleOutput (log_call MakeDib (log_call StartPage
                  (log_call (StartDoc "Barcode Print") (log_call (Resize sw sh)
                    (log_call (GetDeviceCaps VERTRES)
                      (log_call (GetDeviceCaps HORZRES)
                        (log_call (CreatePrinterDC printer_name)
                          (log_call CreateDC
                            (log_call ImportWin32 w)))))))))))))))).
Proof.
  intros Hok Hw Hh. apply Z.eqb_neq in Hw, Hh.
  unfold print_body. rewrite !bind_call_ok by apply Hok.
  rewrite Hw, Hh. cbv [orb].
  destruct (layout _ _ _ _) as [[[sw sh] x] y].
  exists sw, sh, x, y.
  rewrite !bind_call_ok by apply Hok.
  rewrite bind_lift. reflexivity.
Qed.

Lemma log_call_driver_log c w : driver_log (log_call c w) = driver_log w ++ [c].
Proof. reflexivity. Qed.

Lemma log_call_rest c w :
  csv_file (log_call c w) = csv_file w /\ clock_reads (log_call c w) = clock_reads w.
Proof. split; reflexivity. Qed.

(** On the path where no call raises and the ledger can be opened, the
    context is deleted last and the print is logged. *)
Lemma print_success_log (e : env) image_obj printer_name w :
  platform e = Printers.Win32 ->
  (forall c, fails e c = None) ->
  ledger_error e (clock_reads w) = None ->
  Img.width image_obj <> 0%Z -> Img.height image_obj <> 0%Z ->
  let w' := print_barcode_image e image_obj printer_name w in
  (exists calls, driver_log w' = driver_log w ++ calls ++ [DeleteDC])
  /\ csv_file w'
     = Ledger.log_print_history (input_barcode e)
         (clock e (clock_reads w)) (csv_file w).
Proof.
  intros Hp Hok Hledger Hw Hh.
  destruct (print_body_ok e image_obj printer_name w Hok Hw Hh)
    as (sw & sh & x & y & Hbody).
  unfold print_barcode_image, try_except. rewrite Hp, Hbody.
  unfold log_print_history.
  cbn [clock_reads show log_call]. rewrite Hledger.
  split.
  - cbn [driver_log show].
    rewrite !log_call_driver_log, <- !app_assoc.
    eexists. f_equal. cbv [app]. 
    change (?a :: ?l) with ([a] ++ l) at 1.
    repeat (rewrite (app_comm_cons) || idtac).
    instantiate (1 := [ImportWin32; CreateDC; CreatePrinterDC printer_name;
                       GetDeviceCaps HORZRES; GetDeviceCaps VERTRES;
                       Resize sw sh; StartDoc "Barcode Print"; StartPage; MakeDib;
                       GetHandleOutput; Draw x y (x + sw) (y + sh);
                       EndPage; EndDoc]).
    reflexivity.
  - reflexivity.
Qed.

Lemma generate_keeps_file e v w :
  csv_file (generate_barcode e v w).2 = csv_file w
  /\ clock_reads (generate_barcode e v w).2 = clock_reads w.
Proof.
  unfold generate_barcode.
  destruct (barcode_available e); simpl; [| auto].
  destruct (encode e v); auto.
Qed.

Lemma generate_some_size e v w img w' :
  generate_barcode e v w = (Some img, w') ->
  Img.width img = label_width /\ Img.height img = label_height.
Proof.
  unfold generate_barcode.
  destruct (barcode_available e); simpl; [| discriminate].
  destruct (encode e v); [| discriminate].
  intros H. injection H as <- _. auto.
Qed.

(** The submission of the typed value: when the label is generated and
    no driver call raises, the ledger gains the typed value with the
    time of the clock. *)
Lemma submit_logs_typed_value (e : env) (value printer : string) (w : world) img :
  platform e = Printers.Win32 ->
  (forall c, fails e c = None) ->
  ledger_error e (clock_reads w) = None ->
  barcode_available e = true ->
  encode e value = Returned img ->
  input_barcode e = Some value ->
  nonblank value = true ->
  csv_file (auto_print_block e value printer true w)
  = Some (Ledger.open_append (Ledger.ensure_exists (csv_file w))
          ++ [[value; Clock.strftime (clock e (clock_reads w))]]).
Proof.
  intros Hp Hok Hledger Hav Henc Hin Hnb.
  unfold auto_print_block. rewrite Hnb.
  destruct (generate_barcode e value w) as [[label |] w1] eqn:Hg.
  - pose proof (generate_some_size _ _ _ _ _ Hg) as [Hw Hh].
    pose proof (generate_keeps_file e value w) as [Hf Hc].
    rewrite Hg in Hf, Hc. simpl in Hf, Hc.
    destruct (print_success_log e label printer w1 Hp Hok) as [_ Hlog].
    + rewrite Hc. exact Hledger.
    + rewrite Hw. discriminate.
    + rewrite Hh. discriminate.
    + rewrite Hlog, Hf, Hc, Hin.
      destruct (csv_file w); reflexivity.
  - unfold generate_barcode in Hg. rewrite Hav, Henc in Hg. discriminate Hg.
Qed.

(** C1. A reprint of the selected record "ABC", with "XYZ" still in the
    text input, prints the label of "ABC" and appends a record for "XYZ":
    [log_print_history] reads the global [input_barcode], not the value
    that was printed. *)
Theorem reprint_logs_typed_value_not_printed_value :
  let w' := script_run (Samples.windows "XYZ") Samples.reprint_first
              Samples.after_abc in
  csv_file w'
  = Some [Ledger.header;
          ["ABC"; "01/15/2024 10:00:00 AM"];
          ["XYZ"; "03/05/2024 12:00:00 PM"]]
  /\ messages w'
     = [StImage "Generated Barcode";
        StSuccess "Sent barcode to printer: Zebra";
        SidebarReprinted 1].
Proof. vm_compute. split; reflexivity. Qed.

End PrintFacts.

(** ** The label composer *)

Section LabelFacts.
Import App.
Local Open Scope Z_scope.

Lemma floor_half (n : Z) : n - 1 <= 2 * (n / 2) <= n.
Proof.
  pose proof (Z.div_mod n 2 ltac:(lia)).
  pose proof (Z.mod_pos_bound n 2 ltac:(lia)). lia.
Qed.

(** C6, as the script has it. [generate_barcode] either shows an error
    and returns nothing, or returns a 600 by 300 label, white except
    where the raster of the encoder lies, the raster being pasted at
    offsets that are halves rounded down (toward minus infinity), so an
    offset is negative when the raster is larger than the label. *)
Theorem generate_barcode_label (e : env) (v : string) (w : world) :
  match generate_barcode e v w with
  | (None, w') => exists text, w' = show (StError text) w
  | (Some label, w') =>
      w' = w
      /\ exists raster x y,
          encode e v = Returned raster
          /\ Img.width label = 600 /\ Img.height label = 300
          /\ 600 - Img.width raster - 1 <= 2 * x <= 600 - Img.width raster
          /\ 300 - Img.height raster - 1 <= 2 * y <= 300 - Img.height raster
          /\ forall i j,
              Img.pixel label i j
              = if Img.covered x y (Img.width raster) (Img.height raster) i j
                then Img.pixel raster (i - x) (j - y)
                else Img.white
  end.
Proof.
  unfold generate_barcode.
  destruct (barcode_available e); simpl; [| eexists; reflexivity].
  destruct (encode e v) as [raster | err]; [| eexists; reflexivity].
  split; [reflexivity |].
  exists raster, ((label_width - Img.width raster) / 2),
    ((label_height - Img.height raster) / 2).
  repeat split; try apply floor_half.
Qed.

(** With a raster one pixel wider than the label the script pastes at
    offset -1, where truncating division gives 0: the first column of
    the label shows the second column of the raster, not the first. *)
Lemma generate_barcode_not_truncating :
  exists label,
    generate_barcode (Samples.windows_wide "ABC") "ABC" Samples.fresh
    = (Some label, Samples.fresh)
    /\ Img.pixel label 0 0 = 1
    /\ Img.pixel (spec_label (Samples.ramp 601 301)) 0 0 = 0
    /\ Img.pixel label 0 0 <> Img.pixel (spec_label (Samples.ramp 601 301)) 0 0.
Proof.
  eexists. split; [reflexivity |].
  split; [reflexivity |]. split; [reflexivity |]. discriminate.
Qed.

End LabelFacts.

(** ** The configuration store *)

Section ConfigFacts.
Import Config.

Lemma merge_lookup (members : list (string * json)) (k : string) :
  (dict_of_members members ∪ default_config) !! k
  = match dict_of_members members !! k with
    | Some v => Some v
    | None => default_config !! k
    end.
Proof.
  destruct (dict_of_members members !! k) as [v |] eqn:Hk.
  - rewrite lookup_union_l'; [exact Hk | rewrite Hk; eauto].
  - apply lookup_union_r. exact Hk.
Qed.

(** C4, as the script has it. A missing, unreadable or malformed file
    loads as the defaults.  A file holding a JSON object loads as the
    defaults with every persisted key laid over them: a key that is absent
    takes its default, a key that is present takes the persisted value,
    whatever it is. *)
Theorem load_config_overlays_persisted_keys (f : config_file) :
  match f with
  | Absent | Unreadable | Malformed =>
      load_config f = Returned default_config
  | Parsed (JObj members) =>
      exists d,
        load_config f = Returned d
        /\ forall k,
            d !! k = match dict_of_members members !! k with
                     | Some v => Some v
                     | None => default_config !! k
                     end
  | _ => True
  end.
Proof.
  destruct f as [| | | | v]; try reflexivity; try exact I.
  destruct v; try exact I.
  eexists. split; [reflexivity |]. apply merge_lookup.
Qed.

(** A key persisted as [null] is kept as [null]: for
    [{"auto_print_enabled": null}] the script loads [null] where the
    overlay that treats [null] as "use the default" gives [true]. *)
Lemma load_config_keeps_persisted_null :
  exists d,
    load_config (Parsed (JObj [("auto_print_enabled", JNull)])) = Returned d
    /\ d !! "auto_print_enabled" = Some JNull
    /\ spec_overlay default_config
         (dict_of_members [("auto_print_enabled", JNull)])
       !! "auto_print_enabled" = Some (JBool true)
    /\ d <> spec_overlay default_config
              (dict_of_members [("auto_print_enabled", JNull)]).
Proof.
  eexists. split; [reflexivity |].
  assert (H1 : (dict_of_members [("auto_print_enabled", JNull)] ∪ default_config)
               !! "auto_print_enabled" = Some JNull) by (vm_compute; reflexivity).
  assert (H2 : spec_overlay default_config
                 (dict_of_members [("auto_print_enabled", JNull)])
               !! "auto_print_enabled" = Some (JBool true))
    by (vm_compute; reflexivity).
  split; [exact H1 |]. split; [exact H2 |].
  intros Heq. rewrite Heq, H2 in H1. discriminate H1.
Qed.

(** The example of the specification: one persisted key, the other
    defaulted. *)
Lemma load_config_example :
  load_config (Parsed (JObj [("last_printer", JStr "HP1")]))
  = Returned {[ "last_printer" := JStr "HP1"; "auto_print_enabled" := JBool true ]}.
Proof.
  unfold load_config, load_config_body, json_load, merge. f_equal.
Qed.

(** Two file states the handler of [load_config] does not cover. *)
Lemma load_config_raises_on_non_object :
  load_config (Parsed (JArr [])) = Raised "TypeError"
  /\ load_config Undecodable = Raised "UnicodeDecodeError".
Proof. split; reflexivity. Qed.

End ConfigFacts.

(** ** Printer enumeration *)

Section PrinterFacts.
Import PyStr Printers.

Lemma rstrip_idempotent (s : string) : rstrip (rstrip s) = rstrip s.
Proof.
  induction s as [| c s IH]; [reflexivity |].
  cbn [rstrip]. destruct (rstrip s) as [| a r] eqn:Hr.
  - destruct (is_space c) eqn:Hc; [reflexivity |].
    cbn [rstrip]. rewrite Hc. reflexivity.
  - change (rstrip (String c (String a r)))
      with (match rstrip (String a r) with
            | EmptyString => if is_space c then EmptyString else String c EmptyString
            | String a' r' => String c (String a' r')
            end).
    rewrite IH. reflexivity.
Qed.

(** What is left of a string whose first character is no space starts
    with that character. *)
Lemma rstrip_keeps_head (c : ascii) (s : string) :
  is_space c = false -> exists r, rstrip (String c s) = String c r.
Proof.
  intros Hc. cbn [rstrip]. destruct (rstrip s) as [| a r].
  - rewrite Hc. eauto.
  - eauto.
Qed.

Lemma lstrip_head (s : string) :
  lstrip s = EmptyString
  \/ exists c r, lstrip s = String c r /\ is_space c = false.
Proof.
  induction s as [| c s IH]; [left; reflexivity |].
  cbn [lstrip]. destruct (is_space c) eqn:Hc; [exact IH |].
  right. eauto.
Qed.

Lemma strip_idempotent (s : string) : strip (strip s) = strip s.
Proof.
  unfold strip. destruct (lstrip_head s) as [H | (c & r & H & Hc)]; rewrite H.
  - reflexivity.
  - destruct (rstrip_keeps_head c r Hc) as [r' Hr]. rewrite Hr.
    cbn [lstrip]. rewrite Hc, <- Hr. apply rstrip_idempotent.
Qed.

Lemma truthy_false_iff (s : string) : truthy s = false <-> s = EmptyString.
Proof. destruct s; simpl; split; congruence. Qed.

(** The names read from the text of [lpstat]: the stripped lines that are
    not blank. *)
Lemma lpstat_names (lines : list string) :
  let names := map strip (List.filter (fun line => truthy (strip line)) lines) in
  Forall (fun n => n <> EmptyString /\ strip n = n) names
  /\ (names = [] <-> Forall (fun line => strip line = EmptyString) lines).
Proof.
  induction lines as [| l lines [IH1 IH2]]; cbn zeta.
  - split; [constructor |]. split; constructor.
  - cbn [List.filter]. destruct (truthy (strip l)) eqn:Hl.
    + cbn [map]. split.
      * constructor; [| exact IH1].
        split; [| apply strip_idempotent].
        intros He. rewrite He in Hl. discriminate Hl.
      * split; [discriminate |].
        intros H. inversion H as [| ? ? Hl' _]. rewrite Hl' in Hl. discriminate Hl.
    + split; [exact IH1 |]. rewrite IH2. apply truthy_false_iff in Hl.
      split; [intros H; constructor; assumption |].
      intros H. inversion H. assumption.
Qed.

(** Stripping the lines and dropping the empty results is the same as
    dropping the blank lines and stripping the rest. *)
Lemma filter_strip (lines : list string) :
  map strip (List.filter (fun line => truthy (strip line)) lines)
  = List.filter truthy (map strip lines).
Proof.
  induction lines as [| l lines IH]; [reflexivity |].
  cbn [List.filter map]. destruct (truthy (strip l)); cbn [map]; rewrite IH;
    reflexivity.
Qed.

(** C10, as the script has it. A missing [win32print] on Windows and a
    failing [lpstat] elsewhere each give the one-element list that holds
    the message.  When the enumeration succeeds, the names are exactly
    those the platform lists, in its order: on Windows the name of every
    printer enumerated; elsewhere the lines of the text, each stripped,
    without those that are empty then, so that each name is non-empty and
    has no white space around it, and the list is empty exactly when
    every line is blank.  An error that [EnumPrinters] itself raises is
    not caught: [get_printer_names] raises it. *)
Theorem get_printer_names_lists_platform_printers (e : enumerator) :
  match e with
  | Win32printMissing =>
      get_printer_names e = Returned ["win32print module not installed"]
  | LpstatFails =>
      get_printer_names e = Returned ["Printer listing not supported on this OS"]
  | Win32print (Returned printers) =>
      get_printer_names e = Returned (map printer_name printers)
      /\ (map printer_name printers = [] <-> printers = [])
  | Win32print (Raised err) => get_printer_names e = Raised err
  | Lpstat output =>
      let names := List.filter truthy (map strip (splitlines output)) in
      get_printer_names e = Returned names
      /\ Forall (fun n => n <> EmptyString /\ strip n = n) names
      /\ (names = []
          <-> Forall (fun line => strip line = EmptyString) (splitlines output))
  end.
Proof.
  destruct e as [| [printers | err] | | output]; try reflexivity.
  - split; [reflexivity |]. destruct printers; split; cbn [map]; congruence.
  - cbv zeta. rewrite <- filter_strip. split; [reflexivity |]. apply lpstat_names.
Qed.

(** When [lpstat] succeeds and prints nothing (no printer is configured)
    the list is empty; so it is when no printer is installed on Windows. *)
Lemma get_printer_names_can_be_empty :
  get_printer_names (Lpstat EmptyString) = Returned []
  /\ get_printer_names (Win32print (Returned [])) = Returned [].
Proof. split; reflexivity. Qed.

(** An error of [EnumPrinters] itself is not caught. *)
Lemma get_printer_names_enum_error (err : string) :
  get_printer_names (Win32print (Raised err)) = Raised err.
Proof. reflexivity. Qed.

Lemma splitlines_example :
  splitlines ("HP_LaserJet" +:+ String (ascii_of_nat 10) ("  Zebra " +:+
              String (ascii_of_nat 13) (String (ascii_of_nat 10) EmptyString)))
  = ["HP_LaserJet"; "  Zebra "].
Proof. reflexivity. Qed.

End PrinterFacts.

(** ** The order of the history *)

Section HistoryFacts.
Import Clock History.
Local Open Scope N_scope.

Lemma digit_compare (a b : N) :
  Ascii.compare (digit a) (digit b) = (a mod 10 ?= b mod 10).
Proof.
  unfold digit, Ascii.compare.
  pose proof (N.mod_upper_bound a 10 ltac:(lia)).
  pose proof (N.mod_upper_bound b 10 ltac:(lia)).
  rewrite !N_ascii_embedding by lia.
  destruct (N.compare_spec (48 + a mod 10) (48 + b mod 10));
    destruct (N.compare_spec (a mod 10) (b mod 10)); try reflexivity; lia.
Qed.

Lemma two_digits_compare (a b : N) (s t : string) :
  a < 100 -> b < 100 ->
  String.compare (two_digits a +:+ s) (two_digits b +:+ t)
  = match a ?= b with
    | Eq => String.compare s t
    | c => c
    end.
Proof.
  intros Ha Hb.
  change (two_digits a +:+ s) with (String (digit (a / 10)) (String (digit a) s)).
  change (two_digits b +:+ t) with (String (digit (b / 10)) (String (digit b) t)).
  cbn [String.compare]. rewrite !digit_compare.
  rewrite (N.mod_small (a / 10)) by (apply N.Div0.div_lt_upper_bound; lia).
  rewrite (N.mod_small (b / 10)) by (apply N.Div0.div_lt_upper_bound; lia).
  pose proof (N.div_mod a 10 ltac:(lia)) as Ea.
  pose proof (N.div_mod b 10 ltac:(lia)) as Eb.
  pose proof (N.mod_upper_bound a 10 ltac:(lia)) as Ra.
  pose proof (N.mod_upper_bound b 10 ltac:(lia)) as Rb.
  revert Ea Eb Ra Rb.
  generalize (a / 10) (a mod 10) (b / 10) (b mod 10).
  intros qa ra qb rb Ea Eb Ra Rb.
  destruct (N.compare_spec qa qb);
    destruct (N.compare_spec ra rb);
    destruct (N.compare_spec a b); try reflexivity; lia.
Qed.

(** A print on a later day of the calendar year renders as a text that
    compares greater, whatever the years: the month and the day come first. *)
Lemma strftime_orders_days (d1 d2 : datetime) :
  valid d1 -> valid d2 -> day_key d1 < day_key d2 ->
  String.compare (strftime d1) (strftime d2) = Lt.
Proof.
  unfold valid, day_key, strftime. intros V1 V2 Hlt.
  rewrite two_digits_compare by lia.
  destruct (N.compare_spec (month d1) (month d2)) as [Hm | Hm | Hm];
    [| reflexivity | lia].
  change (String.compare ("/" +:+ ?x) ("/" +:+ ?y)) with (String.compare x y).
  rewrite two_digits_compare by lia.
  destruct (N.compare_spec (day d1) (day d2)); [lia | reflexivity | lia].
Qed.

Lemma text_order_gives_day_order (d1 d2 : datetime) :
  valid d1 -> valid d2 ->
  str_le (strftime d2) (strftime d1) = true -> day_key d2 <= day_key d1.
Proof.
  intros V1 V2 Hle.
  destruct (N.le_gt_cases (day_key d2) (day_key d1)) as [H | H]; [exact H |].
  pose proof (strftime_orders_days d1 d2 V1 V2 H) as Hc.
  unfold str_le, String.leb in Hle.
  rewrite String.compare_antisym, Hc in Hle. discriminate Hle.
Qed.

(** *** The sort *)

Lemma insert_desc_splits (r : record) (l : list record) :
  exists l1 l2, l = l1 ++ l2 /\ insert_desc r l = l1 ++ r :: l2.
Proof.
  induction l as [| r' l (l1 & l2 & Hl & Hins)]; cbn [insert_desc].
  - exists [], []. split; reflexivity.
  - destruct (str_le (date_time_printed r') (date_time_printed r)).
    + exists [], (r' :: l). split; reflexivity.
    + exists (r' :: l1), l2. rewrite Hins, Hl at 1. split; reflexivity.
Qed.

Lemma str_le_total (a b : string) : str_le a b = false -> str_le b a = true.
Proof.
  intros H. destruct (String.leb_total a b) as [H' | H']; [| exact H'].
  unfold str_le in H. congruence.
Qed.

Lemma insert_desc_hd (r : record) (l : list record) (a : record) :
  HdRel text_desc a l -> text_desc a r -> HdRel text_desc a (insert_desc r l).
Proof.
  intros Hl Hr. destruct l as [| r' l]; cbn [insert_desc].
  - constructor. exact Hr.
  - destruct (str_le _ _); constructor; [exact Hr |].
    inversion Hl. assumption.
Qed.

Lemma insert_desc_sorted (r : record) (l : list record) :
  Sorted text_desc l -> Sorted text_desc (insert_desc r l).
Proof.
  induction l as [| r' l IH]; intros Hs; cbn [insert_desc].
  - repeat constructor.
  - destruct (str_le (date_time_printed r') (date_time_printed r)) eqn:Hle.
    + constructor; [exact Hs |]. constructor. exact Hle.
    + inversion Hs as [| ? ? Hs' Hhd]; subst.
      constructor; [apply IH; exact Hs' |].
      apply insert_desc_hd; [exact Hhd |].
      unfold text_desc. apply str_le_total. exact Hle.
Qed.

Lemma sort_values_sorted (l : list record) : Sorted text_desc (sort_values l).
Proof.
  induction l as [| r l IH]; cbn [sort_values fold_right]; [constructor |].
  apply insert_desc_sorted. exact IH.
Qed.

(** The sorted frame of stamped entries is the frame of a rearrangement
    of the entries. *)
Lemma sort_values_entries (entries : list (string * datetime)) :
  exists sorted,
    Permutation entries sorted
    /\ sort_values (map stamp_entry entries) = map stamp_entry sorted.
Proof.
  induction entries as [| e entries (sorted & Hperm & Hsort)].
  - exists []. split; [constructor | reflexivity].
  - cbn [map sort_values fold_right]. fold (sort_values (map stamp_entry entries)).
    rewrite Hsort.
    destruct (insert_desc_splits (stamp_entry e) (map stamp_entry sorted))
      as (l1 & l2 & Hl & Hins).
    apply map_eq_app in Hl as (s1 & s2 & -> & <- & <-).
    exists (s1 ++ e :: s2). split.
    + apply Permutation_cons_app. exact Hperm.
    + rewrite Hins, map_app. reflexivity.
Qed.

Lemma Sorted_map_stamp (R : record -> record -> Prop)
    (l : list (string * datetime)) :
  Sorted R (map stamp_entry l)
  -> Sorted (fun a b => R (stamp_entry a) (stamp_entry b)) l.
Proof.
  induction l as [| a l IH]; intros H; [constructor |].
  inversion H as [| ? ? Hs Hhd]; subst. constructor; [apply IH; exact Hs |].
  destruct l; constructor. inversion Hhd. assumption.
Qed.

Lemma Sorted_weaken {A} (P : A -> Prop) (R R' : A -> A -> Prop) (l : list A) :
  (forall a b, P a -> P b -> R a b -> R' a b) ->
  Forall P l -> Sorted R l -> Sorted R' l.
Proof.
  intros HR. induction l as [| a l IH]; intros HP Hs; [constructor |].
  inversion HP; subst. inversion Hs as [| ? ? Hs' Hhd]; subst.
  constructor; [apply IH; assumption |].
  destruct l; constructor. inversion Hhd; subst.
  match goal with H : Forall P (_ :: _) |- _ => inversion H; subst end.
  apply HR; assumption.
Qed.

(** C3, as the script has it. The history is shown in the descending
    order of the text of the date column, which starts with the month and
    the day: a record printed on a later day of the calendar year comes
    before one printed on an earlier day, so within one year a later date
    comes first (02/01/2024 before 01/15/2024).  The year only breaks
    ties of month and day. *)
Theorem history_sorted_by_month_and_day (entries : list (string * datetime)) :
  Forall (fun e => valid e.2) entries ->
  exists sorted,
    Permutation entries sorted
    /\ sort_values (map stamp_entry entries) = map stamp_entry sorted
    /\ Sorted text_desc (map stamp_entry sorted)
    /\ StronglySorted (fun a b => day_key b.2 <= day_key a.2) sorted
    /\ StronglySorted
         (fun a b => year a.2 = year b.2 -> date_key b.2 <= date_key a.2) sorted.
Proof.
  intros Hvalid.
  destruct (sort_values_entries entries) as (sorted & Hperm & Hsort).
  exists sorted. split; [exact Hperm |]. split; [exact Hsort |].
  assert (Htext : Sorted text_desc (map stamp_entry sorted)).
  { rewrite <- Hsort. apply sort_values_sorted. }
  split; [exact Htext |].
  assert (Hv : Forall (fun e : string * datetime => valid e.2) sorted).
  { exact (Permutation_Forall Hperm Hvalid). }
  assert (Hdays : StronglySorted
                    (fun a b : string * datetime => day_key b.2 <= day_key a.2)
                    sorted).
  { apply Sorted_StronglySorted.
    - intros a b c Hab Hbc. lia.
    - apply (Sorted_weaken (fun e : string * datetime => valid e.2)
               (fun a b => text_desc (stamp_entry a) (stamp_entry b))).
      + intros a b Va Vb Hab. apply text_order_gives_day_order; assumption.
      + exact Hv.
      + apply Sorted_map_stamp. exact Htext. }
  split; [exact Hdays |].
  clear -Hdays. induction Hdays as [| a l _ IH Hall]; constructor; [exact IH |].
  eapply Forall_impl; [exact Hall |].
  intros b Hb Hy. unfold date_key. cbn beta in Hb. lia.
Qed.

Lemma history_sorted_by_month_and_day_witness :
  exists sorted,
    Permutation [("A", mk_datetime 2024 1 15 9 0 0);
                 ("B", mk_datetime 2024 2 1 9 0 0)] sorted
    /\ sort_values (map stamp_entry [("A", mk_datetime 2024 1 15 9 0 0);
                                     ("B", mk_datetime 2024 2 1 9 0 0)])
       = map stamp_entry sorted
    /\ Sorted text_desc (map stamp_entry sorted)
    /\ StronglySorted (fun a b => day_key b.2 <= day_key a.2) sorted
    /\ StronglySorted
         (fun a b => year a.2 = year b.2 -> date_key b.2 <= date_key a.2) sorted.
Proof.
  apply (history_sorted_by_month_and_day
           [("A", mk_datetime 2024 1 15 9 0 0); ("B", mk_datetime 2024 2 1 9 0 0)]).
  repeat constructor; simpl; lia.
Defined.

(** The example of the specification: 02/01/2024 is shown before
    01/15/2024. *)
Lemma history_sort_same_year_example :
  sort_values [stamp "A" (mk_datetime 2024 1 15 9 0 0);
               stamp "B" (mk_datetime 2024 2 1 9 0 0)]
  = [mk_record "B" "02/01/2024 09:00:00 AM";
     mk_record "A" "01/15/2024 09:00:00 AM"].
Proof. reflexivity. Qed.

(** Across a year boundary the order is not that of time: the print of
    12/31/2024 is shown before the later print of 01/01/2025. *)
Lemma history_sort_not_chronological :
  sort_values [stamp "old" (mk_datetime 2024 12 31 9 0 0);
               stamp "new" (mk_datetime 2025 1 1 9 0 0)]
  = [mk_record "old" "12/31/2024 09:00:00 AM";
     mk_record "new" "01/01/2025 09:00:00 AM"]
  /\ sort_values [stamp "new" (mk_datetime 2025 1 1 9 0 0);
                  stamp "old" (mk_datetime 2024 12 31 9 0 0)]
     = [mk_record "old" "12/31/2024 09:00:00 AM";
        mk_record "new" "01/01/2025 09:00:00 AM"]
  /\ chronological_key (mk_datetime 2024 12 31 9 0 0)
     < chronological_key (mk_datetime 2025 1 1 9 0 0).
Proof. repeat split. Qed.

(** Within one day the order is not that of time either: one o'clock in
    the afternoon is shown after eleven in the morning. *)
Lemma history_sort_within_day :
  sort_values [stamp "morning" (mk_datetime 2024 3 5 11 0 0);
               stamp "afternoon" (mk_datetime 2024 3 5 13 0 0)]
  = [mk_record "morning" "03/05/2024 11:00:00 AM";
     mk_record "afternoon" "03/05/2024 01:00:00 PM"].
Proof. reflexivity. Qed.

End HistoryFacts.

(** ** Binary64 rounding *)

Section FloatFacts.
Import Float.
Local Open Scope Q_scope.

Lemma round_half_even_near (x : Q) :
  x - (1 # 2) <= inject_Z (round_half_even x) <= x + (1 # 2).
Proof.
  unfold round_half_even.
  pose proof (Qfloor_le x) as Hlo. pose proof (Qlt_floor x) as Hhi.
  rewrite inject_Z_plus in Hhi. change (inject_Z 1) with 1 in Hhi.
  destruct (Qcompare (x - inject_Z (Qfloor x)) (1 # 2)) eqn:Hc.
  - apply Qeq_alt in Hc.
    destruct (Z.even (Qfloor x));
      [| rewrite inject_Z_plus; change (inject_Z 1) with 1]; lra.
  - apply Qlt_alt in Hc. lra.
  - apply Qgt_alt in Hc. rewrite inject_Z_plus. change (inject_Z 1) with 1. lra.
Qed.

Lemma round_half_even_Z (n : Z) : round_half_even (inject_Z n) = n.
Proof.
  unfold round_half_even. rewrite Qfloor_Z.
  replace (Qcompare (inject_Z n - inject_Z n) (1 # 2)) with Lt; [reflexivity |].
  symmetry. apply Qlt_alt.
  assert (H : inject_Z n - inject_Z n == 0) by ring.
  rewrite H. reflexivity.
Qed.

#[local] Instance round_half_even_comp : Proper (Qeq ==> eq) round_half_even.
Proof.
  intros x y Hxy. unfold round_half_even.
  rewrite (Qfloor_comp x y Hxy).
  assert (H : x - inject_Z (Qfloor y) == y - inject_Z (Qfloor y)) by (rewrite Hxy; reflexivity).
  rewrite (Qcompare_comp _ _ H _ _ (Qeq_refl (1 # 2))). reflexivity.
Qed.

Lemma pow2_pos (e : Z) : 0 < 2 ^ e.
Proof. apply Qpower_0_lt. reflexivity. Qed.

Lemma pow2_add (a b : Z) : 2 ^ (a + b) == 2 ^ a * 2 ^ b.
Proof. apply Qpower_plus. discriminate. Qed.

Lemma pow2_Z (n : Z) : (0 <= n)%Z -> inject_Z (2 ^ n) == 2 ^ n.
Proof. intros H. apply (Zpower_Qpower 2 n H). Qed.

(** The binade of a positive number starts at or below it. *)
Lemma ulp_exp_le (x : Q) : 0 < x -> 2 ^ (ulp_exp x + 52) <= x.
Proof.
  intros Hx. unfold ulp_exp.
  set (k := (Z.log2 (Qnum x) - Z.log2 (Z.pos (Qden x)))%Z).
  destruct (Qle_bool (2 ^ k) x) eqn:Hk.
  - apply Qle_bool_iff in Hk. replace (k - 52 + 52)%Z with k by lia. exact Hk.
  - replace (k - 53 + 52)%Z with (k - 1)%Z by lia.
    destruct x as [n d]. cbn [Qnum Qden] in k.
    assert (Hn : (0 < n)%Z).
    { unfold Qlt in Hx. cbn in Hx. lia. }
    destruct (Z.log2_spec n Hn) as [Hn1 _].
    destruct (Z.log2_spec (Z.pos d) ltac:(lia)) as [_ Hd2].
    pose proof (Z.log2_nonneg n) as Ha. pose proof (Z.log2_nonneg (Z.pos d)) as Hb.
    set (a := Z.log2 n) in *. set (b := Z.log2 (Z.pos d)) in *.
    rewrite (Qmake_Qdiv n d).
    apply Qle_shift_div_l; [reflexivity |].
    apply Qle_trans with (2 ^ (k - 1) * 2 ^ (Z.succ b)).
    + apply Qmult_le_l; [apply pow2_pos |].
      rewrite <- pow2_Z by lia. apply Qlt_le_weak. rewrite <- Zlt_Qlt. exact Hd2.
    + rewrite <- pow2_add.
      replace (k - 1 + Z.succ b)%Z with a by (unfold k; lia).
      rewrite <- pow2_Z by lia. rewrite <- Zle_Qle. exact Hn1.
Qed.

Lemma rnd_pos (x : Q) :
  0 < x -> rnd x = inject_Z (round_half_even (x / 2 ^ ulp_exp x)) * 2 ^ ulp_exp x.
Proof. intros H. unfold rnd. apply Qgt_alt in H. rewrite H. reflexivity. Qed.

Lemma rnd_zero (x : Q) : x == 0 -> rnd x = 0.
Proof. intros H. unfold rnd. apply Qeq_alt in H. rewrite H. reflexivity. Qed.

Lemma pow2_52 : 2 ^ 52 == 4503599627370496.
Proof. reflexivity. Qed.

(** Rounding a positive number moves it by at most the unit roundoff,
    relatively. *)
Lemma rnd_bounds (x : Q) :
  0 < x -> x * (1 - u) <= rnd x <= x * (1 + u).
Proof.
  intros Hx. rewrite (rnd_pos x Hx).
  pose proof (ulp_exp_le x Hx) as Hle. rewrite pow2_add, pow2_52 in Hle.
  pose proof (pow2_pos (ulp_exp x)) as Hp.
  pose proof (round_half_even_near (x / 2 ^ ulp_exp x)) as Hnear.
  assert (Hm : x / 2 ^ ulp_exp x * 2 ^ ulp_exp x == x).
  { field. intros H0. rewrite H0 in Hp. discriminate Hp. }
  revert Hle Hp Hnear Hm.
  generalize (inject_Z (round_half_even (x / 2 ^ ulp_exp x))).
  generalize (x / 2 ^ ulp_exp x). generalize (2 ^ ulp_exp x).
  intros p m r Hle Hp [Hlo Hhi] Hm. unfold u.
  assert (H1 : (m - (1 # 2)) * p <= r * p) by (apply Qmult_le_compat_r; lra).
  assert (H2 : r * p <= (m + (1 # 2)) * p) by (apply Qmult_le_compat_r; lra).
  split; lra.
Qed.

Lemma rnd_nonneg (x : Q) : 0 <= x -> 0 <= rnd x.
Proof.
  intros Hx. destruct (Qlt_le_dec 0 x) as [Hpos | Hle].
  - pose proof (rnd_bounds x Hpos) as [Hlo _]. unfold u in Hlo.
    apply Qle_trans with (x * (1 - (1 # 9007199254740992))); [| exact Hlo].
    apply Qmult_le_0_compat; lra.
  - rewrite rnd_zero; [apply Qle_refl | lra].
Qed.

Lemma rnd_upper (x : Q) : 0 <= x -> rnd x <= x * (1 + u).
Proof.
  intros Hx. destruct (Qlt_le_dec 0 x) as [Hpos | Hle].
  - apply rnd_bounds. exact Hpos.
  - rewrite rnd_zero by lra. unfold u. 
    apply Qmult_le_0_compat; lra.
Qed.

Lemma py_min_le (x y : Q) : py_min x y <= x /\ py_min x y <= y.
Proof.
  unfold py_min. destruct (Qcompare y x) eqn:Hc.
  - apply Qeq_alt in Hc. split; lra.
  - apply Qlt_alt in Hc. split; lra.
  - apply Qgt_alt in Hc. split; lra.
Qed.

Lemma py_min_nonneg (x y : Q) : 0 <= x -> 0 <= y -> 0 <= py_min x y.
Proof. intros Hx Hy. unfold py_min. destruct (Qcompare y x); assumption. Qed.

Lemma py_int_nonneg (x : Q) : 0 <= x -> py_int x = Qfloor x.
Proof. intros H. unfold py_int. apply Qle_bool_iff in H. rewrite H. reflexivity. Qed.

(** The scaled size of one axis: at most the printable size. *)
Lemma scaled_fits (n p : Z) (s : Q) :
  (0 < n)%Z -> (0 <= p < 2147483648)%Z ->
  0 <= s -> s <= truediv p n ->
  (0 <= py_int (mul_int n s) <= p)%Z.
Proof.
  intros Hn Hp Hs Hle.
  assert (Hn' : 0 < inject_Z n) by (rewrite Zlt_Qlt in Hn; exact Hn).
  assert (Hp0 : 0 <= inject_Z p) by (rewrite Zle_Qle in Hp; apply Hp).
  assert (Hp1 : inject_Z p < 2147483648).
  { destruct Hp as [_ Hp]. rewrite Zlt_Qlt in Hp. exact Hp. }
  assert (Hq : 0 <= inject_Z p / inject_Z n).
  { apply Qle_shift_div_l; [exact Hn' | lra]. }
  pose proof (rnd_upper _ Hq) as Ha. fold (truediv p n) in Ha.
  assert (Hns : 0 <= inject_Z n * s) by (apply Qmult_le_0_compat; lra).
  pose proof (rnd_upper _ Hns) as Ht. pose proof (rnd_nonneg _ Hns) as Ht0.
  fold (mul_int n s) in Ht, Ht0.
  assert (Hprod : inject_Z n * s <= inject_Z p * (1 + u)).
  { apply Qle_trans with (inject_Z n * (inject_Z p / inject_Z n * (1 + u))).
    - apply Qmult_le_l; [exact Hn' | lra].
    - apply Qle_lteq. right. field. lra. }
  rewrite (py_int_nonneg _ Ht0).
  split.
  - rewrite <- (Qfloor_Z 0). apply Qfloor_resp_le. exact Ht0.
  - pose proof (Qfloor_le (mul_int n s)) as Hfl.
    assert (Hlt : inject_Z (Qfloor (mul_int n s)) < inject_Z (p + 1)).
    { rewrite inject_Z_plus. change (inject_Z 1) with 1.
      unfold u in *. 
      assert (inject_Z n * s * (1 + (1 # 9007199254740992))
              <= inject_Z p * (1 + (1 # 9007199254740992)) * (1 + (1 # 9007199254740992))).
      { apply Qmult_le_compat_r; lra. }
      lra. }
    rewrite <- Zlt_Qlt in Hlt. lia.
Qed.

Lemma Qfloor_half (d : Z) : Qfloor (inject_Z d / 2) = (d / 2)%Z.
Proof. symmetry. apply (Zdiv_Qdiv d 2). Qed.

(** Halving a small integer is exact. *)
Lemma truediv_half (d : Z) :
  (0 <= d < 2147483648)%Z -> truediv d 2 == inject_Z d * (1 # 2).
Proof.
  intros [Hd0 Hd1]. unfold truediv. change (inject_Z 2) with 2.
  unfold Qdiv. change (/ 2) with (1 # 2).
  destruct (Z.eq_dec d 0%Z) as [-> | Hne].
  - rewrite rnd_zero; reflexivity.
  - assert (Hd : 0 < inject_Z d)
      by (change (inject_Z 0 < inject_Z d); rewrite <- Zlt_Qlt; lia).
    assert (Hd' : inject_Z d < 2147483648) by (rewrite Zlt_Qlt in Hd1; exact Hd1).
    assert (Hx : 0 < inject_Z d * (1 # 2)) by lra.
    rewrite (rnd_pos _ Hx).
    pose proof (ulp_exp_le _ Hx) as Hle.
    set (e := ulp_exp (inject_Z d * (1 # 2))) in *.
    assert (He : (e + 52 < 31)%Z).
    { apply (Qpower_lt_compat_l_inv 2); [| reflexivity].
      apply Qle_lt_trans with (inject_Z d * (1 # 2)); [exact Hle |].
      change (2 ^ 31) with 2147483648. lra. }
    assert (Hp : ~ 2 ^ e == 0).
    { intros H0. pose proof (pow2_pos e) as Hp. rewrite H0 in Hp. discriminate Hp. }
    assert (Hpow : inject_Z (2 ^ (- e - 1)) * 2 ^ e == 1 # 2).
    { rewrite pow2_Z by lia. rewrite <- pow2_add.
      replace (- e - 1 + e)%Z with (- 1)%Z by lia. reflexivity. }
    assert (Hm : inject_Z d * (1 # 2) / 2 ^ e == inject_Z (d * 2 ^ (- e - 1))).
    { rewrite inject_Z_mult. rewrite <- Hpow. field. exact Hp. }
    rewrite Hm, round_half_even_Z.
    rewrite inject_Z_mult, <- Qmult_assoc, Hpow. reflexivity.
Qed.

#[local] Instance py_int_comp : Proper (Qeq ==> eq) py_int.
Proof.
  intros x y Hxy. unfold py_int, Qceiling.
  assert (Hb : Qle_bool 0 x = Qle_bool 0 y).
  { destruct (Qle_bool 0 y) eqn:Hy.
    - apply Qle_bool_iff. apply Qle_bool_iff in Hy. lra.
    - destruct (Qle_bool 0 x) eqn:Hx; [| reflexivity].
      apply Qle_bool_iff in Hx. rewrite <- Hy. symmetry. apply Qle_bool_iff. lra. }
  rewrite Hb, (Qfloor_comp x y Hxy).
  assert (Hn : - x == - y) by lra.
  rewrite (Qfloor_comp _ _ Hn). reflexivity.
Qed.

Lemma centered_offset (d : Z) :
  (0 <= d < 2147483648)%Z -> py_int (truediv d 2) = (d / 2)%Z.
Proof.
  intros Hd. rewrite (truediv_half d Hd).
  assert (Hd0 : 0 <= inject_Z d) by (rewrite Zle_Qle in Hd; apply Hd).
  rewrite py_int_nonneg by lra.
  rewrite <- Qfloor_half. apply Qfloor_comp.
  unfold Qdiv. change (/ 2) with (1 # 2). reflexivity.
Qed.

Lemma rnd_lower (x : Q) : 0 <= x -> x * (1 - u) <= rnd x.
Proof.
  intros Hx. destruct (Qlt_le_dec 0 x) as [Hpos | Hle].
  - apply rnd_bounds. exact Hpos.
  - rewrite rnd_zero by lra. unfold u. lra.
Qed.

(** The scale the script computes is the exact scale, up to one rounding. *)
Lemma scale_close (iw ih pw ph : Z) :
  (0 < iw)%Z -> (0 < ih)%Z -> (0 <= pw)%Z -> (0 <= ph)%Z ->
  let sigma := App.exact_scale iw ih pw ph in
  let s := py_min (truediv pw iw) (truediv ph ih) in
  0 <= sigma /\ 0 <= s
  /\ s <= truediv pw iw /\ s <= truediv ph ih
  /\ sigma * (1 - u) <= s <= sigma * (1 + u)
  /\ inject_Z iw * sigma <= inject_Z pw
  /\ inject_Z ih * sigma <= inject_Z ph.
Proof.
  intros Hiw Hih Hpw Hph sigma s.
  assert (Hiw' : 0 < inject_Z iw) by (rewrite Zlt_Qlt in Hiw; exact Hiw).
  assert (Hih' : 0 < inject_Z ih) by (rewrite Zlt_Qlt in Hih; exact Hih).
  assert (Hpw' : 0 <= inject_Z pw) by (rewrite Zle_Qle in Hpw; exact Hpw).
  assert (Hph' : 0 <= inject_Z ph) by (rewrite Zle_Qle in Hph; exact Hph).
  assert (Ha : 0 <= inject_Z pw / inject_Z iw)
    by (apply Qle_shift_div_l; [exact Hiw' | lra]).
  assert (Hb : 0 <= inject_Z ph / inject_Z ih)
    by (apply Qle_shift_div_l; [exact Hih' | lra]).
  assert (Ea : inject_Z iw * (inject_Z pw / inject_Z iw) == inject_Z pw)
    by (field; lra).
  assert (Eb : inject_Z ih * (inject_Z ph / inject_Z ih) == inject_Z ph)
    by (field; lra).
  pose proof (rnd_upper _ Ha) as Ha1. pose proof (rnd_lower _ Ha) as Ha2.
  pose proof (rnd_upper _ Hb) as Hb1. pose proof (rnd_lower _ Hb) as Hb2.
  pose proof (py_min_le (truediv pw iw) (truediv ph ih)) as [Hsa Hsb].
  fold s in Hsa, Hsb.
  assert (Hs : s = truediv pw iw \/ s = truediv ph ih).
  { unfold s, py_min. destruct (Qcompare _ _); auto. }
  unfold truediv in *.
  pose proof (Q.le_min_l (inject_Z pw / inject_Z iw) (inject_Z ph / inject_Z ih))
    as Hl.
  pose proof (Q.le_min_r (inject_Z pw / inject_Z iw) (inject_Z ph / inject_Z ih))
    as Hr.
  assert (Hsig : 0 <= sigma) by (apply Q.min_glb; assumption).
  fold (App.exact_scale iw ih pw ph) in Hl, Hr. fold sigma in Hl, Hr.
  assert (Hd : sigma == inject_Z pw / inject_Z iw
               \/ sigma == inject_Z ph / inject_Z ih).
  { destruct (Q.min_dec (inject_Z pw / inject_Z iw) (inject_Z ph / inject_Z ih));
      [left | right]; assumption. }
  revert Ha Hb Ea Eb Ha1 Ha2 Hb1 Hb2 Hsa Hsb Hs Hl Hr Hd.
  generalize (rnd (inject_Z pw / inject_Z iw)) (rnd (inject_Z ph / inject_Z ih)).
  generalize (inject_Z pw / inject_Z iw) (inject_Z ph / inject_Z ih).
  intros a b ra rb Ha Hb Ea Eb Ha1 Ha2 Hb1 Hb2 Hsa Hsb Hs Hl Hr Hd.
  unfold u in *.
  assert (Hw : inject_Z iw * sigma <= inject_Z iw * a)
    by (apply Qmult_le_l; assumption).
  assert (Hh : inject_Z ih * sigma <= inject_Z ih * b)
    by (apply Qmult_le_l; assumption).
  repeat split; try lra.
  - destruct Hs as [-> | ->]; lra.
  - destruct Hs as [-> | ->]; lra.
Qed.

(** The scaled size of one axis is within a pixel of the exact one. *)
Lemma scaled_close (n p : Z) (s sigma : Q) :
  (0 < n)%Z -> (0 <= p < 2147483648)%Z ->
  0 <= sigma -> 0 <= s ->
  inject_Z n * sigma <= inject_Z p ->
  sigma * (1 - u) <= s <= sigma * (1 + u) ->
  inject_Z n * sigma - 1 - (1 # 1000000) < inject_Z (py_int (mul_int n s))
  /\ inject_Z (py_int (mul_int n s)) < inject_Z n * sigma + (1 # 1000000).
Proof.
  intros Hn [_ Hp] Hsig Hs Hle [Hs1 Hs2].
  assert (Hn' : 0 < inject_Z n) by (rewrite Zlt_Qlt in Hn; exact Hn).
  assert (Hp' : inject_Z p < 2147483648) by (rewrite Zlt_Qlt in Hp; exact Hp).
  assert (Hy : 0 <= inject_Z n * s) by (apply Qmult_le_0_compat; lra).
  pose proof (rnd_upper _ Hy) as Ht1. pose proof (rnd_lower _ Hy) as Ht2.
  pose proof (rnd_nonneg _ Hy) as Ht0. fold (mul_int n s) in Ht0, Ht1, Ht2.
  rewrite (py_int_nonneg _ Ht0).
  pose proof (Qfloor_le (mul_int n s)) as Hf1.
  pose proof (Qlt_floor (mul_int n s)) as Hf2.
  rewrite inject_Z_plus in Hf2. change (inject_Z 1) with 1 in Hf2.
  assert (Hx : 0 <= inject_Z n * sigma) by (apply Qmult_le_0_compat; lra).
  assert (Hy1 : inject_Z n * (sigma * (1 - u)) <= inject_Z n * s)
    by (apply Qmult_le_l; assumption).
  assert (Hy2 : inject_Z n * s <= inject_Z n * (sigma * (1 + u)))
    by (apply Qmult_le_l; assumption).
  assert (E1 : inject_Z n * (sigma * (1 - u)) == inject_Z n * sigma * (1 - u))
    by ring.
  assert (E2 : inject_Z n * (sigma * (1 + u)) == inject_Z n * sigma * (1 + u))
    by ring.
  revert Hle Hx Hy Ht1 Ht2 Hf1 Hf2 Hy1 Hy2 E1 E2.
  generalize (inject_Z (Qfloor (mul_int n s))) (mul_int n s).
  generalize (inject_Z n * (sigma * (1 - u))) (inject_Z n * (sigma * (1 + u))).
  generalize (inject_Z n * s) (inject_Z n * sigma).
  intros y x lo hi f t Hle Hx Hy Ht1 Ht2 Hf1 Hf2 Hy1 Hy2 E1 E2.
  unfold u in *. split; lra.
Qed.

End FloatFacts.

Section LayoutFacts.

Import Float.
Local Open Scope Q_scope.

(** C7 (as the code has it): for an image and a printable area whose sizes
    are 32-bit device values, [print_barcode_image] scales by the smaller
    of the two ratios and TRUNCATES the scaled sizes with [int] (it does
    not round them); the scaled image fits inside the printable area on
    both axes, each scaled size is within one pixel below the exactly
    proportional size, and the image is drawn at the centred offsets
    floor((printable - scaled) / 2). *)
Theorem print_layout_truncates_and_fits (iw ih pw ph : Z) :
  (0 < iw < 2147483648)%Z -> (0 < ih < 2147483648)%Z ->
  (0 <= pw < 2147483648)%Z -> (0 <= ph < 2147483648)%Z ->
  let '(sw, sh, x, y) := App.layout iw ih pw ph in
  let sigma := App.exact_scale iw ih pw ph in
  let scale := py_min (truediv pw iw) (truediv ph ih) in
  sw = py_int (mul_int iw scale) /\ sh = py_int (mul_int ih scale)
  /\ (0 <= sw <= pw)%Z /\ (0 <= sh <= ph)%Z
  /\ inject_Z iw * sigma - 1 - (1 # 1000000) < inject_Z sw
  /\ inject_Z sw < inject_Z iw * sigma + (1 # 1000000)
  /\ inject_Z ih * sigma - 1 - (1 # 1000000) < inject_Z sh
  /\ inject_Z sh < inject_Z ih * sigma + (1 # 1000000)
  /\ x = ((pw - sw) / 2)%Z /\ y = ((ph - sh) / 2)%Z.
Proof.
  intros [Hiw Hiw'] [Hih Hih'] Hpw Hph. unfold App.layout.
  destruct (scale_close iw ih pw ph Hiw Hih (proj1 Hpw) (proj1 Hph))
    as (Hsig & Hs & Hsa & Hsb & Hclose & Hfw & Hfh).
  set (sigma := App.exact_scale iw ih pw ph) in *.
  set (scale := py_min (truediv pw iw) (truediv ph ih)) in *.
  pose proof (scaled_fits iw pw scale Hiw Hpw Hs Hsa) as Hw.
  pose proof (scaled_fits ih ph scale Hih Hph Hs Hsb) as Hh.
  pose proof (scaled_close iw pw scale sigma Hiw Hpw Hsig Hs Hfw Hclose)
    as [Hw1 Hw2].
  pose proof (scaled_close ih ph scale sigma Hih Hph Hsig Hs Hfh Hclose)
    as [Hh1 Hh2].
  cbv zeta. repeat split; try assumption; try apply Hw; try apply Hh.
  - apply centered_offset. lia.
  - apply centered_offset. lia.
Qed.

Lemma print_layout_truncates_and_fits_witness :
  App.layout 600 300 1200 1800 = (1200, 600, 0, 600)%Z
  /\ let '(sw, sh, x, y) := App.layout 600 300 1200 1800 in
     (0 <= sw <= 1200)%Z /\ (0 <= sh <= 1800)%Z
     /\ x = ((1200 - sw) / 2)%Z /\ y = ((1800 - sh) / 2)%Z.
Proof.
  split; [vm_compute; reflexivity |].
  pose proof (print_layout_truncates_and_fits 600 300 1200 1800
                ltac:(lia) ltac:(lia) ltac:(lia) ltac:(lia)) as H.
  destruct (App.layout 600 300 1200 1800) as [[[sw sh] x] y].
  cbv zeta in H. tauto.
Defined.

(** C7, the specification's reading refuted: on a 1003 x 2000 printable
    area the 600 x 300 label is scaled to 1003 x 501, the exact height
    being 501.5, where rounding to the nearest integer gives 502. *)
Lemma print_layout_does_not_round :
  App.layout 600 300 1003 2000 = (1003, 501, 0, 749)%Z
  /\ App.spec_layout 600 300 1003 2000 = (1003, 502, 0, 749)%Z
  /\ App.layout 600 300 1003 2000 <> App.spec_layout 600 300 1003 2000.
Proof.
  assert (H1 : App.layout 600 300 1003 2000 = (1003, 501, 0, 749)%Z)
    by (vm_compute; reflexivity).
  assert (H2 : App.spec_layout 600 300 1003 2000 = (1003, 502, 0, 749)%Z)
    by (vm_compute; reflexivity).
  split; [exact H1 | split; [exact H2 |]]. rewrite H1, H2. discriminate.
Qed.

(** Truncation can also lose a pixel to the floating-point rounding of the
    scale: the exact width 600 * (55 / 300) is 110, the computed one 109. *)
Example print_layout_loses_a_pixel :
  App.layout 600 300 1000000 55 = (109, 54, 499945, 0)%Z
  /\ inject_Z 600 * App.exact_scale 600 300 1000000 55 == 110.
Proof. split; vm_compute; reflexivity. Qed.

(** The embedding of binary64 arithmetic agrees with the kernel's floats
    on the scaled sizes of these layouts. *)
Example scaled_embedded_agrees_with_binary64 :
  App.agree (App.scaled_binary64 600 300 1003 2000)
            (App.scaled_embedded 600 300 1003 2000) = true
  /\ App.agree (App.scaled_binary64 600 300 1000000 55)
               (App.scaled_embedded 600 300 1000000 55) = true
  /\ App.agree (App.scaled_binary64 600 300 1200 1800)
               (App.scaled_embedded 600 300 1200 1800) = true
  /\ App.agree (App.scaled_binary64 4 3 5 100)
               (App.scaled_embedded 4 3 5 100) = true.
Proof. repeat split; vm_compute; reflexivity. Qed.

End LayoutFacts.

(** ** The ledger holds the prints since the last clear *)

Section JournalFacts.
Import Ledger Journal.

Lemma appended_acc (ops : list op) (acc : list row) :
  appended ops acc
  = if existsb is_clear ops then appended ops [] else acc ++ appended ops [].
Proof.
  revert acc. induction ops as [| o ops IH]; intros acc; cbn [appended existsb].
  - rewrite app_nil_r. reflexivity.
  - destruct o as [| v now |]; cbn [is_clear orb].
    + apply IH.
    + rewrite (IH (acc ++ [record_row v now])), (IH ([] ++ [record_row v now])).
      destruct (existsb is_clear ops); [reflexivity |].
      rewrite <- app_assoc. reflexivity.
    + reflexivity.
Qed.

Lemma run_op_existing (o : op) (rows : list row) :
  run_op (Some rows) o
  = Some (match o with
          | EnsureInitialized => rows
          | Append v now => rows ++ [record_row v now]
          | Clear => [header]
          end).
Proof. destruct o; reflexivity. Qed.

Lemma run_op_missing (o : op) :
  run_op None o
  = Some (match o with
          | Append v now => [header; record_row v now]
          | _ => [header]
          end).
Proof. destruct o; reflexivity. Qed.

Lemma run_ops_cons (o : op) (ops : list op) (f : file) :
  run_ops (o :: ops) f = run_ops ops (run_op f o).
Proof. reflexivity. Qed.

Lemma run_ops_existing (ops : list op) (rows : list row) :
  run_ops ops (Some rows) = Some (base ops (Some rows) ++ appended ops []).
Proof.
  revert rows. induction ops as [| o ops IH]; intros rows.
  - cbn. rewrite app_nil_r. reflexivity.
  - rewrite run_ops_cons, run_op_existing, IH. unfold base.
    destruct o as [| v now |]; cbn [existsb is_clear orb appended].
    + reflexivity.
    + rewrite (appended_acc ops ([] ++ [record_row v now])).
      destruct (existsb is_clear ops); [reflexivity |].
      rewrite <- app_assoc. reflexivity.
    + destruct (existsb is_clear ops); reflexivity.
Qed.

(** X1. After at least one operation (an initialisation, a print or a
    clear), whatever the file was, the ledger exists and holds the rows it
    started from (its own, or the header alone if there was no file or a
    clear intervened) followed by one row for each print made since the
    last clear, oldest first. *)
Theorem ledger_holds_prints_since_clear (o : op) (ops : list op) (f : file) :
  run_ops (o :: ops) f
  = Some (base (o :: ops) f ++ appended (o :: ops) []).
Proof.
  destruct f as [rows |]; [apply run_ops_existing |].
  rewrite run_ops_cons, run_op_missing, run_ops_existing. unfold base.
  destruct o as [| v now |]; cbn [existsb is_clear orb appended].
  - destruct (existsb is_clear ops); reflexivity.
  - rewrite (appended_acc ops ([] ++ [record_row v now])).
    destruct (existsb is_clear ops); reflexivity.
  - destruct (existsb is_clear ops); reflexivity.
Qed.

End JournalFacts.

(** ** Saved settings *)

Section SettingsFacts.
Import Config Settings.

(** A [dict] written out member by member and read back is the same
    [dict]: its names are distinct. *)
Lemma dict_of_members_to_list (d : gmap string json) :
  dict_of_members (map_to_list d) = d.
Proof.
  unfold dict_of_members.
  transitivity (list_to_map (rev (map_to_list d)) : gmap string json).
  { symmetry.
    apply (fold_left_rev_right
             (fun (kv : string * json) (m : gmap string json) =>
                <[ kv.1 := kv.2 ]> m)). }
  rewrite <- (list_to_map_to_list d) at 2.
  symmetry. apply list_to_map_proper.
  - apply NoDup_fst_map_to_list.
  - apply Permutation_rev.
Qed.

Lemma default_config_lookup (k : string) :
  default_config !! k
  = if String.eqb k "last_printer" then Some JNull
    else if String.eqb k "auto_print_enabled" then Some (JBool true)
    else None.
Proof.
  unfold default_config.
  destruct (String.eqb_spec k "last_printer") as [-> | H1]; [reflexivity |].
  rewrite lookup_insert_ne by congruence.
  destruct (String.eqb_spec k "auto_print_enabled") as [-> | H2].
  - apply lookup_singleton_eq.
  - apply lookup_singleton_ne. congruence.
Qed.

Lemma overlay_has_defaults (d : gmap string json) (k : string) :
  is_Some (default_config !! k) -> is_Some ((d ∪ default_config) !! k).
Proof.
  intros Hk. destruct (d !! k) as [v |] eqn:Hd.
  - rewrite lookup_union_l' by (rewrite Hd; eauto). rewrite Hd. eauto.
  - rewrite lookup_union_r by exact Hd. exact Hk.
Qed.

(** What [load_config] returns holds both settings. *)
Lemma load_config_keys (f : config_file) (d : gmap string json) :
  load_config f = Returned d ->
  is_Some (d !! "last_printer") /\ is_Some (d !! "auto_print_enabled").
Proof.
  intros H.
  assert (Hdef : is_Some (default_config !! "last_printer")
                 /\ is_Some (default_config !! "auto_print_enabled")).
  { rewrite !default_config_lookup. cbn. eauto. }
  destruct f as [| | | | v]; unfold load_config in H; cbn in H;
    try (injection H as <-; exact Hdef); try discriminate H.
  destruct v; cbn in H; try discriminate H. injection H as <-.
  split; apply overlay_has_defaults; apply Hdef.
Qed.

(** A configuration that holds both settings gains nothing from the
    defaults. *)
Lemma overlay_complete (d : gmap string json) :
  is_Some (d !! "last_printer") -> is_Some (d !! "auto_print_enabled") ->
  d ∪ default_config = d.
Proof.
  intros H1 H2. apply map_eq. intros k.
  destruct (d !! k) as [v |] eqn:Hd.
  - rewrite lookup_union_l' by (rewrite Hd; eauto). exact Hd.
  - rewrite lookup_union_r by exact Hd. rewrite default_config_lookup.
    destruct (String.eqb_spec k "last_printer") as [-> | _].
    + rewrite Hd in H1. destruct H1 as [? H1]. discriminate H1.
    + destruct (String.eqb_spec k "auto_print_enabled") as [-> | _]; [| reflexivity].
      rewrite Hd in H2. destruct H2 as [? H2]. discriminate H2.
Qed.

Lemma load_saved (d : gmap string json) (f : config_file) :
  load_config (save_config d Written f).2 = Returned (d ∪ default_config).
Proof.
  unfold save_config, load_config, load_config_body, json_load, merge.
  cbn [save_config_body snd]. rewrite dict_of_members_to_list. reflexivity.
Qed.


(** *** The preselected printer *)

Lemma index_found (x : string) (l : list string) :
  existsb (fun name => String.eqb name x) l = true ->
  exists n, index x l = Some n
            /\ l !! n = Some x
            /\ forall j, (j < n)%nat -> l !! j <> Some x.
Proof.
  induction l as [| y l IH]; cbn [existsb index]; [discriminate |].
  destruct (String.eqb_spec y x) as [-> | Hne]; cbn [orb].
  - intros _. exists 0%nat. split; [reflexivity |]. split; [reflexivity |].
    intros j Hj. lia.
  - intros Hin. destruct (IH Hin) as (n & Hn & Hl & Hfirst).
    exists (S n). rewrite Hn. split; [reflexivity |]. split; [exact Hl |].
    intros [| j] Hj; cbn.
    + congruence.
    + apply Hfirst. lia.
Qed.

Lemma existsb_eqb_In (x : string) (l : list string) :
  existsb (fun name => String.eqb name x) l = true <-> In x l.
Proof.
  rewrite existsb_exists. split.
  - intros (y & Hy & He). apply String.eqb_eq in He. subst y. exact Hy.
  - intros H. exists x. split; [exact H | apply String.eqb_refl].
Qed.

(** The index that lines 192 to 194 compute, for a configuration that
    holds the setting. *)
Lemma default_printer_index_cases (config : gmap string json)
    (available : list string) (v : json) :
  config !! "last_printer" = Some v ->
  exists n,
    default_printer_index config available = Returned n
    /\ match v with
       | JStr s =>
           if PyStr.truthy s && existsb (fun name => String.eqb name s) available
           then available !! n = Some s
                /\ forall j, (j < n)%nat -> available !! j <> Some s
           else n = 0%nat
       | _ => n = 0%nat
       end.
Proof.
  intros Hv. unfold default_printer_index. rewrite Hv.
  destruct v as [| b | z | lit | s | items | members]; try (exists 0%nat; auto; fail).
  destruct (PyStr.truthy s && existsb (fun name => String.eqb name s) available)
    eqn:Hc; [| exists 0%nat; auto].
  apply andb_true_iff in Hc as [_ Hin].
  destruct (index_found s available Hin) as (n & Hn & Hl & Hfirst).
  exists n. rewrite Hn. auto.
Qed.

(** X4. For a configuration that holds the setting [last_printer] (as
    every configuration [load_config] returns does), the index preselected
    in the list of printers never raises and is a position of the list
    whenever the list is not empty: the first position of the saved
    printer when that is a non-empty name of the list, and 0 otherwise. *)
Theorem default_printer_index_in_range (config : gmap string json)
    (available : list string) :
  is_Some (config !! "last_printer") ->
  exists n,
    default_printer_index config available = Returned n
    /\ (available <> [] -> (n < length available)%nat)
    /\ (forall s, config !! "last_printer" = Some (JStr s) ->
                  s <> EmptyString -> In s available ->
                  available !! n = Some s
                  /\ forall j, (j < n)%nat -> available !! j <> Some s)
    /\ ((forall s, config !! "last_printer" = Some (JStr s) ->
                   s = EmptyString \/ ~ In s available) -> n = 0%nat).
Proof.
  intros [v Hv].
  destruct (default_printer_index_cases config available v Hv) as (n & Hn & Hcase).
  exists n. split; [exact Hn |].
  assert (Hzero : available <> [] -> (0 < length available)%nat).
  { destruct available; [congruence | cbn; lia]. }
  destruct v as [| b | z | lit | s | items | members];
    try (subst n; split; [exact Hzero |];
         split; [intros s Hs; rewrite Hv in Hs; discriminate Hs | reflexivity]).
  destruct (PyStr.truthy s) eqn:Ht;
    destruct (existsb (fun name => String.eqb name s) available) eqn:Hin;
    cbn [andb] in Hcase.
  - destruct Hcase as [Hl Hfirst]. split.
    { intros _. apply lookup_lt_Some in Hl. exact Hl. }
    split.
    { intros s' Hs' _ _. rewrite Hv in Hs'. injection Hs' as <-. auto. }
    intros Hnot. destruct (Hnot s Hv) as [-> | Hnin]; [discriminate Ht |].
    apply existsb_eqb_In in Hin. contradiction.
  - subst n. split; [exact Hzero |]. split; [| reflexivity].
    intros s' Hs' _ Hs'in. rewrite Hv in Hs'. injection Hs' as <-.
    apply existsb_eqb_In in Hs'in. congruence.
  - subst n. split; [exact Hzero |]. split; [| reflexivity].
    intros s' Hs' Hne _. rewrite Hv in Hs'. injection Hs' as <-.
    destruct s; [congruence | discriminate Ht].
  - subst n. split; [exact Hzero |]. split; [| reflexivity].
    intros s' Hs' Hne _. rewrite Hv in Hs'. injection Hs' as <-.
    destruct s; [congruence | discriminate Ht].
Qed.

Lemma default_printer_index_in_range_witness :
  exists n,
    default_printer_index
      {[ "last_printer" := JStr "Zebra"; "auto_print_enabled" := JBool true ]}
      ["HP"; "Zebra"; "Zebra"] = Returned n
    /\ (["HP"; "Zebra"; "Zebra"] <> [] -> (n < 3)%nat).
Proof.
  destruct (default_printer_index_in_range
              {[ "last_printer" := JStr "Zebra"; "auto_print_enabled" := JBool true ]}
              ["HP"; "Zebra"; "Zebra"])
    as (n & Hn & Hrange & _).
  - exists (JStr "Zebra"). vm_compute. reflexivity.
  - exists n. split; [exact Hn | exact Hrange].
Defined.

(** *** Remembering the selection *)

Lemma lookup_last_printer_insert (config : gmap string json) (v : json) (k : string) :
  <[ "last_printer" := v ]> config !! k
  = if String.eqb k "last_printer" then Some v else config !! k.
Proof.
  destruct (String.eqb_spec k "last_printer") as [-> | Hne].
  - apply lookup_insert_eq.
  - apply lookup_insert_ne. congruence.
Qed.

Lemma differs_false (select_printer : option string) (v : json) :
  differs select_printer v = false -> v = json_of_selection select_printer.
Proof.
  destruct select_printer as [name |], v; cbn; try discriminate; try reflexivity.
  intros H. apply negb_false_iff, String.eqb_eq in H. congruence.
Qed.

(** X5. The selection is remembered across runs.  When the run loaded the
    configuration [config] and the printer selected differs from the saved
    one, the file is rewritten; if that write succeeds, or if nothing had
    to be written, the next run loads the same settings with
    [last_printer] set to the selection, and preselects that printer when
    it is a non-empty name still in the list. *)
Theorem selected_printer_is_preselected_next_run
    (f : config_file) (config : gmap string json)
    (select_printer : string) (available : list string) :
  load_config f = Returned config ->
  exists config1 f1 config2,
    remember_printer config (Some select_printer) Written f = Returned (config1, f1)
    /\ load_config f1 = Returned config2
    /\ config2 !! "last_printer" = Some (JStr select_printer)
    /\ (forall k, k <> "last_printer" -> config2 !! k = config !! k)
    /\ (select_printer <> EmptyString -> In select_printer available ->
        exists n, default_printer_index config2 available = Returned n
                  /\ available !! n = Some select_printer).
Proof.
  intros Hload. destruct (load_config_keys f config Hload) as [[v Hv] Hauto].
  unfold remember_printer. rewrite Hv.
  assert (Hnext : forall config2 : gmap string json,
             config2 !! "last_printer" = Some (JStr select_printer) ->
             select_printer <> EmptyString -> In select_printer available ->
             exists n, default_printer_index config2 available = Returned n
                       /\ available !! n = Some select_printer).
  { intros config2 H2 Hne Hin.
    destruct (default_printer_index_cases config2 available _ H2) as (n & Hn & Hcase).
    exists n. split; [exact Hn |].
    apply existsb_eqb_In in Hin. rewrite Hin in Hcase.
    destruct select_printer; [congruence |]. apply Hcase. }
  destruct (differs (Some select_printer) v) eqn:Hd.
  - exists (<[ "last_printer" := JStr select_printer ]> config),
      (save_config (<[ "last_printer" := JStr select_printer ]> config) Written f).2,
      (<[ "last_printer" := JStr select_printer ]> config).
    split; [reflexivity |].
    rewrite load_saved.
    assert (Hc : <[ "last_printer" := JStr select_printer ]> config ∪ default_config
                 = <[ "last_printer" := JStr select_printer ]> config).
    { apply overlay_complete; rewrite lookup_last_printer_insert; cbn; eauto. }
    rewrite Hc. split; [reflexivity |].
    split; [apply lookup_insert_eq |].
    split; [intros k Hk; apply lookup_insert_ne; congruence |].
    apply Hnext. apply lookup_insert_eq.
  - apply differs_false in Hd. cbn in Hd. subst v.
    exists config, f, config. split; [reflexivity |].
    split; [exact Hload |]. split; [exact Hv |]. split; [reflexivity |].
    apply Hnext. exact Hv.
Qed.

Lemma selected_printer_is_preselected_next_run_witness :
  exists config1 f1 config2,
    remember_printer default_config (Some "Zebra") Written Absent
    = Returned (config1, f1)
    /\ load_config f1 = Returned config2
    /\ config2 !! "last_printer" = Some (JStr "Zebra").
Proof.
  destruct (selected_printer_is_preselected_next_run
              Absent default_config "Zebra" ["HP"; "Zebra"] eq_refl)
    as (config1 & f1 & config2 & H1 & H2 & H3 & _).
  exists config1, f1, config2. split; [exact H1 |]. split; [exact H2 | exact H3].
Defined.

End SettingsFacts.

(** ** Reading the text of [lpstat] back *)

Section LpstatFacts.
Import PyStr Printers Lpstat.

Lemma splitlines_line (name rest : string) :
  single_line name = true ->
  splitlines (name +:+ String newline rest) = name :: splitlines rest.
Proof.
  induction name as [| c name IH]; intros Hs.
  - destruct rest; reflexivity.
  - cbn [single_line] in Hs. apply andb_true_iff in Hs as [Hc Hs].
    apply negb_true_iff in Hc.
    change (String c name +:+ String newline rest)
      with (String c (name +:+ String newline rest)).
    cbn [splitlines]. rewrite Hc, (IH Hs). reflexivity.
Qed.

Lemma splitlines_unlines (names : list string) :
  Forall (fun name => single_line name = true) names ->
  splitlines (unlines names) = names.
Proof.
  induction names as [| name names IH]; intros H; [reflexivity |].
  inversion H as [| ? ? Hname Hrest]; subst.
  cbn [unlines]. rewrite (splitlines_line _ _ Hname), (IH Hrest). reflexivity.
Qed.

Lemma clean_lines_kept (names : list string) :
  Forall clean names ->
  map strip (List.filter (fun line => truthy (strip line)) names) = names.
Proof.
  induction names as [| name names IH]; intros H; [reflexivity |].
  inversion H as [| ? ? (Hne & Hstrip & _) Hrest]; subst.
  cbn [List.filter]. rewrite Hstrip.
  destruct name as [| c name]; [congruence |].
  cbn [truthy map]. rewrite Hstrip, (IH Hrest). reflexivity.
Qed.

(** X6. Reading back what [lpstat -e] prints: for printer names that are
    not empty, have no white space at either end and hold no line
    boundary, printed one on each line, [get_printer_names] returns
    exactly those names, in the order printed. *)
Theorem get_printer_names_reads_lpstat_lines (names : list string) :
  Forall clean names ->
  get_printer_names (Lpstat (unlines names)) = Returned names.
Proof.
  intros H. cbn [get_printer_names]. f_equal.
  rewrite splitlines_unlines.
  - apply clean_lines_kept. exact H.
  - eapply Forall_impl; [exact H |]. intros name (_ & _ & Hs). exact Hs.
Qed.

Lemma get_printer_names_reads_lpstat_lines_witness :
  get_printer_names (Lpstat (unlines ["HP_LaserJet"; "Zebra ZD420"]))
  = Returned ["HP_LaserJet"; "Zebra ZD420"].
Proof.
  apply (get_printer_names_reads_lpstat_lines ["HP_LaserJet"; "Zebra ZD420"]).
  repeat constructor; try discriminate; reflexivity.
Defined.

(** Every line that [splitlines] gives holds no line boundary. *)
Lemma splitlines_single_line (n : nat) (s : string) :
  (String.length s <= n)%nat ->
  Forall (fun line => single_line line = true) (splitlines s).
Proof.
  revert s. induction n as [| n IH]; intros s Hn.
  - destruct s; [constructor | cbn in Hn; lia].
  - destruct s as [| c s]; [constructor |].
    cbn [String.length] in Hn. cbn [splitlines].
    destruct (is_linebreak c) eqn:Hc.
    + destruct s as [| c' s'].
      * repeat constructor.
      * destruct ((nat_of_ascii c =? 13)%nat && (nat_of_ascii c' =? 10)%nat);
          (constructor; [reflexivity |]); apply IH; cbn [String.length] in *; lia.
    + pose proof (IH s ltac:(lia)) as Hs.
      destruct (splitlines s) as [| line lines].
      * constructor; [| constructor]. cbn [single_line]. rewrite Hc. reflexivity.
      * inversion Hs; subst. constructor; [| assumption].
        cbn [single_line]. rewrite Hc. cbn. assumption.
Qed.

Lemma lstrip_single_line (s : string) :
  single_line s = true -> single_line (lstrip s) = true.
Proof.
  induction s as [| c s IH]; intros H; [reflexivity |].
  cbn [lstrip]. destruct (is_space c); [| exact H].
  apply IH. cbn [single_line] in H. apply andb_true_iff in H. apply H.
Qed.

Lemma rstrip_single_line (s : string) :
  single_line s = true -> single_line (rstrip s) = true.
Proof.
  induction s as [| c s IH]; intros H; [reflexivity |].
  cbn [single_line] in H. apply andb_true_iff in H as [Hc Hs].
  specialize (IH Hs). cbn [rstrip].
  destruct (rstrip s) as [| a r].
  - destruct (is_space c); [reflexivity |].
    cbn [single_line]. rewrite Hc. reflexivity.
  - cbn [single_line] in *. rewrite Hc. exact IH.
Qed.

Lemma lpstat_names_clean (lines : list string) :
  Forall (fun line => single_line line = true) lines ->
  Forall clean (map strip (List.filter (fun line => truthy (strip line)) lines)).
Proof.
  induction lines as [| l lines IH]; intros H; [constructor |].
  inversion H as [| ? ? Hl Hrest]; subst.
  cbn [List.filter]. destruct (truthy (strip l)) eqn:Ht; [| apply IH; exact Hrest].
  cbn [map]. constructor; [| apply IH; exact Hrest].
  split; [| split].
  - intros He. rewrite He in Ht. discriminate Ht.
  - apply strip_idempotent.
  - unfold strip. apply rstrip_single_line, lstrip_single_line. exact Hl.
Qed.

(** X7. Whatever text [lpstat -e] printed, each name [get_printer_names]
    returns for it is not empty, has no white space at either end and no
    line boundary inside; and the names are a fixed point: printed one on
    each line and read again, they come back unchanged. *)
Theorem get_printer_names_lpstat_normal_form (output : string) :
  exists names,
    get_printer_names (Lpstat output) = Returned names
    /\ Forall clean names
    /\ get_printer_names (Lpstat (unlines names)) = Returned names.
Proof.
  eexists. split; [reflexivity |].
  assert (Hclean : Forall clean
            (map strip (List.filter (fun line => truthy (strip line))
                          (splitlines output)))).
  { apply lpstat_names_clean.
    apply (splitlines_single_line (String.length output)). lia. }
  split; [exact Hclean |].
  cbn [get_printer_names]. f_equal.
  rewrite splitlines_unlines.
  - apply clean_lines_kept. exact Hclean.
  - eapply Forall_impl; [exact Hclean |]. intros name (_ & _ & Hs). exact Hs.
Qed.

End LpstatFacts.

(** ** A raster that fits the label *)

Section LabelFitFacts.
Import App.
Local Open Scope Z_scope.

Lemma paste_inside (canvas im : Img.image) (x y a b : Z) :
  0 <= a < Img.width im -> 0 <= b < Img.height im ->
  Img.pixel (Img.paste canvas im x y) (x + a) (y + b) = Img.pixel im a b.
Proof.
  intros Ha Hb. cbn [Img.paste Img.pixel].
  replace (x <=? x + a) with true by (symmetry; apply Z.leb_le; lia).
  replace (x + a <? x + Img.width im) with true by (symmetry; apply Z.ltb_lt; lia).
  replace (y <=? y + b) with true by (symmetry; apply Z.leb_le; lia).
  replace (y + b <? y + Img.height im) with true by (symmetry; apply Z.ltb_lt; lia).
  cbn [andb]. f_equal; lia.
Qed.

(** X8. When the encoder answers with a raster no larger than the label,
    [generate_barcode] shows no message and returns a label on which the
    whole raster is visible, pixel for pixel, inside the 600 by 300 area,
    with margins that differ by at most one pixel on each axis (the extra
    pixel being on the right and at the bottom). *)
Theorem generate_barcode_centres_fitting_raster
    (e : env) (v : string) (w : world) (raster : Img.image) :
  barcode_available e = true ->
  encode e v = Returned raster ->
  0 <= Img.width raster <= 600 -> 0 <= Img.height raster <= 300 ->
  exists label x y,
    generate_barcode e v w = (Some label, w)
    /\ 0 <= x /\ x + Img.width raster <= 600
    /\ 0 <= y /\ y + Img.height raster <= 300
    /\ 0 <= (600 - (x + Img.width raster)) - x <= 1
    /\ 0 <= (300 - (y + Img.height raster)) - y <= 1
    /\ forall a b,
        0 <= a < Img.width raster -> 0 <= b < Img.height raster ->
        Img.pixel label (x + a) (y + b) = Img.pixel raster a b.
Proof.
  intros Hav Henc Hw Hh. unfold generate_barcode. rewrite Hav, Henc. cbn [negb].
  pose proof (floor_half (label_width - Img.width raster)) as Hx.
  pose proof (floor_half (label_height - Img.height raster)) as Hy.
  unfold label_width, label_height in *.
  eexists _, ((600 - Img.width raster) / 2), ((300 - Img.height raster) / 2).
  split; [reflexivity |].
  repeat split; try lia.
  intros a b Ha Hb. apply paste_inside; assumption.
Qed.

Lemma generate_barcode_centres_fitting_raster_witness :
  exists label x y,
    generate_barcode (Samples.windows "ABC") "ABC" Samples.fresh
    = (Some label, Samples.fresh)
    /\ 0 <= x /\ x + 400 <= 600 /\ 0 <= y /\ y + 100 <= 300.
Proof.
  destruct (generate_barcode_centres_fitting_raster
              (Samples.windows "ABC") "ABC" Samples.fresh (Samples.black 400 100)
              eq_refl eq_refl ltac:(simpl; lia) ltac:(simpl; lia))
    as (label & x & y & Hg & Hx0 & Hx1 & Hy0 & Hy1 & _).
  exists label, x, y. simpl in Hx1, Hy1. auto.
Defined.

End LabelFitFacts.

(** ** Every path through [print_barcode_image] *)

Section PrintPathFacts.
Import PyStr App Plan.

Lemma bind_call_cases (e : env) (c : driver_call) (k : M unit) (w : world) :
  (call e c ;; k) w
  = match fails e c with
    | Some err => (Raised err, log_call c w)
    | None => k (log_call c w)
    end.
Proof. unfold bind, call. destruct (fails e c); reflexivity. Qed.

Ltac print_raises :=
  cbv iota;
  cbn [driver_log show log_call previous_barcode messages csv_file clock_reads];
  split; [rewrite <- ?app_assoc; reflexivity |];
  split; [reflexivity |];
  right; right; eexists;
  split; [reflexivity |]; split; [reflexivity |]; split; [reflexivity |];
  right;
  match goal with
  | H : fails _ ?c = Some _ |- _ =>
      exists c; split; [cbn [In app]; repeat (first [left; reflexivity | right]) | exact H]
  end.

Ltac print_step c :=
  rewrite bind_call_cases;
  let H := fresh "Hcall" in
  destruct (fails _ c) eqn:H; [print_raises |].

(** What one call of [print_barcode_image] on Windows does, on every
    path: the calls made and one of three outcomes.  Either the label is
    printed and logged; or it is printed and the success shown, but the
    ledger cannot be opened, so that the failure is shown as well and no
    row is written; or a call on the driver raises, one error is shown
    and the ledger and the clock are left alone. *)
Lemma print_run (e : env) (image_obj : Img.image) (printer_name : string)
    (w : world) :
  platform e = Printers.Win32 ->
  let planned := planned_calls e image_obj printer_name in
  let w' := print_barcode_image e image_obj printer_name w in
  driver_log w' = driver_log w ++ until_failure (fails e) planned
  /\ previous_barcode w' = previous_barcode w
  /\ ((ledger_error e (clock_reads w) = None
       /\ messages w'
          = messages w ++ [StSuccess ("Sent barcode to printer: " +:+ printer_name)]
       /\ csv_file w'
          = Ledger.log_print_history (input_barcode e)
              (clock e (clock_reads w)) (csv_file w)
       /\ clock_reads w' = S (clock_reads w)
       /\ Forall (fun c => fails e c = None) planned
       /\ In DeleteDC planned)
      \/ (exists err,
            ledger_error e (clock_reads w) = Some err
            /\ messages w'
               = messages w
                 ++ [StSuccess ("Sent barcode to printer: " +:+ printer_name);
                     StError ("Printing failed: " +:+ err)]
            /\ csv_file w' = csv_file w
            /\ clock_reads w' = S (clock_reads w)
            /\ Forall (fun c => fails e c = None) planned
            /\ In DeleteDC planned)
      \/ (exists text,
            messages w' = messages w ++ [StError ("Printing failed: " +:+ text)]
            /\ csv_file w' = csv_file w
            /\ clock_reads w' = clock_reads w
            /\ ((text = "division by zero"
                 /\ (Img.width image_obj = 0 \/ Img.height image_obj = 0)%Z)
                \/ exists c, In c planned /\ fails e c = Some text))).
Proof.
  intros Hp. cbv zeta.
  unfold print_barcode_image, try_except. rewrite Hp.
  unfold print_body, planned_calls. cbv zeta.
  destruct ((Img.width image_obj =? 0) || (Img.height image_obj =? 0))%Z eqn:Hz.
  - cbn [until_failure app].
    print_step ImportWin32. print_step CreateDC.
    print_step (CreatePrinterDC printer_name).
    print_step (GetDeviceCaps HORZRES). print_step (GetDeviceCaps VERTRES).
    unfold raise. cbv iota.
    cbn [driver_log show log_call previous_barcode messages csv_file clock_reads].
    split; [rewrite <- ?app_assoc; reflexivity |].
    split; [reflexivity |].
    right. right. eexists.
    split; [reflexivity |]. split; [reflexivity |]. split; [reflexivity |].
    left. split; [reflexivity |].
    apply orb_true_iff in Hz. rewrite !Z.eqb_eq in Hz. exact Hz.
  - destruct (layout (Img.width image_obj) (Img.height image_obj)
                (device_caps e HORZRES) (device_caps e VERTRES))
      as [[[sw sh] x] y].
    cbn [until_failure app].
    print_step ImportWin32. print_step CreateDC.
    print_step (CreatePrinterDC printer_name).
    print_step (GetDeviceCaps HORZRES). print_step (GetDeviceCaps VERTRES).
    print_step (Resize sw sh). print_step (StartDoc "Barcode Print").
    print_step StartPage. print_step MakeDib. print_step GetHandleOutput.
    print_step (Draw x y (x + sw) (y + sh)).
    print_step EndPage. print_step EndDoc. print_step DeleteDC.
    rewrite bind_lift. unfold log_print_history.
    cbn [clock_reads show log_call].
    destruct (ledger_error e (clock_reads w)) as [err |] eqn:Hledger; cbv iota;
      cbn [driver_log show log_call previous_barcode messages csv_file clock_reads];
      (split; [rewrite <- ?app_assoc; reflexivity |]);
      (split; [reflexivity |]).
    + right. left. exists err. split; [reflexivity |].
      split; [rewrite <- app_assoc; reflexivity |].
      split; [reflexivity |]. split; [reflexivity |].
      split; [repeat constructor; assumption |].
      cbn [In]. repeat (first [left; reflexivity | right]).
    + left. split; [reflexivity |]. split; [reflexivity |].
      split; [reflexivity |]. split; [reflexivity |].
      split; [repeat constructor; assumption |].
      cbn [In]. repeat (first [left; reflexivity | right]).
Qed.


(** *** The calls made *)

Lemma until_failure_subset (fails : driver_call -> option string)
    (calls : list driver_call) (c : driver_call) :
  In c (until_failure fails calls) -> In c calls.
Proof.
  induction calls as [| c0 calls IH]; cbn [until_failure In]; [tauto |].
  intros [H | H]; [left; exact H |].
  destruct (fails c0); [destruct H | right; apply IH; exact H].
Qed.

(** The last planned call is made exactly when every call before it
    returned. *)
Lemma until_failure_reaches (fails : driver_call -> option string)
    (before : list driver_call) (d : driver_call) :
  ~ In d before ->
  (In d (until_failure fails (before ++ [d]))
   <-> Forall (fun c => fails c = None) before).
Proof.
  induction before as [| c before IH]; intros Hd.
  - cbn. split; [constructor | auto].
  - cbn [app until_failure In]. cbn [In] in Hd.
    assert (Hc : c <> d) by tauto.
    destruct (fails c) eqn:Hf.
    + split; [intros [H | []]; contradiction |].
      intros H. inversion H; subst. congruence.
    + split.
      * intros [H | H]; [contradiction |].
        constructor; [exact Hf |]. apply IH; [tauto | exact H].
      * intros H. inversion H; subst. right. apply IH; [tauto | assumption].
Qed.

(** X10. On Windows the calls [print_barcode_image] makes on the driver
    are the planned ones, in order, up to and including the first that
    raises; so the device context is deleted exactly when the image has a
    width and a height and every call planned before [DeleteDC] returned.
    Nothing releases the context after a failure. *)
Theorem print_calls_stop_at_first_failure
    (e : env) (image_obj : Img.image) (printer_name : string) (w : world) :
  platform e = Printers.Win32 ->
  let planned := planned_calls e image_obj printer_name in
  let w' := print_barcode_image e image_obj printer_name w in
  driver_log w' = driver_log w ++ until_failure (fails e) planned
  /\ (In DeleteDC (until_failure (fails e) planned)
      <-> (Img.width image_obj <> 0 /\ Img.height image_obj <> 0)%Z
          /\ forall c, In c planned -> c <> DeleteDC -> fails e c = None).
Proof.
  intros Hp planned w'.
  split; [apply (print_run e image_obj printer_name w Hp) |].
  subst planned. unfold planned_calls.
  destruct ((Img.width image_obj =? 0) || (Img.height image_obj =? 0))%Z eqn:Hz.
  - apply orb_true_iff in Hz. rewrite !Z.eqb_eq in Hz. split.
    + intros H. apply until_failure_subset in H. cbn [In] in H.
      repeat (destruct H as [H | H]; [discriminate H |]). destruct H.
    + intros [[Hw Hh] _]. tauto.
  - apply orb_false_iff in Hz. rewrite !Z.eqb_neq in Hz.
    destruct (layout _ _ _ _) as [[[sw sh] x] y].
    set (before := [ImportWin32; CreateDC; CreatePrinterDC printer_name;
                    GetDeviceCaps HORZRES; GetDeviceCaps VERTRES;
                    Resize sw sh; StartDoc "Barcode Print"; StartPage; MakeDib;
                    GetHandleOutput; Draw x y (x + sw) (y + sh); EndPage; EndDoc]).
    change ([ImportWin32; CreateDC; CreatePrinterDC printer_name;
             GetDeviceCaps HORZRES; GetDeviceCaps VERTRES] ++
            [Resize sw sh; StartDoc "Barcode Print"; StartPage; MakeDib;
             GetHandleOutput; Draw x y (x + sw) (y + sh); EndPage; EndDoc; DeleteDC])
      with (before ++ [DeleteDC]).
    assert (Hnot : ~ In DeleteDC before).
    { cbn [In before]. intros H.
      repeat (destruct H as [H | H]; [discriminate H |]). destruct H. }
    rewrite (until_failure_reaches (fails e) before DeleteDC Hnot).
    rewrite List.Forall_forall. split.
    + intros H. split; [exact Hz |]. intros c Hc Hne.
      apply in_app_iff in Hc as [Hc | [Hc | []]]; [apply H; exact Hc | congruence].
    + intros [_ H] c Hc. apply H; [apply in_app_iff; left; exact Hc |].
      intros ->. contradiction.
Qed.

Lemma print_calls_stop_at_first_failure_witness :
  driver_log
    (print_barcode_image (Samples.windows_draw_fails "ABC") (Samples.black 600 300)
       "Zebra" Samples.fresh)
  = [] ++ until_failure Samples.draw_fails
            (planned_calls (Samples.windows_draw_fails "ABC")
               (Samples.black 600 300) "Zebra").
Proof.
  apply (print_calls_stop_at_first_failure (Samples.windows_draw_fails "ABC")
           (Samples.black 600 300) "Zebra" Samples.fresh).
  reflexivity.
Defined.

End PrintPathFacts.

(** ** Where the label lands on the page *)

Section PagePlacementFacts.
Import Float App Plan.
Local Open Scope Q_scope.

#[local] Existing Instance round_half_even_comp.
#[local] Existing Instance py_int_comp.

(** The layout of lines 140 to 148 for device sizes. *)
Lemma layout_on_page (iw ih pw ph : Z) :
  (0 < iw)%Z -> (0 < ih)%Z ->
  (0 <= pw < 2147483648)%Z -> (0 <= ph < 2147483648)%Z ->
  let '(sw, sh, x, y) := layout iw ih pw ph in
  (0 <= sw <= pw)%Z /\ (0 <= sh <= ph)%Z
  /\ x = ((pw - sw) / 2)%Z /\ y = ((ph - sh) / 2)%Z.
Proof.
  intros Hiw Hih Hpw Hph. unfold layout.
  destruct (scale_close iw ih pw ph Hiw Hih (proj1 Hpw) (proj1 Hph))
    as (_ & Hs & Hsa & Hsb & _).
  set (scale := py_min (truediv pw iw) (truediv ph ih)) in *.
  pose proof (scaled_fits iw pw scale Hiw Hpw Hs Hsa) as Hw.
  pose proof (scaled_fits ih ph scale Hih Hph Hs Hsb) as Hh.
  cbv zeta. split; [exact Hw |]. split; [exact Hh |].
  split; apply centered_offset; lia.
Qed.

Lemma Forall_until_failure (P : driver_call -> Prop)
    (fails : driver_call -> option string) (calls : list driver_call) :
  Forall P calls -> Forall P (until_failure fails calls).
Proof.
  induction 1 as [| c calls Hc _ IH]; cbn [until_failure]; [constructor |].
  constructor; [exact Hc |]. destruct (fails c); [constructor | exact IH].
Qed.

Lemma planned_on_page (e : env) (image_obj : Img.image) (printer_name : string) :
  (0 < Img.width image_obj)%Z -> (0 < Img.height image_obj)%Z ->
  (0 <= device_caps e HORZRES < 2147483648)%Z ->
  (0 <= device_caps e VERTRES < 2147483648)%Z ->
  Forall (on_page (device_caps e HORZRES) (device_caps e VERTRES))
         (planned_calls e image_obj printer_name).
Proof.
  intros Hw Hh Hpw Hph. unfold planned_calls.
  replace (Img.width image_obj =? 0)%Z with false by (symmetry; apply Z.eqb_neq; lia).
  replace (Img.height image_obj =? 0)%Z with false by (symmetry; apply Z.eqb_neq; lia).
  cbn [orb].
  pose proof (layout_on_page _ _ _ _ Hw Hh Hpw Hph) as Hl.
  destruct (layout _ _ _ _) as [[[sw sh] x] y].
  destruct Hl as (Hsw & Hsh & Hx & Hy).
  pose proof (floor_half (device_caps e HORZRES - sw)) as Fx.
  pose proof (floor_half (device_caps e VERTRES - sh)) as Fy.
  rewrite <- Hx in Fx. rewrite <- Hy in Fy.
  cbn [app]. repeat constructor; cbn [on_page]; lia.
Qed.

(** X11. For an image with a width and a height and a printable area of
    32-bit device units, everything [print_barcode_image] asks the driver
    to do stays on the page: the image is resized to at most the printable
    area, and the rectangle drawn lies inside it, with margins that differ
    by at most one unit on each axis. *)
Theorem print_draws_inside_page
    (e : env) (image_obj : Img.image) (printer_name : string) (w : world) :
  (0 < Img.width image_obj)%Z -> (0 < Img.height image_obj)%Z ->
  (0 <= device_caps e HORZRES < 2147483648)%Z ->
  (0 <= device_caps e VERTRES < 2147483648)%Z ->
  exists calls,
    driver_log (print_barcode_image e image_obj printer_name w)
    = driver_log w ++ calls
    /\ Forall (on_page (device_caps e HORZRES) (device_caps e VERTRES)) calls.
Proof.
  intros Hw Hh Hpw Hph. destruct (platform e) eqn:Hp.
  - destruct (print_run e image_obj printer_name w Hp) as (Hlog & _).
    eexists. split; [exact Hlog |].
    apply Forall_until_failure, planned_on_page; assumption.
  - exists []. unfold print_barcode_image. rewrite Hp.
    split; [cbn; rewrite app_nil_r; reflexivity | constructor].
Qed.

Lemma print_draws_inside_page_witness :
  exists calls,
    driver_log
      (print_barcode_image (Samples.windows "ABC") (Samples.black 600 300)
         "Zebra" Samples.fresh)
    = [] ++ calls
    /\ Forall (on_page 1200 1800) calls.
Proof.
  apply (print_draws_inside_page (Samples.windows "ABC") (Samples.black 600 300)
           "Zebra" Samples.fresh); simpl; lia.
Defined.

(** *** Whole multiples *)

(** A small integer is a float: rounding leaves it alone. *)
Lemma rnd_exact (x : Q) (n : Z) :
  (0 <= n < 9007199254740992)%Z -> x == inject_Z n -> rnd x == inject_Z n.
Proof.
  intros [Hn0 Hn1] Hx.
  destruct (Z.eq_dec n 0%Z) as [-> | Hne].
  - rewrite rnd_zero by exact Hx. reflexivity.
  - assert (Hpos : 0 < x).
    { rewrite Hx. change (inject_Z 0 < inject_Z n). rewrite <- Zlt_Qlt. lia. }
    rewrite (rnd_pos x Hpos).
    pose proof (ulp_exp_le x Hpos) as Hle.
    set (e := ulp_exp x) in *.
    assert (He : (e + 52 < 53)%Z).
    { apply (Qpower_lt_compat_l_inv 2); [| reflexivity].
      apply Qle_lt_trans with x; [exact Hle |].
      rewrite Hx. change (2 ^ 53) with (inject_Z 9007199254740992).
      rewrite <- Zlt_Qlt. exact Hn1. }
    assert (Hp : ~ 2 ^ e == 0).
    { intros H0. pose proof (pow2_pos e) as Hp. rewrite H0 in Hp. discriminate Hp. }
    assert (Hpow : inject_Z (2 ^ (- e)) * 2 ^ e == 1).
    { rewrite pow2_Z by lia. rewrite <- pow2_add.
      replace (- e + e)%Z with 0%Z by lia. reflexivity. }
    assert (Hm : x / 2 ^ e == inject_Z (n * 2 ^ (- e))).
    { rewrite Hx, inject_Z_mult.
      assert (H1 : inject_Z n / 2 ^ e == inject_Z n * (inject_Z (2 ^ (- e)) * 2 ^ e) / 2 ^ e)
        by (rewrite Hpow; field; exact Hp).
      rewrite H1. field. exact Hp. }
    rewrite Hm, round_half_even_Z.
    rewrite inject_Z_mult, <- Qmult_assoc, Hpow. ring.
Qed.

Lemma truediv_multiple (n k : Z) :
  (0 < n)%Z -> (0 <= k < 9007199254740992)%Z ->
  truediv (n * k) n == inject_Z k.
Proof.
  intros Hn Hk. unfold truediv. apply rnd_exact; [exact Hk |].
  rewrite inject_Z_mult. field.
  intros H0. unfold Qeq in H0. cbn in H0. lia.
Qed.

Lemma py_min_integers (a b : Q) (k m : Z) :
  a == inject_Z k -> b == inject_Z m -> py_min a b == inject_Z (Z.min k m).
Proof.
  intros Ha Hb. unfold py_min.
  destruct (Qcompare b a) eqn:Hc.
  - apply Qeq_alt in Hc. rewrite Ha, Hb in Hc. unfold Qeq in Hc. cbn in Hc.
    rewrite Ha. f_equiv. lia.
  - apply Qlt_alt in Hc. rewrite Ha, Hb in Hc. unfold Qlt in Hc. cbn in Hc.
    rewrite Hb. f_equiv. lia.
  - apply Qgt_alt in Hc. rewrite Ha, Hb in Hc. unfold Qlt in Hc. cbn in Hc.
    rewrite Ha. f_equiv. lia.
Qed.

Lemma scaled_multiple (n j : Z) (scale : Q) :
  (0 <= n * j < 9007199254740992)%Z ->
  scale == inject_Z j -> py_int (mul_int n scale) = (n * j)%Z.
Proof.
  intros Hnj Hs. unfold mul_int.
  assert (Hx : inject_Z n * scale == inject_Z (n * j))
    by (rewrite Hs, inject_Z_mult; reflexivity).
  rewrite (rnd_exact _ _ Hnj Hx).
  rewrite py_int_nonneg by (change 0 with (inject_Z 0); rewrite <- Zle_Qle; lia).
  apply Qfloor_Z.
Qed.

(** X12. On a printable area whose sides are whole multiples of the
    image's, [k] times the width and [m] times the height, the layout is
    exact: the image is scaled by the smaller multiple, no pixel is lost
    to the rounding of the scale or to [int], and the image is centred on
    the other axis. *)
Theorem layout_exact_on_whole_multiples (iw ih k m : Z) :
  (0 < iw)%Z -> (0 < ih)%Z -> (0 <= k)%Z -> (0 <= m)%Z ->
  (iw * k < 2147483648)%Z -> (ih * m < 2147483648)%Z ->
  layout iw ih (iw * k) (ih * m)
  = ((iw * Z.min k m)%Z, (ih * Z.min k m)%Z,
     ((iw * k - iw * Z.min k m) / 2)%Z, ((ih * m - ih * Z.min k m) / 2)%Z).
Proof.
  intros Hiw Hih Hk Hm Hwk Hhm.
  assert (Hk' : (k < 2147483648)%Z) by nia.
  assert (Hm' : (m < 2147483648)%Z) by nia.
  pose proof (py_min_integers _ _ k m
                (truediv_multiple iw k Hiw ltac:(lia))
                (truediv_multiple ih m Hih ltac:(lia))) as Hs.
  assert (Hj : (0 <= Z.min k m)%Z) by lia.
  assert (Hwj : (0 <= iw * Z.min k m <= iw * k)%Z) by nia.
  assert (Hhj : (0 <= ih * Z.min k m <= ih * m)%Z) by nia.
  unfold layout. cbv zeta.
  rewrite (scaled_multiple iw (Z.min k m) _ ltac:(lia) Hs).
  rewrite (scaled_multiple ih (Z.min k m) _ ltac:(lia) Hs).
  rewrite !centered_offset by lia. reflexivity.
Qed.

Lemma layout_exact_on_whole_multiples_witness :
  layout 600 300 (600 * 2) (300 * 6) = (1200, 600, 0, 600)%Z.
Proof.
  apply (layout_exact_on_whole_multiples 600 300 2 6); lia.
Defined.

End PagePlacementFacts.

(** ** Whole runs of the script *)

Section ScriptFacts.
Import PyStr App Plan Trace.

Lemma grown_grown (e : env) (n k1 k2 : nat) (f : Ledger.file) :
  grown e (n + k1) k2 (grown e n k1 f) = grown e n (k1 + k2) f.
Proof.
  revert n f. induction k1 as [| k1 IH]; intros n f.
  - cbn [grown plus]. rewrite Nat.add_0_r. reflexivity.
  - cbn [grown plus]. rewrite <- (IH (S n)).
    replace (n + S k1)%nat with (S n + k1)%nat by lia. reflexivity.
Qed.


Lemma logged_succ (e : env) (n k : nat) :
  logged e n (S k)
  = (if opens e n
     then [Journal.record_row (input_barcode e) (clock e n)] else [])
    ++ logged e (S n) k.
Proof.
  unfold logged. cbn [seq List.filter]. destruct (opens e n); reflexivity.
Qed.

Lemma attempt_existing (e : env) (n : nat) (rows : list Ledger.row) :
  attempt e n (Some rows)
  = Some (rows ++ if opens e n
                  then [Journal.record_row (input_barcode e) (clock e n)] else []).
Proof.
  unfold attempt, opens. destruct (ledger_error e n); [| reflexivity].
  rewrite app_nil_r. reflexivity.
Qed.

Lemma grown_some (e : env) (n k : nat) (rows : list Ledger.row) :
  grown e n k (Some rows) = Some (rows ++ logged e n k).
Proof.
  revert n rows. induction k as [| k IH]; intros n rows.
  - unfold logged. cbn [grown seq List.filter map]. rewrite app_nil_r. reflexivity.
  - cbn [grown]. rewrite attempt_existing, IH, logged_succ, <- app_assoc.
    reflexivity.
Qed.

Lemma ensure_grown (e : env) (n k : nat) (f : Ledger.file) :
  Ledger.ensure_exists (grown e n k f)
  = Some (Journal.base [] f ++ logged e n k).
Proof.
  destruct f as [rows |]; [rewrite grown_some; reflexivity |].
  revert n. induction k as [| k IH]; intros n; [reflexivity |].
  cbn [grown]. rewrite logged_succ. unfold attempt, opens.
  destruct (ledger_error e n).
  - rewrite IH. reflexivity.
  - cbv [Ledger.log_print_history Ledger.open_append]. cbn [app].
    rewrite grown_some. reflexivity.
Qed.

Lemma orderly_refl (e : env) (w : world) : orderly e w w.
Proof.
  split; [reflexivity |].
  split; [exists []; rewrite app_nil_r; split; [reflexivity | constructor] |].
  split; [exists []; rewrite app_nil_r; reflexivity |].
  exists 0%nat. split; [lia | reflexivity].
Qed.

Lemma orderly_trans (e : env) (w1 w2 w3 : world) :
  orderly e w1 w2 -> orderly e w2 w3 -> orderly e w1 w3.
Proof.
  intros (Hp1 & (m1 & Hm1 & Hq1) & (c1 & Hc1) & (k1 & Hk1 & Hf1))
         (Hp2 & (m2 & Hm2 & Hq2) & (c2 & Hc2) & (k2 & Hk2 & Hf2)).
  split; [congruence |].
  split.
  { exists (m1 ++ m2). rewrite Hm2, Hm1, <- app_assoc.
    split; [reflexivity | apply Forall_app; split; assumption]. }
  split.
  { exists (c1 ++ c2). rewrite Hc2, Hc1, <- app_assoc. reflexivity. }
  exists (k1 + k2)%nat. split; [lia |].
  rewrite Hf2, Hf1, Hk1. apply grown_grown.
Qed.

Lemma orderly_show (e : env) (m : message) (w : world) :
  is_warning m = false -> orderly e w (show m w).
Proof.
  intros Hm. split; [reflexivity |].
  split; [exists [m]; split; [reflexivity | repeat constructor; exact Hm] |].
  split; [exists []; cbn; rewrite app_nil_r; reflexivity |].
  exists 0%nat. split; [cbn; lia | reflexivity].
Qed.

(** [generate_barcode] shows at most one error and touches nothing else. *)
Lemma generate_frame (e : env) (v : string) (w : world) :
  let r := generate_barcode e v w in
  csv_file r.2 = csv_file w /\ clock_reads r.2 = clock_reads w
  /\ driver_log r.2 = driver_log w /\ previous_barcode r.2 = previous_barcode w
  /\ match r.1 with
     | Some _ => messages r.2 = messages w
     | None => exists text, messages r.2 = messages w ++ [StError text]
     end.
Proof.
  cbv zeta. unfold generate_barcode.
  destruct (barcode_available e); cbn [negb].
  - destruct (encode e v); cbn; repeat split; eauto.
  - cbn. repeat split; eauto.
Qed.

Lemma orderly_generate (e : env) (v : string) (w : world) :
  orderly e w (generate_barcode e v w).2.
Proof.
  destruct (generate_frame e v w) as (Hf & Hc & Hd & Hp & Hm).
  cbv zeta in *.
  split; [exact Hp |]. split.
  { destruct (generate_barcode e v w).1.
    - exists []. rewrite app_nil_r. split; [exact Hm | constructor].
    - destruct Hm as [text Hm]. exists [StError text].
      split; [exact Hm | repeat constructor]. }
  split; [exists []; rewrite app_nil_r; exact Hd |].
  exists 0%nat. split; [lia | exact Hf].
Qed.

Lemma orderly_print (e : env) (image_obj : Img.image) (printer_name : string)
    (w : world) :
  orderly e w (print_barcode_image e image_obj printer_name w).
Proof.
  destruct (platform e) eqn:Hp.
  - destruct (print_run e image_obj printer_name w Hp)
      as (Hlog & Hprev
          & [(Hl & Hm & Hcsv & Hclock & _)
            | [(err & Hl & Hm & Hcsv & Hclock & _)
              | (text & Hm & Hcsv & Hclock & _)]]).
    + split; [exact Hprev |].
      split; [eexists; split; [exact Hm | repeat constructor] |].
      split; [eexists; exact Hlog |].
      exists 1%nat. split; [lia |].
      rewrite Hcsv. cbn [grown]. unfold attempt. rewrite Hl. reflexivity.
    + split; [exact Hprev |].
      split; [eexists; split; [exact Hm | repeat constructor] |].
      split; [eexists; exact Hlog |].
      exists 1%nat. split; [lia |].
      rewrite Hcsv. cbn [grown]. unfold attempt. rewrite Hl. reflexivity.
    + split; [exact Hprev |].
      split; [eexists; split; [exact Hm | repeat constructor] |].
      split; [eexists; exact Hlog |].
      exists 0%nat. split; [lia | exact Hcsv].
  - unfold print_barcode_image. rewrite Hp. apply orderly_show. reflexivity.
Qed.

Lemma orderly_generate_then_print (e : env) (v printer : string) (w : world) :
  orderly e w
    match generate_barcode e v w with
    | (Some image_obj, w') => print_barcode_image e image_obj printer w'
    | (None, w') => w'
    end.
Proof.
  pose proof (orderly_generate e v w) as Hg.
  destruct (generate_barcode e v w) as [[image_obj |] w']; cbn [snd] in Hg.
  - eapply orderly_trans; [exact Hg | apply orderly_print].
  - exact Hg.
Qed.

Lemma gate_nonblank (v previous : string) :
  (auto_print_gate v previous).1 = true -> nonblank v = true.
Proof.
  unfold auto_print_gate, nonblank.
  destruct (truthy v); destruct (String.eqb v previous);
    destruct (truthy (strip v)); cbn; congruence.
Qed.

Lemma orderly_auto_print_block (e : env) (value printer : string)
    (auto_print : bool) (w : world) :
  (auto_print = true -> nonblank value = true) ->
  orderly e w (auto_print_block e value printer auto_print w).
Proof.
  intros Hnb. unfold auto_print_block.
  destruct auto_print; [| apply orderly_refl].
  rewrite (Hnb eq_refl). apply orderly_generate_then_print.
Qed.

Lemma orderly_reprint_loop (e : env) (selected : list History.cell)
    (printer : string) (w : world) :
  orderly e w (reprint_loop e selected printer w).2.
Proof.
  revert w. induction selected as [| b rest IH]; intros w.
  - apply orderly_refl.
  - destruct b as [barcode | [|]]; cbn [reprint_loop].
    + eapply orderly_trans; [| apply IH].
      destruct (nonblank barcode);
        [apply orderly_generate_then_print | apply orderly_refl].
    + apply orderly_refl.
    + apply IH.
Qed.

Lemma orderly_reprint_selected (e : env) (selected : list History.cell)
    (printer : string) (w : world) :
  orderly e w (reprint_selected e selected printer w).2.
Proof.
  unfold reprint_selected, bind.
  pose proof (orderly_reprint_loop e selected printer w) as H.
  destruct (reprint_loop e selected printer w) as [[[] | err] w']; cbn [snd] in *.
  - eapply orderly_trans; [exact H |]. apply orderly_show. reflexivity.
  - exact H.
Qed.

Lemma orderly_sidebar (e : env) (i : inputs) (w : world) :
  orderly e w (sidebar e i w).2.
Proof.
  unfold sidebar.
  destruct (frame e _) as [[| b column] | err]; try apply orderly_refl.
  destruct (selected_barcodes _ _) as [[| b' selected] | err];
    try apply orderly_refl.
  destruct (reprint_pressed i); [| apply orderly_refl].
  apply orderly_reprint_selected.
Qed.

(** The run of the script, stage by stage. *)
Lemma script_run_stages (e : env) (i : inputs) (w : world) :
  script_run e i w
  = let value := typed e in
    let g := auto_print_gate value (previous_barcode w) in
    let w1 := set_previous g.2 w in
    let w2 :=
      if truthy value then
        match generate_barcode e value w1 with
        | (Some _, w') => show (StImage "Generated Barcode") w'
        | (None, w') => w'
        end
      else w1 in
    let w3 := auto_print_block e value (select_printer i) g.1 w2 in
    let w4 :=
      if clear_pressed i
      then show (StSuccess "Print history cleared.")
             (set_file (Ledger.clear_history (csv_file w3)) w3)
      else w3 in
    (sidebar e i (set_file (Ledger.ensure_exists (csv_file w4)) w4)).2.
Proof.
  unfold script_run, script, typed.
  destruct (auto_print_gate _ _). reflexivity.
Qed.

Lemma orderly_display (e : env) (value : string) (w : world) :
  orderly e w
    (if truthy value then
       match generate_barcode e value w with
       | (Some _, w') => show (StImage "Generated Barcode") w'
       | (None, w') => w'
       end
     else w).
Proof.
  destruct (truthy value); [| apply orderly_refl].
  pose proof (orderly_generate e value w) as Hg.
  destruct (generate_barcode e value w) as [[image_obj |] w']; cbn [snd] in Hg.
  - eapply orderly_trans; [exact Hg | apply orderly_show; reflexivity].
  - exact Hg.
Qed.

(** What one run of the script does, to its end or to the exception that
    ends it: the value remembered, the messages, the calls, and the
    ledger, which is written by the automatic print, reset by the clear
    button, created if missing, and written by the reprints. *)
Lemma script_run_trace (e : env) (i : inputs) (w : world) :
  let w' := script_run e i w in
  previous_barcode w' = (auto_print_gate (typed e) (previous_barcode w)).2
  /\ (exists new,
        messages w' = messages w ++ new
        /\ Forall (fun m => is_warning m = false) new)
  /\ (exists calls, driver_log w' = driver_log w ++ calls)
  /\ exists k1 k2,
       clock_reads w' = (clock_reads w + k1 + k2)%nat
       /\ csv_file w'
          = grown e (clock_reads w + k1) k2
              (Ledger.ensure_exists
                 (if clear_pressed i then Some [Ledger.header]
                  else grown e (clock_reads w) k1 (csv_file w))).
Proof.
  cbv zeta. rewrite script_run_stages. cbv zeta.
  set (value := typed e).
  set (g := auto_print_gate value (previous_barcode w)).
  set (w1 := set_previous g.2 w).
  pose proof (orderly_display e value w1) as H12.
  set (w2 := if truthy value then _ else w1) in *.
  assert (H23 : orderly e w2 (auto_print_block e value (select_printer i) g.1 w2)).
  { apply orderly_auto_print_block. apply gate_nonblank. }
  set (w3 := auto_print_block e value (select_printer i) g.1 w2) in *.
  pose proof (orderly_trans e w1 w2 w3 H12 H23)
    as (Hp13 & (m13 & Hm13 & Hq13) & (c13 & Hc13) & (k1 & Hk1 & Hf1)).
  set (w4 := if clear_pressed i then _ else w3).
  set (w5 := set_file (Ledger.ensure_exists (csv_file w4)) w4).
  assert (H5 : previous_barcode w5 = previous_barcode w3
               /\ driver_log w5 = driver_log w3
               /\ clock_reads w5 = clock_reads w3
               /\ (exists m, messages w5 = messages w3 ++ m
                             /\ Forall (fun m => is_warning m = false) m)
               /\ csv_file w5
                  = Ledger.ensure_exists
                      (if clear_pressed i then Some [Ledger.header]
                       else csv_file w3)).
  { subst w5 w4. destruct (clear_pressed i); cbn.
    - repeat split. eexists. split; [reflexivity | repeat constructor].
    - repeat split. exists []. rewrite app_nil_r. split; [reflexivity | constructor]. }
  destruct H5 as (Hp5 & Hd5 & Hk5 & (m5 & Hm5 & Hq5) & Hf5).
  destruct (orderly_sidebar e i w5)
    as (Hp56 & (m56 & Hm56 & Hq56) & (c56 & Hc56) & (k2 & Hk2 & Hf2)).
  split; [rewrite Hp56, Hp5, Hp13; reflexivity |].
  split.
  { exists (m13 ++ m5 ++ m56). rewrite Hm56, Hm5, Hm13, <- !app_assoc.
    split; [reflexivity |]. rewrite !Forall_app. auto. }
  split.
  { exists (c13 ++ c56). rewrite Hc56, Hd5, Hc13, <- app_assoc. reflexivity. }
  exists k1, k2. split.
  - rewrite Hk2, Hk5, Hk1. reflexivity.
  - rewrite Hf2, Hk5, Hk1, Hf5, Hf1. reflexivity.
Qed.

(** X13. The warning of line 283, "Please enter a barcode before
    printing.", is never shown: whatever is typed, pressed or selected
    and whatever the platform and the driver do, a run of the script only
    adds messages to those shown, and none of them is a warning.  The
    branch that shows it lies under a condition that the automatic print
    has already checked. *)
Theorem script_never_shows_the_warning (e : env) (i : inputs) (w : world) :
  exists new,
    messages (script_run e i w) = messages w ++ new
    /\ forall text, ~ In (StWarning text) new.
Proof.
  destruct (script_run_trace e i w) as (_ & (new & Hm & Hq) & _).
  exists new. split; [exact Hm |].
  intros text Hin. rewrite List.Forall_forall in Hq.
  specialize (Hq _ Hin). discriminate Hq.
Qed.

(** *** The ledger through a run *)







(** *** The clear button *)




(** *** Runs that print nothing *)

Lemma sidebar_idle (e : env) (i : inputs) (w : world) :
  reprint_pressed i = false -> (sidebar e i w).2 = w.
Proof.
  intros H. unfold sidebar.
  destruct (frame e _) as [[| b column] | err]; try reflexivity.
  destruct (selected_barcodes _ _) as [[| b' selected] | err]; try reflexivity.
  rewrite H. reflexivity.
Qed.

Lemma display_frame (e : env) (value : string) (w : world) :
  let w' := if truthy value then
              match generate_barcode e value w with
              | (Some _, w') => show (StImage "Generated Barcode") w'
              | (None, w') => w'
              end
            else w in
  csv_file w' = csv_file w /\ clock_reads w' = clock_reads w
  /\ driver_log w' = driver_log w /\ previous_barcode w' = previous_barcode w.
Proof.
  cbv zeta. destruct (truthy value); [| auto].
  destruct (generate_frame e value w) as (Hf & Hc & Hd & Hp & _).
  cbv zeta in *.
  destruct (generate_barcode e value w) as [[image_obj |] w']; cbn in *; auto.
Qed.

(** A run in which the automatic print does not fire and the reprint
    button is not pressed. *)
Lemma script_run_quiet (e : env) (i : inputs) (w : world) :
  (auto_print_gate (typed e) (previous_barcode w)).1 = false ->
  reprint_pressed i = false ->
  let w' := script_run e i w in
  driver_log w' = driver_log w
  /\ clock_reads w' = clock_reads w
  /\ previous_barcode w' = previous_barcode w
  /\ csv_file w'
     = Ledger.ensure_exists
         (if clear_pressed i then Some [Ledger.header] else csv_file w).
Proof.
  intros Hgate Hreprint. cbv zeta. rewrite script_run_stages. cbv zeta.
  rewrite (sidebar_idle _ _ _ Hreprint).
  pose proof (gate_remembers (typed e) (previous_barcode w)) as Hrem.
  rewrite Hgate in Hrem. rewrite Hgate, Hrem.
  unfold auto_print_block.
  destruct (display_frame e (typed e) (set_previous (previous_barcode w) w))
    as (Hf & Hc & Hd & Hp).
  cbv zeta in Hf, Hc, Hd, Hp.
  set (w2 := if truthy (typed e) then _ else _) in *.
  destruct (clear_pressed i); cbn; rewrite ?Hf, ?Hc, ?Hd, ?Hp; auto.
Qed.



Lemma script_run_ledger_exists (e : env) (i : inputs) (w : world) :
  exists rows, csv_file (script_run e i w) = Some rows.
Proof.
  destruct (script_run_trace e i w) as (_ & _ & _ & (k1 & k2 & _ & Hf)).
  rewrite Hf. destruct (clear_pressed i).
  - cbn [Ledger.ensure_exists]. rewrite grown_some. eauto.
  - rewrite ensure_grown, grown_some. eauto.
Qed.

(** X18. Streamlit runs the script again on every interaction; a run
    that follows another with the same value in the text input, and in
    which no button is pressed, prints nothing again: no call reaches the
    driver, the clock is not read, and the ledger and the remembered
    value stay as the run before left them. *)
Theorem rerun_prints_nothing_again (e : env) (i i' : inputs) (w : world) :
  reprint_pressed i' = false -> clear_pressed i' = false ->
  let w1 := script_run e i w in
  let w2 := script_run e i' w1 in
  driver_log w2 = driver_log w1
  /\ clock_reads w2 = clock_reads w1
  /\ csv_file w2 = csv_file w1
  /\ previous_barcode w2 = previous_barcode w1.
Proof.
  intros Hreprint Hclear. cbv zeta.
  destruct (script_run_trace e i w) as (Hprev & _).
  cbv zeta in Hprev.
  destruct (script_run_ledger_exists e i w) as [rows Hrows].
  assert (Hgate : (auto_print_gate (typed e)
                     (previous_barcode (script_run e i w))).1 = false).
  { rewrite Hprev, gate_idle. reflexivity. }
  destruct (script_run_quiet e i' (script_run e i w) Hgate Hreprint)
    as (Hd & Hc & Hp & Hf).
  cbv zeta in Hd, Hc, Hp, Hf.
  rewrite Hclear, Hrows in Hf.
  rewrite Hrows. auto.
Qed.

Lemma rerun_prints_nothing_again_witness :
  driver_log
    (script_run (Samples.windows "XYZ") (mk_inputs "Zebra" false [] false)
       (script_run (Samples.windows "XYZ") Samples.reprint_first Samples.fresh))
  = driver_log
      (script_run (Samples.windows "XYZ") Samples.reprint_first Samples.fresh).
Proof.
  apply (rerun_prints_nothing_again (Samples.windows "XYZ") Samples.reprint_first
           (mk_inputs "Zebra" false [] false) Samples.fresh eq_refl eq_refl).
Defined.

(** *** Reprinting where nothing can print *)

Lemma reached_all (selected : list History.cell) :
  existsb unstrippable selected = false -> reached selected = selected.
Proof.
  induction selected as [| b rest IH]; [reflexivity |].
  cbn [existsb reached]. intros H. apply orb_false_iff in H as [Hb Hrest].
  rewrite Hb, (IH Hrest). reflexivity.
Qed.

Lemma reprint_loop_unsupported (e : env) (selected : list History.cell)
    (printer : string) (w : world) :
  platform e = Printers.OtherPlatform ->
  let r := reprint_loop e selected printer w in
  csv_file r.2 = csv_file w /\ clock_reads r.2 = clock_reads w
  /\ driver_log r.2 = driver_log w
  /\ r.1 = (if existsb unstrippable selected
            then Raised "AttributeError" else Returned tt)
  /\ exists errors,
       messages r.2 = messages w ++ map StError errors
       /\ length errors = length (List.filter printable (reached selected)).
Proof.
  intros Hp. revert w. induction selected as [| b rest IH]; intros w.
  - cbn. repeat split. exists []. rewrite app_nil_r. split; reflexivity.
  - destruct b as [barcode | [|]];
      cbn [reprint_loop existsb unstrippable reached List.filter printable orb].
    + cbv zeta. destruct (nonblank barcode).
      * destruct (generate_frame e barcode w) as (Hf & Hc & Hd & _ & Hm).
        cbv zeta in Hf, Hc, Hd, Hm.
        destruct (generate_barcode e barcode w) as [[image_obj |] w1];
          cbn [fst snd] in Hf, Hc, Hd, Hm.
        -- unfold print_barcode_image. rewrite Hp.
           destruct (IH (show (StError "Printing is only supported on Windows.") w1))
             as (Hf' & Hc' & Hd' & Hr' & (errors & Hm' & Hlen)).
           cbv zeta in Hf', Hc', Hd', Hr', Hm'.
           cbn [csv_file clock_reads driver_log messages show]
             in Hf', Hc', Hd', Hm'.
           rewrite Hf', Hc', Hd', Hf, Hc, Hd, Hr'. repeat split.
           exists ("Printing is only supported on Windows." :: errors).
           rewrite Hm', Hm, <- app_assoc. cbn [map length app].
           split; [reflexivity | rewrite Hlen; reflexivity].
        -- destruct Hm as [text Hm].
           destruct (IH w1) as (Hf' & Hc' & Hd' & Hr' & (errors & Hm' & Hlen)).
           cbv zeta in Hf', Hc', Hd', Hr', Hm'.
           rewrite Hf', Hc', Hd', Hf, Hc, Hd, Hr'. repeat split.
           exists (text :: errors).
           rewrite Hm', Hm, <- app_assoc. cbn [map length app].
           split; [reflexivity | rewrite Hlen; reflexivity].
      * apply IH.
    + cbn. repeat split. exists []. rewrite app_nil_r. split; reflexivity.
    + apply IH.
Qed.

(** X19. Off Windows the "Reprint Selected" button prints and logs
    nothing.  The loop shows one error for every selected value that is a
    string and not blank, up to the first selected value that is true and
    no string (a number or a missing value, as pandas reads them): there
    [barcode.strip()] raises [AttributeError], which nothing catches, and
    no count is reported.  When no selected value is of that kind, the
    loop ends and all the non-blank selections are reported as
    reprinted: the count of the final message is that of the non-blank
    selections, not of the labels printed. *)
Theorem reprint_reports_labels_it_did_not_print
    (e : env) (selected : list History.cell) (printer : string) (w : world) :
  platform e = Printers.OtherPlatform ->
  let r := reprint_selected e selected printer w in
  csv_file r.2 = csv_file w /\ clock_reads r.2 = clock_reads w
  /\ driver_log r.2 = driver_log w
  /\ exists errors,
       length errors = length (List.filter printable (reached selected))
       /\ if existsb unstrippable selected
          then r.1 = Raised "AttributeError"
               /\ messages r.2 = messages w ++ map StError errors
          else r.1 = Returned tt
               /\ messages r.2
                  = messages w ++ map StError errors
                    ++ [SidebarReprinted (length errors)]
               /\ length errors = length (List.filter printable selected).
Proof.
  intros Hp. cbv zeta. unfold reprint_selected, bind.
  destruct (reprint_loop_unsupported e selected printer w Hp)
    as (Hf & Hc & Hd & Hr & (errors & Hm & Hlen)).
  cbv zeta in Hf, Hc, Hd, Hr, Hm.
  destruct (reprint_loop e selected printer w) as [r1 w1].
  cbn [fst snd] in Hf, Hc, Hd, Hr, Hm. subst r1.
  destruct (existsb unstrippable selected) eqn:Hstop.
  - cbn [fst snd]. repeat split; try assumption.
    exists errors. repeat split; assumption.
  - cbn [fst snd lift csv_file clock_reads driver_log messages show].
    repeat split; try assumption.
    exists errors. split; [exact Hlen |]. split; [reflexivity |].
    rewrite (reached_all _ Hstop) in Hlen.
    rewrite Hm, Hlen, <- app_assoc. split; reflexivity.
Qed.

Lemma reprint_reports_labels_it_did_not_print_witness :
  csv_file
    (reprint_selected (Samples.linux "")
       [History.Str "ABC"; History.NotStr false; History.Str "  ";
        History.Str "DEF"] "Zebra" Samples.fresh).2 = None
  /\ exists errors,
       length errors = 2%nat
       /\ (reprint_selected (Samples.linux "")
             [History.Str "ABC"; History.NotStr false; History.Str "  ";
              History.Str "DEF"] "Zebra" Samples.fresh).1 = Returned tt
       /\ messages
            (reprint_selected (Samples.linux "")
               [History.Str "ABC"; History.NotStr false; History.Str "  ";
                History.Str "DEF"] "Zebra" Samples.fresh).2
          = [] ++ map StError errors ++ [SidebarReprinted (length errors)]
       /\ length errors = 2%nat.
Proof.
  destruct (reprint_reports_labels_it_did_not_print
              (Samples.linux "")
              [History.Str "ABC"; History.NotStr false; History.Str "  ";
               History.Str "DEF"] "Zebra" Samples.fresh eq_refl)
    as (Hf & _ & _ & Hm).
  split; [exact Hf | exact Hm].
Defined.

End ScriptFacts.

(** ** The automatic submission *)

Section AutoSubmitFacts.
Import PyStr App Plan.

Lemma spec_trigger_gate (v previous : string) :
  spec_trigger v previous = (auto_print_gate v previous).1.
Proof.
  destruct (auto_print_gate v previous).1 eqn:Hg.
  - apply gate_fires_iff in Hg as [Hs Hne]. unfold spec_trigger.
    apply String.eqb_neq in Hs, Hne. rewrite Hs, Hne. reflexivity.
  - unfold spec_trigger.
    destruct (String.eqb_spec (strip v) "") as [_ | Hs]; [reflexivity |].
    destruct (String.eqb_spec v previous) as [_ | Hne]; [reflexivity |].
    assert (Hf : (auto_print_gate v previous).1 = true)
      by (apply gate_fires_iff; auto).
    congruence.
Qed.

Lemma observe_spec_observe (values : list string) (previous : string) :
  observe values previous = spec_observe values previous.
Proof.
  revert previous. induction values as [| v rest IH]; intros previous;
    [reflexivity |].
  cbn [observe spec_observe]. cbv zeta.
  rewrite spec_trigger_gate.
  pose proof (gate_remembers v previous) as Hrem.
  destruct (auto_print_gate v previous) as [fired remembered].
  cbn [fst snd] in *. subst remembered. rewrite IH. reflexivity.
Qed.

(** While the tracked value is [v], observations of [v] or of blank
    values submit nothing. *)
Lemma observe_quiet (v : string) (later : list string) :
  Forall (fun x => x = v \/ strip x = EmptyString) later ->
  observe later v = repeat false (length later).
Proof.
  induction 1 as [| x later Hx _ IH]; [reflexivity |].
  cbn [observe length repeat].
  assert (Hg : auto_print_gate x v = (false, v)).
  { destruct Hx as [-> | Hblank];
      [apply gate_silent_on_same | apply gate_silent_on_blank; exact Hblank]. }
  rewrite Hg, IH. reflexivity.
Qed.

Lemma auto_print_block_submits (e : env) (v printer previous : string)
    (w : world) :
  auto_print_block e v printer (auto_print_gate v previous).1 w
  = if (auto_print_gate v previous).1 then submit_one e v printer w else w.
Proof.
  unfold auto_print_block, submit_one.
  destruct (auto_print_gate v previous).1 eqn:Hg; [| reflexivity].
  rewrite (gate_nonblank _ _ Hg). reflexivity.
Qed.

Lemma world_eq (a b : world) :
  csv_file a = csv_file b -> messages a = messages b ->
  driver_log a = driver_log b -> clock_reads a = clock_reads b ->
  previous_barcode a = previous_barcode b -> a = b.
Proof. destruct a, b. cbn. intros. subst. reflexivity. Qed.

(** Showing the label of the typed value only adds to the messages. *)
Lemma display_shown (e : env) (value : string) (w : world) :
  exists shown,
    (if truthy value then
       match generate_barcode e value w with
       | (Some _, w') => show (StImage "Generated Barcode") w'
       | (None, w') => w'
       end
     else w)
    = mk_world (csv_file w) (messages w ++ shown) (driver_log w)
        (clock_reads w) (previous_barcode w).
Proof.
  destruct (truthy value).
  - destruct (generate_frame e value w) as (Hf & Hc & Hd & Hp & Hm).
    cbv zeta in Hf, Hc, Hd, Hp, Hm.
    destruct (generate_barcode e value w) as [[image_obj |] w'];
      cbn [fst snd] in Hf, Hc, Hd, Hp, Hm.
    + exists [StImage "Generated Barcode"]. apply world_eq; cbn; congruence.
    + destruct Hm as [text Hm]. exists [StError text].
      apply world_eq; cbn; congruence.
  - exists []. rewrite app_nil_r. destruct w. reflexivity.
Qed.

(** C8. The automatic submission, once per distinct change.  A run
    submits exactly when the value of the text input is not empty after
    trimming and differs from the one remembered; the value remembered
    is then the value submitted, and is kept otherwise, so that it is the
    last value submitted; over any sequence of runs the submissions are
    those of the pipeline the specification describes; once a value has
    been submitted, runs that observe the same value again (or a blank
    one in between) submit nothing; the block of lines 276 to 283 submits
    the value exactly when the gate fires; the script hands the value its
    gate remembers to the next run; and a run in which no button is
    pressed is, after the label is shown, the submission of the typed
    value when the gate fires and nothing when it does not, followed by
    the creation of the ledger if it is missing. *)
Theorem auto_print_once_per_change :
  (forall v previous,
     (auto_print_gate v previous).1 = true
     <-> strip v <> EmptyString /\ v <> previous)
  /\ (forall v previous,
        (auto_print_gate v previous).2
        = if (auto_print_gate v previous).1 then v else previous)
  /\ (forall values previous,
        observe values previous = spec_observe values previous)
  /\ (forall v previous later,
        (auto_print_gate v previous).1 = true ->
        Forall (fun x => x = v \/ strip x = EmptyString) later ->
        observe (v :: later) previous = true :: repeat false (length later))
  /\ (forall e v printer previous w,
        auto_print_block e v printer (auto_print_gate v previous).1 w
        = if (auto_print_gate v previous).1
          then submit_one e v printer w else w)
  /\ (forall e i w,
        previous_barcode (script_run e i w)
        = (auto_print_gate (typed e) (previous_barcode w)).2)
  /\ (forall e i w,
        clear_pressed i = false -> reprint_pressed i = false ->
        exists shown,
          let g := auto_print_gate (typed e) (previous_barcode w) in
          let w2 := mk_world (csv_file w) (messages w ++ shown) (driver_log w)
                      (clock_reads w) g.2 in
          let w3 := if g.1 then submit_one e (typed e) (select_printer i) w2
                    else w2 in
          script_run e i w = set_file (Ledger.ensure_exists (csv_file w3)) w3).
Proof.
  split; [exact gate_fires_iff |].
  split; [exact gate_remembers |].
  split; [exact observe_spec_observe |].
  split.
  { intros v previous later Hfire Hlater. cbn [observe].
    pose proof (gate_remembers v previous) as Hrem. rewrite Hfire in Hrem.
    destruct (auto_print_gate v previous) as [fired remembered].
    cbn [fst snd] in *. subst fired remembered.
    rewrite (observe_quiet v later Hlater). reflexivity. }
  split; [exact auto_print_block_submits |].
  split; [intros e i w; apply (script_run_trace e i w) |].
  intros e i w Hclear Hreprint.
  rewrite script_run_stages. cbv zeta.
  rewrite (sidebar_idle _ _ _ Hreprint), Hclear.
  destruct (display_shown e (typed e)
              (set_previous (auto_print_gate (typed e) (previous_barcode w)).2 w))
    as [shown Hshown].
  exists shown. rewrite Hshown.
  cbn [set_previous csv_file messages driver_log clock_reads previous_barcode].
  rewrite auto_print_block_submits. reflexivity.
Qed.

(** The value "ABC" typed, cleared and typed again is submitted once. *)
Lemma typed_cleared_and_typed_again :
  observe ["ABC"; ""; "ABC"; "ABC"; "XYZ"; "ABC"] ""
  = [true; false; false; false; true; true].
Proof. reflexivity. Qed.

End AutoSubmitFacts.

(** ** The stamp names its moment *)

Section StampFacts.
Import Clock.
Local Open Scope N_scope.

Lemma digit_inj (a b : N) : digit a = digit b -> a mod 10 = b mod 10.
Proof.
  unfold digit. intros H. apply (f_equal N_of_ascii) in H.
  pose proof (N.mod_upper_bound a 10 ltac:(lia)).
  pose proof (N.mod_upper_bound b 10 ltac:(lia)).
  rewrite !N_ascii_embedding in H by lia. lia.
Qed.

Lemma two_digits_inj (a b : N) :
  a < 100 -> b < 100 ->
  digit (a / 10) = digit (b / 10) -> digit a = digit b -> a = b.
Proof.
  intros Ha Hb H1 H0. apply digit_inj in H1, H0.
  rewrite (N.mod_small (a / 10)) in H1 by (apply N.Div0.div_lt_upper_bound; lia).
  rewrite (N.mod_small (b / 10)) in H1 by (apply N.Div0.div_lt_upper_bound; lia).
  rewrite (N.div_mod a 10), (N.div_mod b 10) by lia. congruence.
Qed.

Lemma four_digits_inj (a b : N) :
  a < 10000 -> b < 10000 ->
  digit (a / 1000) = digit (b / 1000) -> digit (a / 100) = digit (b / 100) ->
  digit (a / 10) = digit (b / 10) -> digit a = digit b -> a = b.
Proof.
  intros Ha Hb H3 H2 H1 H0.
  assert (Hdiv : forall n, n / 10 / 10 = n / 100 /\ n / 10 / 100 = n / 1000).
  { intros n. rewrite !N.Div0.div_div. split; reflexivity. }
  destruct (Hdiv a) as [Ea2 Ea3]. destruct (Hdiv b) as [Eb2 Eb3].
  assert (H100 : a / 100 = b / 100).
  { apply two_digits_inj.
    - apply N.Div0.div_lt_upper_bound. lia.
    - apply N.Div0.div_lt_upper_bound. lia.
    - rewrite !N.Div0.div_div. exact H3.
    - exact H2. }
  assert (H10 : a / 10 = b / 10).
  { rewrite (N.div_mod (a / 10) 10), (N.div_mod (b / 10) 10) by lia.
    rewrite Ea2, Eb2, H100. f_equal. apply digit_inj. exact H1. }
  rewrite (N.div_mod a 10), (N.div_mod b 10) by lia.
  rewrite H10. f_equal. apply digit_inj. exact H0.
Qed.

Lemma hour_split (h : N) :
  h < 24 -> (h < 12 /\ h mod 12 = h) \/ (12 <= h /\ h mod 12 = h - 12).
Proof.
  intros Hh. destruct (N.lt_ge_cases h 12) as [Hlt | Hge].
  - left. split; [exact Hlt | apply N.mod_small; exact Hlt].
  - right. split; [exact Hge |]. symmetry.
    apply (N.mod_unique h 12 1 (h - 12)); lia.
Qed.

Lemma hour12_bound (h : N) : hour12 h < 100.
Proof.
  unfold hour12. pose proof (N.mod_upper_bound h 12 ltac:(lia)).
  destruct (h mod 12 =? 0); lia.
Qed.

(** The hour on the 12-hour clock and the half of the day give the hour. *)
Lemma hour_inj (h1 h2 : N) :
  h1 < 24 -> h2 < 24 ->
  hour12 h1 = hour12 h2 -> am_pm h1 = am_pm h2 -> h1 = h2.
Proof.
  intros H1 H2 H12 Hap. unfold hour12, am_pm in *.
  destruct (hour_split h1 H1) as [[L1 M1] | [L1 M1]];
    destruct (hour_split h2 H2) as [[L2 M2] | [L2 M2]];
    rewrite M1, M2 in H12;
    destruct (N.ltb_spec h1 12); destruct (N.ltb_spec h2 12);
    try lia; try discriminate Hap;
    destruct (N.eqb_spec (h1 - 12) 0); destruct (N.eqb_spec (h2 - 12) 0);
    destruct (N.eqb_spec h1 0); destruct (N.eqb_spec h2 0); lia.
Qed.

(** X20. The stamp written to the ledger names its moment: two readings
    of the clock (in the years 1000 to 9999) that are rendered as the
    same text are the same second of the same day.  The 12-hour clock of
    the format loses nothing, since the half of the day is part of it. *)
Theorem strftime_injective (d1 d2 : datetime) :
  valid d1 -> valid d2 -> strftime d1 = strftime d2 -> d1 = d2.
Proof.
  intros V1 V2 H.
  destruct d1 as [y1 mo1 da1 h1 mi1 s1], d2 as [y2 mo2 da2 h2 mi2 s2].
  unfold valid in V1, V2. cbn [year month day hour minute second] in V1, V2.
  unfold strftime, two_digits, four_digits in H.
  cbn [year month day hour minute second String.append] in H.
  injection H as Hmo1 Hmo0 Hda1 Hda0 Hy3 Hy2 Hy1 Hy0 Hh1 Hh0 Hmi1 Hmi0
    Hs1 Hs0 Hap.
  assert (Emo : mo1 = mo2) by (apply two_digits_inj; assumption || lia).
  assert (Eda : da1 = da2) by (apply two_digits_inj; assumption || lia).
  assert (Ey : y1 = y2) by (apply four_digits_inj; assumption || lia).
  assert (Emi : mi1 = mi2) by (apply two_digits_inj; assumption || lia).
  assert (Es : s1 = s2) by (apply two_digits_inj; assumption || lia).
  assert (Eh12 : hour12 h1 = hour12 h2)
    by (apply two_digits_inj; assumption || apply hour12_bound).
  assert (Eh : h1 = h2) by (apply hour_inj; assumption || lia).
  congruence.
Qed.

Lemma strftime_injective_witness :
  mk_datetime 2024 3 5 12 0 0 = Samples.noon.
Proof.
  apply (strftime_injective (mk_datetime 2024 3 5 12 0 0) Samples.noon).
  - unfold valid. simpl. lia.
  - unfold valid. simpl. lia.
  - reflexivity.
Defined.

End StampFacts.

(** ** A new value, printed and logged *)

Section SubmitFacts.
Import PyStr App Plan Trace Float.

Lemma until_failure_all (fails : driver_call -> option string)
    (calls : list driver_call) :
  Forall (fun c => fails c = None) calls -> until_failure fails calls = calls.
Proof.
  induction 1 as [| c calls Hc _ IH]; cbn [until_failure]; [reflexivity |].
  rewrite Hc, IH. reflexivity.
Qed.

Lemma generate_ok (e : env) (v : string) (w : world) (raster : Img.image) :
  barcode_available e = true -> encode e v = Returned raster ->
  generate_barcode e v w
  = (Some (Img.paste (Img.new label_width label_height Img.white) raster
             ((label_width - Img.width raster) / 2)%Z
             ((label_height - Img.height raster) / 2)%Z), w).
Proof. intros Hav Henc. unfold generate_barcode. rewrite Hav, Henc. reflexivity. Qed.

(** *** The size the label is resized to *)

Lemma truediv_at_least_one (p n : Z) :
  (0 < n <= p)%Z -> (1 - u <= truediv p n)%Q.
Proof.
  intros [Hn Hp]. unfold truediv.
  assert (H1 : (1 <= inject_Z p / inject_Z n)%Q).
  { apply Qle_shift_div_l.
    - change 0%Q with (inject_Z 0). rewrite <- Zlt_Qlt. exact Hn.
    - rewrite Qmult_1_l, <- Zle_Qle. exact Hp. }
  pose proof (rnd_lower (inject_Z p / inject_Z n) ltac:(lra)) as Hlow.
  unfold u in *. lra.
Qed.

Lemma py_min_at_least (x y b : Q) :
  (b <= x)%Q -> (b <= y)%Q -> (b <= py_min x y)%Q.
Proof. intros Hx Hy. unfold py_min. destruct (Qcompare y x); assumption. Qed.

(** A side of two pixels or more, scaled by a factor that is one up to a
    rounding, keeps a pixel at least. *)
Lemma scaled_positive (n : Z) (s : Q) :
  (2 <= n)%Z -> (1 - u <= s)%Q -> (0 < py_int (mul_int n s))%Z.
Proof.
  intros Hn Hs. unfold mul_int.
  assert (Hn' : (2 <= inject_Z n)%Q).
  { change 2%Q with (inject_Z 2). rewrite <- Zle_Qle. exact Hn. }
  assert (Hx : (2 * (1 - u) <= inject_Z n * s)%Q).
  { assert (H0 : (0 <= (inject_Z n - 2) * s)%Q).
    { apply Qmult_le_0_compat; unfold u in *; lra. }
    unfold u in *. lra. }
  pose proof (rnd_lower (inject_Z n * s) ltac:(unfold u in *; lra)) as Hlow.
  assert (H1 : (inject_Z 1 <= rnd (inject_Z n * s))%Q).
  { change (inject_Z 1) with 1%Q. unfold u in *. lra. }
  rewrite py_int_nonneg by (change (inject_Z 1) with 1%Q in H1; lra).
  apply Qfloor_resp_le in H1. rewrite Qfloor_Z in H1. lia.
Qed.

Lemma layout_positive (iw ih pw ph : Z) :
  (2 <= iw <= pw)%Z -> (2 <= ih <= ph)%Z ->
  (0 < (layout iw ih pw ph).1.1.1)%Z /\ (0 < (layout iw ih pw ph).1.1.2)%Z.
Proof.
  intros Hw Hh. unfold layout. cbv zeta. cbn [fst snd].
  assert (Hs : (1 - u <= py_min (truediv pw iw) (truediv ph ih))%Q).
  { apply py_min_at_least; apply truediv_at_least_one; lia. }
  split; apply scaled_positive; (lia || exact Hs).
Qed.

(** On a page no smaller than the image, every planned call is one
    Pillow can answer. *)
Lemma planned_resizable (e : env) (image_obj : Img.image) (printer : string) :
  (2 <= Img.width image_obj <= device_caps e HORZRES)%Z ->
  (2 <= Img.height image_obj <= device_caps e VERTRES)%Z ->
  Forall resizable (planned_calls e image_obj printer).
Proof.
  intros Hw Hh. unfold planned_calls. cbv zeta.
  destruct ((Img.width image_obj =? 0) || (Img.height image_obj =? 0))%Z.
  - repeat constructor.
  - pose proof (layout_positive _ _ _ _ Hw Hh) as [Hsw Hsh].
    destruct (layout _ _ _ _) as [[[sw sh] x] y]. cbn [fst snd] in Hsw, Hsh.
    repeat constructor; assumption.
Qed.

(** A print on Windows of a label with a width and a height, by a driver
    that answers every planned call, with a ledger that can be opened. *)
Lemma print_succeeds (e : env) (label : Img.image) (printer : string) (w : world) :
  platform e = Printers.Win32 ->
  Forall (fun c => fails e c = None) (planned_calls e label printer) ->
  ledger_error e (clock_reads w) = None ->
  Img.width label <> 0%Z -> Img.height label <> 0%Z ->
  let w' := print_barcode_image e label printer w in
  driver_log w' = driver_log w ++ planned_calls e label printer
  /\ previous_barcode w' = previous_barcode w
  /\ messages w' = messages w ++ [StSuccess ("Sent barcode to printer: " +:+ printer)]
  /\ csv_file w'
     = Ledger.log_print_history (input_barcode e) (clock e (clock_reads w))
         (csv_file w)
  /\ clock_reads w' = S (clock_reads w).
Proof.
  intros Hp Hok Hledger Hw Hh.
  destruct (print_run e label printer w Hp)
    as (Hlog & Hprev
        & [(_ & Hm & Hf & Hc & Hall & _)
          | [(err & Hl & _) | (text & _ & _ & _ & Hwhy)]]).
  - cbv zeta. rewrite Hlog, (until_failure_all _ _ Hall). auto.
  - congruence.
  - destruct Hwhy as [[_ [Hz | Hz]] | (c & Hin & Hc)];
      [contradiction | contradiction |].
    rewrite List.Forall_forall in Hok. rewrite (Hok c Hin) in Hc. discriminate Hc.
Qed.

(** The driver of the sample surroundings answers every call Pillow can
    answer. *)
Lemma sample_driver_answers (typed : string) (c : driver_call) :
  resizable c -> fails (Samples.windows typed) c = None.
Proof.
  destruct c; try reflexivity.
  intros [Hw Hh]. cbn [fails].
  destruct (Z.ltb_spec w 1); [lia |]. destruct (Z.ltb_spec h 1); [lia |].
  reflexivity.
Qed.

(** X21. The submission of a new value.  On Windows, with the barcode
    library installed, an encoder that accepts the value, a printable
    area no smaller than the label, a driver that raises on no call
    Pillow can answer and a ledger that can be opened, a run in which the
    text input holds a value that is not blank and differs from the
    remembered one, and in which no button is pressed, shows the label,
    makes every planned call on the driver for it (the resize among them
    is to a size of a pixel or more each way), reports the print, appends
    one row holding the value and the reading of the clock to the ledger,
    and remembers the value. *)
Theorem new_value_is_printed_and_logged
    (e : env) (i : inputs) (w : world) (raster : Img.image) :
  platform e = Printers.Win32 ->
  (forall c, resizable c -> fails e c = None) ->
  (label_width <= device_caps e HORZRES)%Z ->
  (label_height <= device_caps e VERTRES)%Z ->
  ledger_error e (clock_reads w) = None ->
  barcode_available e = true -> encode e (typed e) = Returned raster ->
  strip (typed e) <> EmptyString -> typed e <> previous_barcode w ->
  clear_pressed i = false -> reprint_pressed i = false ->
  let w' := script_run e i w in
  previous_barcode w' = typed e
  /\ messages w'
     = messages w ++ [StImage "Generated Barcode";
                      StSuccess ("Sent barcode to printer: " +:+ select_printer i)]
  /\ csv_file w'
     = Some (Journal.base [] (csv_file w)
             ++ [[typed e; Clock.strftime (clock e (clock_reads w))]])
  /\ clock_reads w' = S (clock_reads w)
  /\ exists label,
       generate_barcode e (typed e) w = (Some label, w)
       /\ driver_log w' = driver_log w ++ planned_calls e label (select_printer i)
       /\ Forall resizable (planned_calls e label (select_printer i)).
Proof.
  intros Hp Hok Hpw Hph Hledger Hav Henc Hstrip Hnew Hclear Hreprint.
  assert (Hfire : (auto_print_gate (typed e) (previous_barcode w)).1 = true)
    by (apply gate_fires_iff; auto).
  pose proof (gate_remembers (typed e) (previous_barcode w)) as Hrem.
  rewrite Hfire in Hrem.
  pose proof (gate_nonblank _ _ Hfire) as Hnb.
  assert (Htruthy : truthy (typed e) = true).
  { unfold nonblank in Hnb. apply andb_true_iff in Hnb. apply Hnb. }
  cbv zeta. rewrite script_run_stages. cbv zeta.
  rewrite (sidebar_idle _ _ _ Hreprint), Hfire, Hrem, Htruthy, Hclear.
  rewrite (generate_ok e _ _ raster Hav Henc).
  unfold auto_print_block. rewrite Hnb.
  rewrite (generate_ok e _ _ raster Hav Henc).
  set (label := Img.paste _ raster _ _).
  set (w2 := show (StImage "Generated Barcode") (set_previous (typed e) w)).
  assert (Hres : Forall resizable (planned_calls e label (select_printer i))).
  { apply planned_resizable; subst label; cbn [Img.width Img.height Img.paste Img.new];
      unfold label_width, label_height in *; lia. }
  assert (Hall : Forall (fun c => fails e c = None)
                   (planned_calls e label (select_printer i))).
  { eapply List.Forall_impl; [| exact Hres]. exact Hok. }
  destruct (print_succeeds e label (select_printer i) w2 Hp Hall Hledger)
    as (Hlog & Hprev & Hm & Hf & Hc); [discriminate | discriminate |].
  cbv zeta in Hlog, Hprev, Hm, Hf, Hc.
  cbn [previous_barcode messages csv_file clock_reads driver_log set_file].
  rewrite Hprev, Hm, Hf, Hc, Hlog.
  subst w2. cbn [previous_barcode messages csv_file clock_reads driver_log
                 set_previous show].
  split; [reflexivity |].
  split; [rewrite <- app_assoc; reflexivity |].
  split; [destruct (csv_file w); reflexivity |].
  split; [reflexivity |].
  exists label. split; [apply generate_ok; assumption |].
  split; [reflexivity | exact Hres].
Qed.

Lemma new_value_is_printed_and_logged_witness :
  csv_file
    (script_run (Samples.windows "ABC") (mk_inputs "Zebra" false [] false)
       Samples.fresh)
  = Some ([Ledger.header] ++ [["ABC"; Clock.strftime Samples.noon]]).
Proof.
  apply (new_value_is_printed_and_logged (Samples.windows "ABC")
           (mk_inputs "Zebra" false [] false) Samples.fresh
           (Samples.black 400 100)).
  - reflexivity.
  - apply sample_driver_answers.
  - vm_compute. discriminate.
  - vm_compute. discriminate.
  - reflexivity.
  - reflexivity.
  - reflexivity.
  - intros H. vm_compute in H. discriminate H.
  - intros H. vm_compute in H. discriminate H.
  - reflexivity.
  - reflexivity.
Defined.

End SubmitFacts.

(** ** Which values count as blank *)

Section BlankFacts.
Import PyStr.

Lemma lstrip_empty_iff (s : string) :
  lstrip s = EmptyString
  <-> Forall (fun c => is_space c = true) (list_ascii_of_string s).
Proof.
  induction s as [| c s IH]; cbn [lstrip list_ascii_of_string].
  - split; [constructor | reflexivity].
  - destruct (is_space c) eqn:Hc.
    + rewrite IH. split; [intros H; constructor; assumption |].
      intros H. inversion H. assumption.
    + split; [discriminate |]. intros H. inversion H. congruence.
Qed.

Lemma strip_empty_iff (s : string) :
  strip s = EmptyString <-> lstrip s = EmptyString.
Proof.
  unfold strip. split; [| intros ->; reflexivity].
  destruct (lstrip_head s) as [H | (c & r & H & Hc)]; [auto |].
  rewrite H. destruct (rstrip_keeps_head c r Hc) as [r' Hr]. rewrite Hr.
  discriminate.
Qed.

(** X22. The test [s and s.strip()] that decides whether a value is
    printed (the automatic print, the print block and the reprint loop
    all use it) holds exactly for the values with at least one character
    that is not white space. *)
Theorem nonblank_iff_visible_character (s : string) :
  nonblank s = true
  <-> exists c, In c (list_ascii_of_string s) /\ is_space c = false.
Proof.
  unfold nonblank. rewrite andb_true_iff, !truthy_iff, strip_empty_iff,
    lstrip_empty_iff. split.
  - intros [_ Hnot].
    induction s as [| c s IH]; [exfalso; apply Hnot; constructor |].
    cbn [list_ascii_of_string] in *.
    destruct (is_space c) eqn:Hc.
    + destruct IH as (c' & Hin & Hc').
      * intros H. apply Hnot. constructor; assumption.
      * exists c'. split; [right; exact Hin | exact Hc'].
    + exists c. split; [left; reflexivity | exact Hc].
  - intros (c & Hin & Hc). split.
    + intros ->. destruct Hin.
    + intros H. rewrite List.Forall_forall in H. rewrite (H c Hin) in Hc.
      discriminate Hc.
Qed.

End BlankFacts.
